(** * University summer programs scraper: record store and response handling

    A shallow embedding of [database_handler.py] and of the functions
    of [main.py] ([simple_scrape], [extract_programs_with_openai], the
    clearing of the database), the properties of the specification that
    concern them, and further properties of the code.

    Python values live in a heap of mutable objects, so that the copies
    and in-place updates of the source are visible: a dict or a list is a
    reference into the heap, [program.copy()] allocates, [uni['k'] = v]
    writes in place.  Functions of the source are computations in a state
    and exception monad over a [world]: the heap, the clock, the database
    file and the messages sent to the user interface.

    Limits of the model: a Python [str] is a [string] (characters with
    codes below 256); JSON numbers are integers (a [float] has no
    counterpart here); what the libraries compute is left to parameters
    (the clock, the JSON grammar, the completion endpoint, the request
    and the HTML parser, [repr] of containers); the order of the keys of
    a dict is not recorded. *)

From Stdlib Require Import ZArith String Ascii DecimalString DecimalNat.
From stdpp Require Import base option list gmap strings fin_maps fin_sets.

Local Open Scope Z_scope.
Local Open Scope nat_scope.

(** ** Python objects *)

Definition loc := positive.

(** A value is a scalar or a reference to a mutable object. *)
Inductive pyval :=
  | VNone
  | VBool (b : bool)
  | VInt (n : Z)
  | VStr (s : string)
  | VRef (l : loc).

(** Dicts have string keys (all dicts here come from JSON or from
    literals with string keys). *)
Inductive pyobj :=
  | ODict (d : gmap string pyval)
  | OList (xs : list pyval).

Inductive exn := KeyError | AttributeError | TypeError | SystemError.

(** A JSON document, as [json.load] sees it. *)
#[local] Unset Elimination Schemes.
Inductive jvalue :=
  | JNull
  | JBool (b : bool)
  | JInt (n : Z)
  | JStr (s : string)
  | JArr (xs : list jvalue)
  | JObj (kvs : list (string * jvalue)).
#[local] Set Elimination Schemes.

(** Induction on a document, with the members of arrays and objects as
    induction hypotheses. *)
Section JvalueInd.
Variable P : jvalue → Prop.
Hypothesis HNull : P JNull.
Hypothesis HBool : ∀ b, P (JBool b).
Hypothesis HInt : ∀ n, P (JInt n).
Hypothesis HStr : ∀ s, P (JStr s).
Hypothesis HArr : ∀ xs, Forall P xs → P (JArr xs).
Hypothesis HObj : ∀ kvs, Forall (λ kv, P kv.2) kvs → P (JObj kvs).

Fixpoint jvalue_nested_ind (j : jvalue) : P j :=
  match j with
  | JNull => HNull
  | JBool b => HBool b
  | JInt n => HInt n
  | JStr s => HStr s
  | JArr xs =>
      HArr xs ((fix go (xs : list jvalue) : Forall P xs :=
                  match xs with
                  | [] => @List.Forall_nil _ P
                  | x :: xs' => @List.Forall_cons _ P x xs' (jvalue_nested_ind x) (go xs')
                  end) xs)
  | JObj kvs =>
      HObj kvs ((fix go (kvs : list (string * jvalue)) : Forall (λ kv, P kv.2) kvs :=
                   match kvs with
                   | [] => @List.Forall_nil _ _
                   | kv :: kvs' =>
                       @List.Forall_cons _ (λ kv, P kv.2) kv kvs' (jvalue_nested_ind kv.2) (go kvs')
                   end) kvs)
  end.
End JvalueInd.

(** The database file: absent, present but unreadable ([open] or
    [json.load] raises; [msg] is [str(e)]), or holding a document. *)
Inductive file_state :=
  | FileMissing
  | FileUnreadable (msg : string)
  | FileData (doc : jvalue).

(** Calls to streamlit that display a message. *)
Inductive ui_call :=
  | SidebarSuccess (s : string)
  | SidebarError (s : string)
  | SidebarInfo (s : string)
  | StError (s : string)
  | StCode (s : string).

Record world := World {
  heap : gmap loc pyobj;
  ticks : nat;                (* number of clock readings so far *)
  db_file : file_state;
  ui : list ui_call           (* messages displayed, oldest first *)
}.

Definition set_heap (h : gmap loc pyobj) (w : world) : world :=
  World h (ticks w) (db_file w) (ui w).

(** What the completion endpoint answers: an exception, or a message
    whose content is a string or [None]. *)
Inductive api_result :=
  | ApiRaise (msg : string)
  | ApiContent (content : option string).

(** ** The monad: state and exceptions *)

Inductive outcome (A : Type) :=
  | Ok (a : A) (w : world)
  | Raise (e : exn) (w : world).
Arguments Ok {A} a w.
Arguments Raise {A} e w.

Definition M (A : Type) : Type := world → outcome A.

#[global] Instance M_ret : MRet M := λ A a w, Ok a w.
#[global] Instance M_bind : MBind M := λ A B f m w,
  match m w with
  | Ok a w' => f a w'
  | Raise e w' => Raise e w'
  end.

Definition raise {A} (e : exn) : M A := λ w, Raise e w.

Fixpoint for_each {A} (xs : list A) (body : A → M unit) : M unit :=
  match xs with
  | [] => mret tt
  | x :: xs' => body x ;; for_each xs' body
  end.

Fixpoint map_each {A B} (f : A → M B) (xs : list A) : M (list B) :=
  match xs with
  | [] => mret []
  | x :: xs' => y ← f x; ys ← map_each f xs'; mret (y :: ys)
  end.

(** ** Heap primitives *)

Definition alloc (o : pyobj) : M pyval := λ w,
  let l := fresh (dom (heap w)) in
  Ok (VRef l) (set_heap (<[l := o]> (heap w)) w).

Definition lookup_obj (l : loc) : M pyobj := λ w,
  match heap w !! l with
  | Some o => Ok o w
  | None => Raise SystemError w
  end.

Definition store (l : loc) (o : pyobj) : M unit := λ w,
  Ok tt (set_heap (<[l := o]> (heap w)) w).

(** ** Built-in operations, with the exceptions Python raises *)

(** [len(v)] *)
Definition py_len (v : pyval) : M nat :=
  match v with
  | VStr s => mret (String.length s)
  | VRef l =>
      o ← lookup_obj l;
      mret (match o with ODict d => size d | OList xs => length xs end)
  | _ => raise TypeError
  end.

(** The elements [for x in v] visits.  A dict yields its keys; the order
    is immaterial here: every loop of the source fails on the first key. *)
Definition py_iter (v : pyval) : M (list pyval) :=
  match v with
  | VStr s => mret ((λ c, VStr (String c EmptyString)) <$> list_ascii_of_string s)
  | VRef l =>
      o ← lookup_obj l;
      mret (match o with
            | ODict d => (λ kv, VStr kv.1) <$> map_to_list d
            | OList xs => xs
            end)
  | _ => raise TypeError
  end.

(** [v.get(k, dflt)] *)
Definition py_get (v : pyval) (k : string) (dflt : pyval) : M pyval :=
  match v with
  | VRef l =>
      o ← lookup_obj l;
      match o with
      | ODict d => mret (default dflt (d !! k))
      | OList _ => raise AttributeError
      end
  | _ => raise AttributeError
  end.

(** [v[k]] for a string [k] *)
Definition py_getitem (v : pyval) (k : string) : M pyval :=
  match v with
  | VRef l =>
      o ← lookup_obj l;
      match o with
      | ODict d => match d !! k with Some x => mret x | None => raise KeyError end
      | OList _ => raise TypeError
      end
  | _ => raise TypeError
  end.

(** [v[k] = x] for a string [k] *)
Definition py_setitem (v : pyval) (k : string) (x : pyval) : M unit :=
  match v with
  | VRef l =>
      o ← lookup_obj l;
      match o with
      | ODict d => store l (ODict (<[k := x]> d))
      | OList _ => raise TypeError
      end
  | _ => raise TypeError
  end.

(** [v.append(x)] *)
Definition py_append (v : pyval) (x : pyval) : M unit :=
  match v with
  | VRef l =>
      o ← lookup_obj l;
      match o with
      | OList xs => store l (OList (xs ++ [x]))
      | ODict _ => raise AttributeError
      end
  | _ => raise AttributeError
  end.

(** [v.copy()]: a shallow copy, a new object *)
Definition py_copy (v : pyval) : M pyval :=
  match v with
  | VRef l => o ← lookup_obj l; alloc o
  | _ => raise AttributeError
  end.

(** [v + n] for an int [n] *)
Definition py_add_int (v : pyval) (n : nat) : M pyval :=
  match v with
  | VInt z => mret (VInt (z + Z.of_nat n))
  | VBool b => mret (VInt (Z.b2z b + Z.of_nat n))
  | _ => raise TypeError
  end.

(** [v == s] for a string [s] *)
Definition py_eq_str (v : pyval) (s : string) : bool :=
  match v with
  | VStr t => String.eqb t s
  | _ => false
  end.

(** [isinstance(v, list)] *)
Definition py_is_list (v : pyval) : M bool :=
  match v with
  | VRef l => o ← lookup_obj l; mret (match o with OList _ => true | ODict _ => false end)
  | _ => mret false
  end.

Definition str_of_nat (n : nat) : string := NilEmpty.string_of_uint (Nat.to_uint n).
Definition str_of_Z (z : Z) : string := NilZero.string_of_int (Z.to_int z).

(** [str(v)], as an f-string formats a value; [repr_obj] stands for what
    Python prints for a list or a dict. *)
Definition py_str (repr_obj : gmap loc pyobj → loc → string) (v : pyval) : M string :=
  match v with
  | VNone => mret "None"
  | VBool true => mret "True"
  | VBool false => mret "False"
  | VInt z => mret (str_of_Z z)
  | VStr s => mret s
  | VRef l => λ w, Ok (repr_obj (heap w) l) w
  end.

(** [bool(v)], as [if v:] tests it *)
Definition py_truthy (v : pyval) : M bool :=
  match v with
  | VNone => mret false
  | VBool b => mret b
  | VInt z => mret (negb (Z.eqb z 0))
  | VStr s => mret (negb (String.eqb s EmptyString))
  | VRef l =>
      o ← lookup_obj l;
      mret (match o with
            | ODict d => negb (Nat.eqb (size d) 0)
            | OList xs => negb (Nat.eqb (length xs) 0)
            end)
  end.

(** [v == []] *)
Definition py_eq_empty_list (v : pyval) : M bool :=
  match v with
  | VRef l =>
      o ← lookup_obj l;
      mret (match o with OList [] => true | _ => false end)
  | _ => mret false
  end.

(** ** String methods *)

(** [s.replace(old, new)] for a non-empty [old]: occurrences are found
    from the left and do not overlap.  [skip] counts the characters of
    the occurrence just replaced that are still to be passed over. *)
Fixpoint replace_from (old new : string) (skip : nat) (s : string) : string :=
  match s with
  | EmptyString => EmptyString
  | String c s' =>
      match skip with
      | S k => replace_from old new k s'
      | O =>
          if String.prefix old s
          then new +:+ replace_from old new (String.length old - 1) s'
          else String c (replace_from old new 0 s')
      end
  end.

Definition str_replace (old new s : string) : string := replace_from old new 0 s.

(** [s.split(sep)] for a one-character separator *)
Fixpoint str_split (sep : ascii) (s : string) : list string :=
  match s with
  | EmptyString => [EmptyString]
  | String c s' =>
      if Ascii.eqb c sep then EmptyString :: str_split sep s'
      else match str_split sep s' with
           | x :: xs => String c x :: xs
           | [] => [String c EmptyString]
           end
  end.

(** [c.isspace()] for a character with a code below 256 *)
Definition py_isspace (c : ascii) : bool :=
  let n := nat_of_ascii c in
  (Nat.leb 9 n && Nat.leb n 13) || (Nat.leb 28 n && Nat.leb n 32)
  || Nat.eqb n 133 || Nat.eqb n 160.

Fixpoint str_lstrip (s : string) : string :=
  match s with
  | EmptyString => EmptyString
  | String c s' => if py_isspace c then str_lstrip s' else s
  end.

Fixpoint str_rstrip (s : string) : string :=
  match s with
  | EmptyString => EmptyString
  | String c s' =>
      match str_rstrip s' with
      | EmptyString => if py_isspace c then EmptyString else String c EmptyString
      | r => String c r
      end
  end.

(** [s.strip()] *)
Definition str_strip (s : string) : string := str_rstrip (str_lstrip s).

(** [s[a:-b]] for [b > 0]: from index [a] up to [b] characters before the
    end; empty when the two bounds cross. *)
Definition str_slice (a b : nat) (s : string) : string :=
  substring a (String.length s - b - a) s.

(** ** The clock, the messages, the file *)

Definition read_clock (isoformat_now : nat → string) : M string := λ w,
  Ok (isoformat_now (ticks w)) (World (heap w) (S (ticks w)) (db_file w) (ui w)).

Definition display (c : ui_call) : M unit := λ w,
  Ok tt (World (heap w) (ticks w) (db_file w) (ui w ++ [c])).

Definition read_file : M file_state := λ w, Ok (db_file w) w.

(** [json.load] / [json.loads] once the text is parsed: the Python
    objects of a document, all newly allocated.  Of two members with the
    same name, an object keeps the last. *)
Definition build_items (build : jvalue → M pyval) : list jvalue → M (list pyval) :=
  fix go (xs : list jvalue) : M (list pyval) :=
    match xs with
    | [] => mret []
    | x :: xs' => v ← build x; vs ← go xs'; mret (v :: vs)
    end.

Definition build_members (build : jvalue → M pyval)
    : list (string * jvalue) → M (gmap string pyval) :=
  fix go (kvs : list (string * jvalue)) : M (gmap string pyval) :=
    match kvs with
    | [] => mret ∅
    | kv :: kvs' =>
        v ← build kv.2;
        d ← go kvs';
        mret (match d !! kv.1 with Some _ => d | None => <[kv.1 := v]> d end)
    end.

Fixpoint json_build (j : jvalue) : M pyval :=
  match j with
  | JNull => mret VNone
  | JBool b => mret (VBool b)
  | JInt n => mret (VInt n)
  | JStr s => mret (VStr s)
  | JArr xs => vs ← build_items json_build xs; alloc (OList vs)
  | JObj kvs => d ← build_members json_build kvs; alloc (ODict d)
  end.

Definition dq : string := String "034"%char EmptyString.
Definition nl : string := String "010"%char EmptyString.

Inductive verdict := ProgramsFound | NoProgramsFound | ExtractionFailed.

Section Program.

(** Module constants and library calls of the source. *)
Variable DATABASE_FILE : string.
(** [isoformat_now k]: what the [k]-th call of
    [datetime.now().isoformat()] returns. *)
Variable isoformat_now : nat → string.
Variable repr_obj : gmap loc pyobj → loc → string.
Variable api_key : string.
(** The completion endpoint, given the key and the prompt. *)
Variable chat_completion : string → string → api_result.
(** The JSON grammar: [None] when [json.loads] raises [JSONDecodeError]. *)
Variable json_loads : string → option jvalue.

Definition now : M string := read_clock isoformat_now.

(** *** database_handler.py *)

(** The dict literal of [load_database]. *)
Definition empty_database : M pyval :=
  programs ← alloc (OList []);
  universities ← alloc (OList []);
  alloc (ODict (<["programs" := programs]>
               (<["universities" := universities]>
               (<["last_updated" := VNone]>
               (<["total_programs" := VInt 0]> ∅))))).

Definition load_database : M pyval :=
  f ← read_file;
  match f with
  | FileData doc =>
      data ← json_build doc;
      display (SidebarSuccess ("Database loaded from: " +:+ DATABASE_FILE));;
      mret data
  | FileUnreadable msg =>
      display (SidebarError ("Error loading database: " +:+ msg));;
      empty_database
  | FileMissing =>
      display (SidebarInfo ("New database will be created at: " +:+ DATABASE_FILE));;
      empty_database
  end.

(** Line 49: the name shown for the source. *)
Definition university_name_of (university_url : string) : string :=
  hd EmptyString
     (str_split "/" (str_replace "http://" EmptyString
                       (str_replace "https://" EmptyString university_url))).

(** Lines 65-68: the body of the loop over the existing entries. *)
Definition update_university (programs : pyval) (university_url : string)
    (uni : pyval) : M unit :=
  u ← py_get uni "url" VNone;
  if py_eq_str u university_url then
    t ← now;
    py_setitem uni "scraped_at" (VStr t);;
    c ← py_get uni "programs_count" (VInt 0);
    n ← py_len programs;
    s ← py_add_int c n;
    py_setitem uni "programs_count" s
  else mret tt.

(** Lines 72-78: the body of the loop over the new programs. *)
Definition add_program (database : pyval) (university_name university_url : string)
    (program : pyval) : M unit :=
  program_with_meta ← py_copy program;
  py_setitem program_with_meta "university" (VStr university_name);;
  py_setitem program_with_meta "source_url" (VStr university_url);;
  t ← now;
  py_setitem program_with_meta "added_at" (VStr t);;
  name ← py_get program "name" (VStr "unknown");
  name_str ← py_str repr_obj name;
  ps ← py_getitem database "programs";
  n ← py_len ps;
  py_setitem program_with_meta "id"
    (VStr (university_name +:+ "_" +:+ name_str +:+ "_" +:+ str_of_nat n));;
  ps ← py_getitem database "programs";
  py_append ps program_with_meta.

(** Lines 51-68: the entry of the source in [universities].  The list
    [existing_urls] is local and never escapes: it is a plain list here.
    The lists the loops run over are not changed while a loop runs (the
    database objects are new, see [load_database]), so a loop visits
    the elements the list has when the loop starts. *)
Definition register_university (database programs : pyval)
    (university_name university_url : string) : M unit :=
  dflt ← alloc (OList []);
  unis ← py_get database "universities" dflt;
  unis ← py_iter unis;
  existing_urls ← map_each (λ uni, py_get uni "url" (VStr EmptyString)) unis;
  if negb (existsb (λ u, py_eq_str u university_url) existing_urls) then
    t ← now;
    n ← py_len programs;
    university_info ← alloc (ODict (<["name" := VStr university_name]>
                                   (<["url" := VStr university_url]>
                                   (<["scraped_at" := VStr t]>
                                   (<["programs_count" := VInt (Z.of_nat n)]> ∅)))));
    us ← py_getitem database "universities";
    py_append us university_info
  else
    us ← py_getitem database "universities";
    us ← py_iter us;
    for_each us (update_university programs university_url).

(** Lines 80-82 *)
Definition update_metadata (database : pyval) : M unit :=
  t ← now;
  py_setitem database "last_updated" (VStr t);;
  ps ← py_getitem database "programs";
  n ← py_len ps;
  py_setitem database "total_programs" (VInt (Z.of_nat n)).

(** Lines 48-84: what [add_programs_to_database] does once the database
    is loaded. *)
Definition merge_loaded (database programs : pyval) (university_url : string)
    : M pyval :=
  let university_name := university_name_of university_url in
  register_university database programs university_name university_url;;
  ps ← py_iter programs;
  for_each ps (add_program database university_name university_url);;
  update_metadata database;;
  mret database.

Definition add_programs_to_database (programs : pyval) (university_url : string)
    : M pyval :=
  database ← load_database;
  merge_loaded database programs university_url.

(** *** main.py: extract_programs_with_openai *)

Definition prompt_of (content url : string) : string :=
  String.concat nl [
    EmptyString;
    "Extract computer science and programming summer programs from this university website content.";
    EmptyString;
    "Website URL: " +:+ url;
    "Content: " +:+ content;
    EmptyString;
    "Extract ONLY programs related to:";
    "- Computer Science";
    "- Programming/Coding";
    "- Software Engineering  ";
    "- Data Science";
    "- AI/Machine Learning";
    "- Web Development";
    "- Game Development";
    EmptyString;
    "For each program found, return a JSON object with these exact fields (Compulsory to do):";
    "- " +:+ dq +:+ "university" +:+ dq +:+ ": Name of University/Summer School/College";
    "- " +:+ dq +:+ "name" +:+ dq +:+ ": Program title";
    "- " +:+ dq +:+ "description" +:+ dq +:+ ": What students learn (max 150 words)";
    "- " +:+ dq +:+ "eligibility" +:+ dq +:+ ": Who can apply (age, education level, requirements)";
    "- " +:+ dq +:+ "duration" +:+ dq +:+ ": Program length and dates";
    "- " +:+ dq +:+ "pricing" +:+ dq +:+ ": Free (if not clearly stated, else state cost of enrolling on this summer school/bootcamp program" +:+ dq +:+ "),";
    "- " +:+ dq +:+ "link" +:+ dq +:+ ": Program URL (use the base URL if specific link not found)";
    EmptyString;
    "Return ONLY a valid JSON array. If no programs found, return [].";
    EmptyString;
    "Example format:";
    "[";
    "  {";
    "    " +:+ dq +:+ "university" +:+ dq +:+ ": " +:+ dq +:+ "University of Energy and Natural Resources - Sunyani, Ghana" +:+ dq +:+ ",";
    "    " +:+ dq +:+ "name" +:+ dq +:+ ": " +:+ dq +:+ "Python Summer Bootcamp" +:+ dq +:+ ",";
    "    " +:+ dq +:+ "description" +:+ dq +:+ ": " +:+ dq +:+ "6-week intensive program teaching Python programming, web development with Django, and data analysis" +:+ dq +:+ ",";
    "    " +:+ dq +:+ "eligibility" +:+ dq +:+ ": " +:+ dq +:+ "High school students ages 16-18" +:+ dq +:+ ",";
    "    " +:+ dq +:+ "duration" +:+ dq +:+ ": " +:+ dq +:+ "6 weeks, June-July 2024" +:+ dq +:+ ",";
    "    " +:+ dq +:+ "pricing";
    "    " +:+ dq +:+ "link" +:+ dq +:+ ": " +:+ dq +:+ url +:+ dq;
    "  }";
    "]";
    EmptyString ].

(** Lines 132-137: strip, then drop a code fence. *)
Definition clean_response (content : string) : string :=
  let result := str_strip content in
  if String.prefix "```json" result then str_slice 7 3 result
  else if String.prefix "```" result then str_slice 3 3 result
  else result.

Definition extract_programs_with_openai (content url : string) : M pyval :=
  if String.eqb api_key EmptyString then
    display (StError "Please enter your OpenAI API key in the sidebar");;
    mret VNone
  else
    match chat_completion api_key (prompt_of content url) with
    | ApiRaise msg =>
        display (StError ("OpenAI API Error: " +:+ msg));;
        mret VNone
    | ApiContent None =>
        (* [None.strip()] raises, the outer handler reports it *)
        display (StError ("OpenAI API Error: "
                          +:+ "'NoneType' object has no attribute 'strip'"));;
        mret VNone
    | ApiContent (Some text) =>
        let result := clean_response text in
        match json_loads result with
        | Some doc =>
            programs ← json_build doc;
            is_list ← py_is_list programs;
            if is_list : bool then mret programs else alloc (OList [])
        | None =>
            display (StError "Failed to parse AI response as JSON");;
            display (StCode result);;
            alloc (OList [])
        end
    end.

(** Lines 168, 227 and 229: which branch the script takes on the value
    [extract_programs_with_openai] returned. *)
Definition verdict_of (programs : pyval) : M verdict :=
  found ← py_truthy programs;
  if found : bool then mret ProgramsFound
  else
    empty ← py_eq_empty_list programs;
    mret (if empty : bool then NoProgramsFound else ExtractionFailed).

End Program.

(** ** The specification's wording, for comparison with the code *)

(** Section 4.4, step 1: strip a leading scheme, keep what precedes the
    first slash. *)
Definition spec_strip_scheme (url : string) : string :=
  if String.prefix "https://" url then substring 8 (String.length url - 8) url
  else if String.prefix "http://" url then substring 7 (String.length url - 7) url
  else url.

Fixpoint until_slash (s : string) : string :=
  match s with
  | EmptyString => EmptyString
  | String c s' => if Ascii.eqb c "/" then EmptyString else String c (until_slash s')
  end.

Definition spec_display_name (url : string) : string :=
  until_slash (spec_strip_scheme url).

Fixpoint str_suffix (p s : string) : bool :=
  String.eqb p s
  || match s with
     | EmptyString => false
     | String _ s' => str_suffix p s'
     end.

(** Section 4.3: a text is wrapped in a code fence when it opens and
    closes with a fence marker. *)
Definition is_fenced (s : string) : bool :=
  String.prefix "```" s && str_suffix "```" s && Nat.leb 6 (String.length s).

(** The response handling of section 4.3, for a cleaning function
    [clean]: a fenced text loses its opening marker (with its language
    tag, if any) and its closing marker, any other text is only stripped. *)
Definition removes_fence_exactly_when_fenced (clean : string → string) : Prop :=
  ∀ text : string,
    let s := str_strip text in
    if is_fenced s
    then ∃ tag, s = "```" +:+ tag +:+ clean text +:+ "```"
    else clean text = s.

(** A text that is empty or starts with a slash. *)
Definition slash_headed (t : string) : Prop :=
  t = EmptyString ∨ ∃ t', t = String "/" t'.

Fixpoint no_slash (s : string) : bool :=
  match s with
  | EmptyString => true
  | String c s' => negb (Ascii.eqb c "/") && no_slash s'
  end.

(** ** Reading the heap *)

(** What [len(v)] is in a heap. *)
Definition len_of (h : gmap loc pyobj) (v : pyval) : option nat :=
  match v with
  | VStr s => Some (String.length s)
  | VRef l =>
      match h !! l with
      | Some (ODict d) => Some (size d)
      | Some (OList xs) => Some (length xs)
      | None => None
      end
  | _ => None
  end.

(** The object [o] holds a reference to [l]. *)
Definition refers (o : pyobj) (l : loc) : Prop :=
  match o with
  | ODict d => ∃ k, d !! k = Some (VRef l)
  | OList xs => VRef l ∈ xs
  end.

(** A set of locations that the references of its objects never leave. *)
Definition closed_in (h : gmap loc pyobj) (P : loc → Prop) : Prop :=
  ∀ l o l', P l → h !! l = Some o → refers o l' → P l'.

(** The keys [add_programs_to_database] assigns to. *)
Definition meta_keys : list string :=
  ["scraped_at"; "programs_count"; "university"; "source_url"; "added_at";
   "id"; "last_updated"; "total_programs"].

(** The keys the loop over the existing entries assigns to. *)
Definition scrape_keys : list string := ["scraped_at"; "programs_count"].

(** From [h] to [h'], objects are only added, lists only appended to,
    and dicts only assigned at the keys of [K]. *)
Definition evolves (K : list string) (h h' : gmap loc pyobj) : Prop :=
  ∀ l o, h !! l = Some o →
    match o with
    | ODict d => ∃ d', h' !! l = Some (ODict d') ∧ ∀ k, k ∉ K → d' !! k = d !! k
    | OList xs => ∃ ys, h' !! l = Some (OList (xs ++ ys))
    end.

(** From [h] to [h'], only objects at locations of [T] are changed. *)
Definition writes_in (T : loc → Prop) (h h' : gmap loc pyobj) : Prop :=
  ∀ l o, h !! l = Some o → is_Some (h' !! l) ∧ (¬ T l → h' !! l = Some o).

(** How an f-string shows the [name] of a record: the value, or
    [unknown] when the record has no [name]. *)
Definition str_of (repr_obj : gmap loc pyobj → loc → string)
    (h : gmap loc pyobj) (v : pyval) : string :=
  match v with
  | VNone => "None"
  | VBool true => "True"
  | VBool false => "False"
  | VInt z => str_of_Z z
  | VStr s => s
  | VRef l => repr_obj h l
  end.

Definition name_shown (repr_obj : gmap loc pyobj → loc → string)
    (h : gmap loc pyobj) (r : gmap string pyval) : string :=
  str_of repr_obj h (default (VStr "unknown") (r !! "name")).

(** Locations allocated between [h] and [h']. *)
Definition fresh_in (h h' : gmap loc pyobj) (l : loc) : Prop :=
  h !! l = None ∧ is_Some (h' !! l).

(** The members of the dict [d] reach disjoint parts of the heap, all
    within [N]: each member [k] stays within [ρ k]. *)
Definition members_apart (h : gmap loc pyobj) (N : loc → Prop)
    (d : gmap string pyval) : Prop :=
  ∃ ρ : string → loc → Prop,
    (∀ k l, d !! k = Some (VRef l) → ρ k l) ∧
    (∀ k, closed_in h (ρ k)) ∧
    (∀ k l, ρ k l → N l) ∧
    (∀ k1 k2 l, ρ k1 l → ρ k2 l → k1 = k2).

(** [h'] is [h] and new objects on top of it: nothing of [h] is changed,
    new objects refer to new objects only, and none refers to itself. *)
Definition grown (h h' : gmap loc pyobj) : Prop :=
  h ⊆ h' ∧
  closed_in h' (fresh_in h h') ∧
  ∀ l o, fresh_in h h' l → h' !! l = Some o → ¬ refers o l.

(** [v] in [h'] is a tree of new objects built on top of [h]; the members
    of a root dict share nothing. *)
Definition built (h : gmap loc pyobj) (v : pyval) (h' : gmap loc pyobj) : Prop :=
  grown h h' ∧
  ∀ l, v = VRef l →
    fresh_in h h' l ∧
    ∀ d, h' !! l = Some (ODict d) →
      members_apart h' (λ l', fresh_in h h' l' ∧ l' ≠ l) d.

(** Two worlds that differ in their heaps only. *)
Definition same_env (w w' : world) : Prop :=
  ticks w' = ticks w ∧ db_file w' = db_file w ∧ ui w' = ui w.

(** [json_build] never raises, and what it returns is [built]. *)
Definition builds_well (j : jvalue) : Prop :=
  ∀ w, ∃ v w', json_build j w = Ok v w' ∧ same_env w w' ∧ built (heap w) v (heap w').

(** The document of the empty collection. *)
Definition empty_document : jvalue :=
  JObj [("programs", JArr []); ("universities", JArr []);
        ("last_updated", JNull); ("total_programs", JInt 0)].

(** The entry at [l] is one that [update_university] rewrites for [url]. *)
Definition matching (h : gmap loc pyobj) (url : string) (l : loc) : Prop :=
  ∃ de, h !! l = Some (ODict de) ∧ py_eq_str (default VNone (de !! "url")) url = true.

(** Some entry of the list [us] makes [url] a member of [existing_urls]. *)
Definition listed (h : gmap loc pyobj) (us : list pyval) (url : string) : Prop :=
  ∃ l de, VRef l ∈ us ∧ h !! l = Some (ODict de)
          ∧ py_eq_str (default (VStr EmptyString) (de !! "url")) url = true.

(** The record [add_program] makes of the record [r], when the list of
    programs has [n] elements and the clock says [t]; [shown] is the name
    as the f-string shows it. *)
Definition with_meta (name url shown t : string) (n : nat)
    (r : gmap string pyval) : gmap string pyval :=
  <["id" := VStr (name +:+ "_" +:+ shown +:+ "_" +:+ str_of_nat n)]>
    (<["added_at" := VStr t]>
    (<["source_url" := VStr url]>
    (<["university" := VStr name]> r))).

(** [c] is the new record made of [item] between [h] and [h'], the
    [n]-th of the list. *)
Definition new_record (repr_obj : gmap loc pyobj → loc → string)
    (h h' : gmap loc pyobj) (name url : string) (n : nat)
    (item : pyval) (c : loc) : Prop :=
  h !! c = None ∧
  ∃ li r hc t,
    item = VRef li ∧ h !! li = Some (ODict r) ∧
    h' !! c = Some (ODict (with_meta name url (name_shown repr_obj hc r) t n r)).

Fixpoint appended (repr_obj : gmap loc pyobj → loc → string)
    (h h' : gmap loc pyobj) (name url : string) (n : nat)
    (items : list pyval) (cs : list loc) : Prop :=
  match items, cs with
  | [], [] => True
  | item :: items', c :: cs' =>
      new_record repr_obj h h' name url n item c
      ∧ appended repr_obj h h' name url (S n) items' cs'
  | _, _ => False
  end.

(** The entry at [l] has been rewritten by [update_university]: its
    [scraped_at] is a reading of the clock, its [programs_count] an int. *)
Definition stamped (isoformat_now : nat → string) (h : gmap loc pyobj) (l : loc) : Prop :=
  ∃ de k z, h !! l = Some (ODict de)
            ∧ de !! "scraped_at" = Some (VStr (isoformat_now k))
            ∧ de !! "programs_count" = Some (VInt z).

(** A computation whose heap only [evolves] and which leaves the
    database file alone. *)
Definition evolving (K : list string) {A} (m : M A) : Prop :=
  ∀ w a w', m w = Ok a w' → evolves K (heap w) (heap w') ∧ db_file w' = db_file w.

(** ** Well-formed arguments *)

(** What [uni.get('programs_count', 0)] counts for, in a sum. *)
Definition count_of (de : gmap string pyval) : Z :=
  match de !! "programs_count" with
  | Some (VInt z) => z
  | Some (VBool b) => Z.b2z b
  | _ => 0%Z
  end.

(** An entry whose [programs_count] can be added to: there is none, or
    it is an int or a bool. *)
Definition countable (de : gmap string pyval) : Prop :=
  match de !! "programs_count" with
  | None | Some (VInt _) | Some (VBool _) => True
  | _ => False
  end.

(** A record of a batch: a dict. *)
Definition record_at (h : gmap loc pyobj) (v : pyval) : Prop :=
  ∃ l r, v = VRef l ∧ h !! l = Some (ODict r).

Definition entry_at (h : gmap loc pyobj) (v : pyval) : Prop :=
  ∃ l de, v = VRef l ∧ h !! l = Some (ODict de) ∧ countable de.

(** A collection, as section 3 of the specification has it: a dict with
    a list of [programs] and a list of [universities], whose elements are
    entries. *)
Definition collection_at (h : gmap loc pyobj) (db : pyval) : Prop :=
  ∃ ld d lp ps lu us,
    db = VRef ld ∧ h !! ld = Some (ODict d) ∧
    d !! "programs" = Some (VRef lp) ∧ h !! lp = Some (OList ps) ∧
    d !! "universities" = Some (VRef lu) ∧ h !! lu = Some (OList us) ∧
    Forall (entry_at h) us.

(** A batch: a list of records. *)
Definition batch_at (h : gmap loc pyobj) (programs : pyval) : Prop :=
  ∃ lb items, programs = VRef lb ∧ h !! lb = Some (OList items) ∧
              Forall (record_at h) items.

(** ** Concrete surroundings, used to run the code on examples *)

(** The batch of the example of section 8: one record, named [Code Camp]. *)
Definition code_camp_heap : gmap loc pyobj :=
  <[1%positive := OList [VRef 2%positive]]>
    (<[2%positive := ODict (<["name" := VStr "Code Camp"]> ∅)]> ∅).

(** No record at all. *)
Definition empty_batch_heap : gmap loc pyobj := <[1%positive := OList []]> ∅.

(** The database file after one scrape of [https://a.edu/] that found one
    program. *)
Definition a_edu_document : jvalue :=
  JObj [("programs",
         JArr [JObj [("name", JStr "Robotics");
                     ("university", JStr "a.edu");
                     ("source_url", JStr "https://a.edu/");
                     ("added_at", JStr "2024-06-01T10:00:00");
                     ("id", JStr "a.edu_Robotics_0")]]);
        ("universities",
         JArr [JObj [("name", JStr "a.edu");
                     ("url", JStr "https://a.edu/");
                     ("scraped_at", JStr "2024-06-01T10:00:00");
                     ("programs_count", JInt 1)]]);
        ("last_updated", JStr "2024-06-01T10:00:00");
        ("total_programs", JInt 1)].

(** A clock whose [k]-th reading is [T] followed by [k], a [repr] that
    does not look at the object, an initial state. *)
Definition clock0 (k : nat) : string := "T" +:+ str_of_nat k.
Definition repr0 (h : gmap loc pyobj) (l : loc) : string := "<object>".
Definition world0 (f : file_state) (h : gmap loc pyobj) : world := World h 0 f [].

Definition result_value {A} (dflt : A) (o : outcome A) : A :=
  match o with Ok a _ => a | Raise _ _ => dflt end.
Definition result_world {A} (o : outcome A) : world :=
  match o with Ok _ w => w | Raise _ w => w end.

Definition database_path : string := "/srv/scraper/university_programs_database.json".

(** The file holds [a_edu_document]; the batch is the record [Code Camp],
    or no record. *)
Definition scrape_world : world := world0 (FileData a_edu_document) code_camp_heap.
Definition rescrape_world : world := world0 (FileData a_edu_document) empty_batch_heap.

(** [add_programs_to_database(batch, url)] in these surroundings; the batch
    is the list at location 1. *)
Abbreviation merge0 url w :=
  (add_programs_to_database database_path clock0 repr0 (VRef 1%positive) url w).
Abbreviation load0 w := (load_database database_path w).

(** The database dict that [load_database] builds from [a_edu_document] in
    [rescrape_world]. *)
Definition a_edu_dict : gmap string pyval :=
  <["programs" := VRef 3%positive]>
    (<["universities" := VRef 5%positive]>
    (<["last_updated" := VStr "2024-06-01T10:00:00"]>
    (<["total_programs" := VInt 1]> ∅))).

(** A [json.loads] that knows one document, the empty array, and
    completion endpoints that always give the same text. *)
Definition loads_empty_array (s : string) : option jvalue :=
  if String.eqb s "[]" then Some (JArr []) else None.
Definition completion_of (text : string) (key prompt : string) : api_result :=
  ApiContent (Some text).

(** Section 8 of the specification, on merging an empty list: every entry
    of [universities] that the loaded database has is afterwards as it
    was. *)
Definition spec_empty_merge_keeps_entries
    (DATABASE_FILE : string) (isoformat_now : nat → string)
    (repr_obj : gmap loc pyobj → loc → string) : Prop :=
  ∀ lb url w0 r w' w1 ld d lu us,
    add_programs_to_database DATABASE_FILE isoformat_now repr_obj (VRef lb) url w0
      = Ok r w' →
    heap w0 !! lb = Some (OList []) →
    load_database DATABASE_FILE w0 = Ok (VRef ld) w1 →
    heap w1 !! ld = Some (ODict d) →
    d !! "universities" = Some (VRef lu) →
    heap w1 !! lu = Some (OList us) →
    ∀ e o, VRef e ∈ us → heap w1 !! e = Some o → heap w' !! e = Some o.

(** ** json.dump *)

(** What encoding a value gives: a document; the [ValueError] of a
    container that holds itself; and two results that Python does not
    have, a reference to no object and the end of the fuel. *)
Inductive dumping (A : Type) :=
  | Dumped (a : A)
  | Circular
  | Dangling
  | Starved.
Arguments Dumped {A} a.
Arguments Circular {A}.
Arguments Dangling {A}.
Arguments Starved {A}.

#[global] Instance dumping_ret : MRet dumping := λ A a, Dumped a.
#[global] Instance dumping_bind : MBind dumping := λ A B f m,
  match m with
  | Dumped a => f a
  | Circular => Circular
  | Dangling => Dangling
  | Starved => Starved
  end.

Definition dump_items (dump : pyval → dumping jvalue)
    : list pyval → dumping (list jvalue) :=
  fix go (xs : list pyval) : dumping (list jvalue) :=
    match xs with
    | [] => mret []
    | x :: xs' => j ← dump x; js ← go xs'; mret (j :: js)
    end.

Definition dump_members (dump : pyval → dumping jvalue)
    : list (string * pyval) → dumping (list (string * jvalue)) :=
  fix go (kvs : list (string * pyval)) : dumping (list (string * jvalue)) :=
    match kvs with
    | [] => mret []
    | kv :: kvs' => j ← dump kv.2; js ← go kvs'; mret ((kv.1, j) :: js)
    end.

(** The encoder of [json.dump]: [markers] are the containers being
    encoded, a container found among them is a circular reference.  Each
    container entered takes one unit of [fuel].  A [gmap] does not record
    the order in which the keys of a dict were inserted: the members of
    an object are written in the order of [map_to_list]. *)
Fixpoint json_dump_from (fuel : nat) (h : gmap loc pyobj) (markers : list loc)
    (v : pyval) : dumping jvalue :=
  match v with
  | VNone => Dumped JNull
  | VBool b => Dumped (JBool b)
  | VInt z => Dumped (JInt z)
  | VStr s => Dumped (JStr s)
  | VRef l =>
      if bool_decide (l ∈ markers) then Circular
      else
        match h !! l, fuel with
        | None, _ => Dangling
        | Some _, O => Starved
        | Some (OList xs), S fuel' =>
            js ← dump_items (json_dump_from fuel' h (l :: markers)) xs;
            mret (JArr js)
        | Some (ODict d), S fuel' =>
            kvs ← dump_members (json_dump_from fuel' h (l :: markers))
                    (map_to_list d);
            mret (JObj kvs)
        end
  end.

(** The document [json.dump] writes for what [json.load] builds of a
    document: of the members of an object with the same name the last is
    kept, and the members are in the order of [map_to_list]. *)
Fixpoint canon (j : jvalue) : jvalue :=
  match j with
  | JArr xs => JArr (canon <$> xs)
  | JObj kvs =>
      JObj (map_to_list
              (foldr (λ kv (D : gmap string jvalue),
                        match D !! kv.1 with
                        | Some _ => D
                        | None => <[kv.1 := canon kv.2]> D
                        end) ∅ kvs))
  | _ => j
  end.

(** What is built of [j] is written back as [canon j], whatever is
    added to the heap and whatever containers are being encoded. *)
Definition reloads (j : jvalue) : Prop :=
  ∀ w v w', json_build j w = Ok v w' →
    heap w ⊆ heap w' ∧
    ∃ n, ∀ n' H m,
      n ≤ n' → heap w' ⊆ H → (∀ l, l ∈ m → heap w' !! l = None) →
      json_dump_from n' H m v = Dumped (canon j).

(** [f] encodes the members of [d] as the members of [D]. *)
Definition dumps_to (f : pyval → dumping jvalue)
    (d : gmap string pyval) (D : gmap string jvalue) : Prop :=
  ∀ k, match d !! k, D !! k with
       | Some v, Some j => f v = Dumped j
       | None, None => True
       | _, _ => False
       end.

(** No chain of containers is longer than the heap. *)
Definition json_dump (h : gmap loc pyobj) (v : pyval) : dumping jvalue :=
  json_dump_from (size h) h [] v.

(** The calls [st.success], [st.info] and [st.warning], which a [world]
    does not log: a function that makes them returns them with its value. *)
Inductive st_call :=
  | StSuccess (s : string)
  | StInfo (s : string)
  | StWarning (s : string).

(** What [requests.get], [raise_for_status] and [BeautifulSoup] make of a
    URL: an exception, or the text of the page without its [script],
    [style], [nav], [footer] and [header] elements. *)
Inductive fetch_result :=
  | FetchRaise (msg : string)
  | FetchText (text : string).

(** ** More string methods *)

(** The characters at which [str.splitlines] ends a line, among those
    with a code below 256. *)
Definition py_islinebreak (c : ascii) : bool :=
  let n := nat_of_ascii c in
  (Nat.leb 10 n && Nat.leb n 13) || (Nat.leb 28 n && Nat.leb n 30) || Nat.eqb n 133.

(** [s.splitlines()]; [after_cr] says that the character before was a
    carriage return, which takes a line feed with it. *)
Fixpoint splitlines_from (after_cr : bool) (s : string) : list string :=
  match s with
  | EmptyString => []
  | String c s' =>
      if after_cr && Ascii.eqb c "010" then splitlines_from false s'
      else if py_islinebreak c then EmptyString :: splitlines_from (Ascii.eqb c "013") s'
      else match splitlines_from false s' with
           | x :: xs => String c x :: xs
           | [] => [String c EmptyString]
           end
  end.

Definition str_splitlines (s : string) : list string := splitlines_from false s.

(** [s.split(sep)] for a non-empty [sep]: the separators are found from
    the left and do not overlap; [skip] as in [replace_from]. *)
Fixpoint split_from (sep : string) (skip : nat) (s : string) : list string :=
  match s with
  | EmptyString => [EmptyString]
  | String c s' =>
      match skip with
      | S k => split_from sep k s'
      | O =>
          if String.prefix sep s
          then EmptyString :: split_from sep (String.length sep - 1) s'
          else match split_from sep 0 s' with
               | x :: xs => String c x :: xs
               | [] => [String c EmptyString]
               end
      end
  end.

Definition str_split_on (sep s : string) : list string := split_from sep 0 s.

Definition nonempty (s : string) : bool := negb (String.eqb s EmptyString).

(** Lines 65-69 of main.py: the text of a page made one line. *)
Definition clean_text (text_content : string) : string :=
  let lines := str_strip <$> str_splitlines text_content in
  let chunks := flat_map (λ line, str_strip <$> str_split_on "  " line) lines in
  let clean_text := String.concat " " (filter (λ chunk, nonempty chunk = true) chunks) in
  substring 0 (15 * 1000) clean_text.

(** Properties of a text, to describe what [clean_text] returns. *)
Fixpoint all_chars (p : ascii → bool) (s : string) : bool :=
  match s with
  | EmptyString => true
  | String c s' => p c && all_chars p s'
  end.

Definition starts_with (p : ascii → bool) (s : string) : bool :=
  match s with
  | EmptyString => false
  | String c _ => p c
  end.

Fixpoint ends_with (p : ascii → bool) (s : string) : bool :=
  match s with
  | EmptyString => false
  | String c EmptyString => p c
  | String _ s' => ends_with p s'
  end.

Definition is_space (c : ascii) : bool := Ascii.eqb c " ".

(** No two spaces in a row. *)
Fixpoint single_spaced (s : string) : bool :=
  match s with
  | EmptyString => true
  | String c s' => negb (is_space c && starts_with is_space s') && single_spaced s'
  end.

Definition one_line (s : string) : bool := all_chars (λ c, negb (py_islinebreak c)) s.

(** What a chunk that is kept is like. *)
Definition kept (x : string) : Prop :=
  nonempty x = true ∧ one_line x = true ∧ single_spaced x = true ∧
  starts_with py_isspace x = false ∧ ends_with py_isspace x = false.

Section Persistence.

Variable DATABASE_FILE : string.
(** What [json.load] will say of a file that a failed [json.dump] left:
    the file is truncated when it is opened and holds the text written
    before the exception, which ends inside a container. *)
Variable partial_dump_error : gmap loc pyobj → pyval → string.
Variable page_text : string → fetch_result.

(** database_handler.py, lines 32-41.  The file can always be opened for
    writing. *)
Definition save_database (database : pyval) : M (bool * list st_call) := λ w,
  match json_dump (heap w) database with
  | Dumped doc =>
      Ok (true, [StSuccess (" Database saved to: " +:+ DATABASE_FILE)])
         (World (heap w) (ticks w) (FileData doc) (ui w))
  | Circular =>
      Ok (false, [])
         (World (heap w) (ticks w)
            (FileUnreadable (partial_dump_error (heap w) database))
            (ui w ++ [StError ("Failed to save database to " +:+ DATABASE_FILE
                               +:+ ": " +:+ "Circular reference detected")]))
  | Dangling | Starved => Raise SystemError w
  end.

(** main.py, lines 356-361: what the button [Clear Database] does once
    it is confirmed, up to the rerun of the script that follows a
    success.  It returns what [save_database] returned, with the
    messages shown. *)
Definition clear_database : M (bool * list st_call) :=
  empty_db ← empty_database;
  '(saved, shown) ← save_database empty_db;
  if saved : bool then mret (true, shown ++ [StSuccess "Database cleared!"])
  else mret (false, shown).

(** main.py, lines 42-73. *)
Definition simple_scrape (url : string) : M pyval :=
  match page_text url with
  | FetchText text_content => mret (VStr (clean_text text_content))
  | FetchRaise msg =>
      display (StError ("Error scraping website: " +:+ msg));;
      mret VNone
  end.

End Persistence.

(** ** Objects without cycles *)

(** How deep a document nests. *)
Fixpoint depth (j : jvalue) : nat :=
  match j with
  | JArr xs => S (foldr (λ x, Nat.max (depth x)) 0 xs)
  | JObj kvs => S (foldr (λ kv, Nat.max (depth kv.2)) 0 kvs)
  | _ => 0
  end.

(** The objects of [P] are there, and their references lead to objects
    of [P] of a lower rank. *)
Definition ranked (P : loc → Prop) (rk : loc → nat) (h : gmap loc pyobj) : Prop :=
  ∀ l, P l → ∃ o, h !! l = Some o ∧ ∀ l', refers o l' → P l' ∧ rk l' < rk l.

(** The depth of the document that [json.dump] writes for an object. *)
Definition depth_at (h : gmap loc pyobj) (l : loc) : nat :=
  match json_dump h (VRef l) with
  | Dumped j => depth j
  | _ => 0
  end.

(** ** Lists without aliases *)

(** No object is referred to by two elements of the list. *)
Definition refs_once (vs : list pyval) : Prop :=
  ∀ i j l, vs !! i = Some (VRef l) → vs !! j = Some (VRef l) → i = j.

(** ** What a computation leaves alone *)

(** A computation that, whether it returns or raises, leaves the
    database file and the messages as they are. *)
Definition quiet {A} (m : M A) : Prop :=
  ∀ w, match m w with
       | Ok _ w' | Raise _ w' => db_file w' = db_file w ∧ ui w' = ui w
       end.

(** ** More surroundings for examples *)

(** What [json.load] says of a file that holds no complete value. *)
Definition dump_error0 (h : gmap loc pyobj) (v : pyval) : string :=
  "Expecting value: line 1 column 1 (char 0)".

(** A site with one page, which holds white space only: a space, a line
    feed and a tab. *)
Definition blank_page : string := String " " (String "010" (String "009" EmptyString)).
Definition page0 (url : string) : fetch_result :=
  if String.eqb url "https://blank.example/" then FetchText blank_page
  else FetchRaise "404 Client Error: Not Found".

(** A [json.loads] that knows two documents. *)
Definition loads_small (s : string) : option jvalue :=
  if String.eqb s "{}" then Some (JObj [])
  else if String.eqb s "[1]" then Some (JArr [JInt 1])
  else None.

(** A batch whose one element is a string, not a record. *)
Definition titles_heap : gmap loc pyobj := <[1%positive := OList [VStr "Code Camp"]]> ∅.

(** A list that holds itself. *)
Definition loop_heap : gmap loc pyobj := <[1%positive := OList [VRef 1%positive]]> ∅.

(** A batch of two records with the same name. *)
Definition twin_camp_heap : gmap loc pyobj :=
  <[1%positive := OList [VRef 2%positive; VRef 3%positive]]>
    (<[2%positive := ODict (<["name" := VStr "Code Camp"]> ∅)]>
    (<[3%positive := ODict (<["name" := VStr "Code Camp"]> ∅)]> ∅)).

Definition twin_world : world := world0 FileMissing twin_camp_heap.

(** The entry of [https://a.edu/] in [a_edu_document], as a dict. *)
Definition a_edu_entry : gmap string pyval :=
  <["name" := VStr "a.edu"]>
    (<["url" := VStr "https://a.edu/"]>
    (<["scraped_at" := VStr "2024-06-01T10:00:00"]>
    (<["programs_count" := VInt 1]> ∅))).

(** A completion that is an array of one record, and a [json.loads]
    that knows it. *)
Definition camp_completion : string :=
  "[{" +:+ dq +:+ "name" +:+ dq +:+ ": " +:+ dq +:+ "Code Camp" +:+ dq +:+ "}]".
Definition loads_camp (s : string) : option jvalue :=
  if String.eqb s camp_completion then Some (JArr [JObj [("name", JStr "Code Camp")]])
  else None.

Abbreviation save0 v w := (save_database database_path dump_error0 v w).
Abbreviation extract_camp w :=
  (extract_programs_with_openai "sk-test" (completion_of camp_completion) loads_camp
     "<html></html>" "https://a.edu" w).

(** * Properties *)

(** ** The monad *)

Lemma bind_ok {A B} (m : M A) (f : A → M B) w b w' :
  (m ≫= f) w = Ok b w' → ∃ a w1, m w = Ok a w1 ∧ f a w1 = Ok b w'.
Proof.
  unfold mbind, M_bind. destruct (m w) as [a w1|e w1]; [|discriminate].
  intros H. by exists a, w1.
Qed.

Lemma bind_eq {A B} (m : M A) (f : A → M B) w a w1 :
  m w = Ok a w1 → (m ≫= f) w = f a w1.
Proof. unfold mbind, M_bind. by intros ->. Qed.

Lemma ret_ok {A} (a b : A) w w' : (mret a : M A) w = Ok b w' → b = a ∧ w' = w.
Proof. unfold mret, M_ret. by intros [= -> ->]. Qed.

Lemma alloc_ok o w v w' :
  alloc o w = Ok v w' →
  v = VRef (fresh (dom (heap w))) ∧
  w' = set_heap (<[fresh (dom (heap w)) := o]> (heap w)) w.
Proof. unfold alloc. by intros [= <- <-]. Qed.

Lemma fresh_loc_None (h : gmap loc pyobj) : h !! fresh (dom h) = None.
Proof. apply not_elem_of_dom, is_fresh. Qed.

Lemma fresh_loc_ne (h : gmap loc pyobj) l o : h !! l = Some o → fresh (dom h) ≠ l.
Proof. intros Hl <-. by rewrite fresh_loc_None in Hl. Qed.

(** ** Loading *)

Section LoadEmpty.
Variable DATABASE_FILE : string.

Lemma empty_database_ok w :
  let lp := fresh (dom (heap w)) in
  let lu := fresh (dom (<[lp := OList []]> (heap w))) in
  let ld := fresh (dom (<[lu := OList []]> (<[lp := OList []]> (heap w)))) in
  empty_database w =
    Ok (VRef ld)
       (set_heap (<[ld := ODict (<["programs" := VRef lp]>
                                (<["universities" := VRef lu]>
                                (<["last_updated" := VNone]>
                                (<["total_programs" := VInt 0]> ∅))))]>
                  (<[lu := OList []]> (<[lp := OList []]> (heap w)))) w).
Proof. reflexivity. Qed.

(** C9. Loading when the database file does not exist, or exists but
    cannot be read as JSON, does not raise: it returns a new dict with
    exactly the members [programs: []], [universities: []],
    [last_updated: None] and [total_programs: 0]; no object that
    existed before is changed. *)
Theorem load_database_missing_or_corrupt (w : world) :
  db_file w = FileMissing ∨ (∃ msg, db_file w = FileUnreadable msg) →
  ∃ ld lp lu w',
    load_database DATABASE_FILE w = Ok (VRef ld) w' ∧
    heap w' !! ld = Some (ODict (<["programs" := VRef lp]>
                                (<["universities" := VRef lu]>
                                (<["last_updated" := VNone]>
                                (<["total_programs" := VInt 0]> ∅))))) ∧
    heap w' !! lp = Some (OList []) ∧
    heap w' !! lu = Some (OList []) ∧
    (∀ l o, heap w !! l = Some o → heap w' !! l = Some o).
Proof.
  intros Hfile.
  set (lp := fresh (dom (heap w))).
  set (lu := fresh (dom (<[lp := OList []]> (heap w)))).
  set (ld := fresh (dom (<[lu := OList []]> (<[lp := OList []]> (heap w))))).
  assert (Hlu : lu ≠ lp).
  { apply (fresh_loc_ne _ _ (OList [])), lookup_insert_eq. }
  assert (ld ≠ lu ∧ ld ≠ lp) as [Hld1 Hld2].
  { split.
    - apply (fresh_loc_ne _ _ (OList [])), lookup_insert_eq.
    - apply (fresh_loc_ne _ _ (OList [])).
      rewrite lookup_insert_ne by done. apply lookup_insert_eq. }
  assert (Hrun : ∃ u, load_database DATABASE_FILE w =
    Ok (VRef ld)
       (World (<[ld := ODict (<["programs" := VRef lp]>
                             (<["universities" := VRef lu]>
                             (<["last_updated" := VNone]>
                             (<["total_programs" := VInt 0]> ∅))))]>
                 (<[lu := OList []]> (<[lp := OList []]> (heap w))))
              (ticks w) (db_file w) u)).
  { unfold load_database, read_file, display, mbind, M_bind.
    destruct Hfile as [Hf | [msg Hf]]; rewrite Hf;
      rewrite empty_database_ok; unfold set_heap;
      cbn [heap ticks db_file ui]; rewrite ?Hf; eexists; reflexivity. }
  destruct Hrun as [u Hrun].
  exists ld, lp, lu. eexists. split; [exact Hrun|].
  cbn [heap]. repeat split.
  - apply lookup_insert_eq.
  - rewrite !lookup_insert_ne by done. apply lookup_insert_eq.
  - rewrite lookup_insert_ne by done. apply lookup_insert_eq.
  - intros l o Hl.
    assert (lp ≠ l) by (by apply (fresh_loc_ne _ _ o)).
    assert (lu ≠ l).
    { apply (fresh_loc_ne _ _ o). by rewrite lookup_insert_ne. }
    assert (ld ≠ l).
    { apply (fresh_loc_ne _ _ o). by rewrite !lookup_insert_ne. }
    by rewrite !lookup_insert_ne.
Qed.
End LoadEmpty.

(** ** Strings *)

#[local] Arguments String.append !_ _ / : simpl nomatch.

Lemma string_app_cons (c : ascii) (s t : string) :
  String c s +:+ t = String c (s +:+ t).
Proof. reflexivity. Qed.

Lemma string_app_nil_r (s : string) : s +:+ EmptyString = s.
Proof. induction s as [|c s IH]; simpl; [done | by rewrite IH]. Qed.

Lemma string_app_assoc (a b c : string) : (a +:+ b) +:+ c = a +:+ (b +:+ c).
Proof. induction a as [|x a IH]; simpl; [done | by rewrite IH]. Qed.

Lemma string_length_app (a b : string) :
  String.length (a +:+ b) = String.length a + String.length b.
Proof. induction a as [|x a IH]; simpl; [done | by rewrite IH]. Qed.

Lemma substring_skip (x s : string) (m : nat) :
  substring (String.length x) m (x +:+ s) = substring 0 m s.
Proof. induction x as [|c x IH]; simpl; [done | apply IH]. Qed.

Lemma substring_take (b y : string) :
  substring 0 (String.length b) (b +:+ y) = b.
Proof.
  induction b as [|c b IH]; simpl.
  - by destruct y.
  - by rewrite IH.
Qed.

Lemma substring_after (x r : string) (n : nat) :
  n = String.length x →
  substring n (String.length (x +:+ r) - n) (x +:+ r) = r.
Proof.
  intros ->. rewrite string_length_app.
  replace (String.length x + String.length r - String.length x)
    with (String.length r) by lia.
  rewrite substring_skip. rewrite <- (string_app_nil_r r) at 2.
  apply substring_take.
Qed.

Lemma str_slice_middle (x body y : string) :
  str_slice (String.length x) (String.length y) (x +:+ body +:+ y) = body.
Proof.
  unfold str_slice. rewrite !string_length_app.
  replace (String.length x + (String.length body + String.length y)
           - String.length y - String.length x) with (String.length body) by lia.
  rewrite substring_skip. apply substring_take.
Qed.

Lemma prefix_nil (s : string) : String.prefix EmptyString s = true.
Proof. by destruct s. Qed.

Lemma prefix_cons (a b : ascii) (p s : string) :
  String.prefix (String a p) (String b s) = Ascii.eqb a b && String.prefix p s.
Proof.
  change (String.prefix (String a p) (String b s))
    with (if ascii_dec a b then String.prefix p s else false).
  destruct (ascii_dec a b) as [->|Hne].
  - by rewrite Ascii.eqb_refl.
  - apply Ascii.eqb_neq in Hne. by rewrite Hne.
Qed.

Lemma prefix_app (p s : string) : String.prefix p (p +:+ s) = true.
Proof.
  induction p as [|c p IH]; [apply prefix_nil|].
  by rewrite string_app_cons, prefix_cons, Ascii.eqb_refl, IH.
Qed.

Lemma prefix_app_l (p q s : string) :
  String.prefix (p +:+ q) s = true → String.prefix p s = true.
Proof.
  revert s. induction p as [|c p IH]; intros s; [by rewrite prefix_nil|].
  destruct s as [|b s]; [done|]. rewrite string_app_cons, !prefix_cons.
  intros [-> H]%andb_prop. rewrite (IH _ H). done.
Qed.

Lemma str_suffix_app (pre p : string) : str_suffix p (pre +:+ p) = true.
Proof.
  induction pre as [|c pre IH]; simpl.
  - destruct p; simpl; [done|]. rewrite Ascii.eqb_refl, String.eqb_refl. done.
  - rewrite IH. apply orb_true_r.
Qed.

(** ** Response handling *)




(** ** The display name of a source *)

Lemma replace_from_cons0 (old new : string) (c : ascii) (s : string) :
  replace_from old new 0 (String c s) =
    if String.prefix old (String c s)
    then new +:+ replace_from old new (String.length old - 1) s
    else String c (replace_from old new 0 s).
Proof. reflexivity. Qed.

Lemma replace_from_skip (old new x r : string) :
  replace_from old new (String.length x) (x +:+ r) = replace_from old new 0 r.
Proof.
  induction x as [|c x IH]; [done|].
  rewrite string_app_cons. exact IH.
Qed.

(** An occurrence at the very start is replaced, and the scan goes on
    after it. *)
Lemma replace_from_occurrence (c : ascii) (old' new r : string) :
  replace_from (String c old') new 0 (String c old' +:+ r) =
    new +:+ replace_from (String c old') new 0 r.
Proof.
  rewrite string_app_cons, replace_from_cons0.
  rewrite <- string_app_cons, prefix_app.
  cbn [String.length].
  replace (S (String.length old') - 1) with (String.length old') by lia.
  by rewrite replace_from_skip.
Qed.

(** Where no occurrence starts, the scan copies. *)
Lemma replace_from_scan (old new x rest : string) :
  (∀ pre suf, x = pre +:+ suf → suf ≠ EmptyString →
              String.prefix old (suf +:+ rest) = false) →
  replace_from old new 0 (x +:+ rest) = x +:+ replace_from old new 0 rest.
Proof.
  induction x as [|c x IH]; intros Hno; [done|].
  rewrite string_app_cons, replace_from_cons0, <- string_app_cons.
  rewrite (Hno EmptyString (String c x)) by done.
  rewrite string_app_cons. f_equal. apply IH.
  intros pre suf -> Hsuf. by apply (Hno (String c pre) suf).
Qed.

Lemma no_slash_app (a b : string) :
  no_slash (a +:+ b) = no_slash a && no_slash b.
Proof.
  induction a as [|c a IH]; [done|].
  rewrite string_app_cons. cbn [no_slash]. rewrite IH. by rewrite andb_assoc.
Qed.

Ltac eat_char H x :=
  let c := fresh "c" in
  destruct x as [|c x];
  [ rewrite ?string_app_cons in H; cbn [String.append] in H;
    first [ discriminate H
          | match goal with
            | Ht : slash_headed _ |- _ =>
                destruct Ht as [-> | [? ->]];
                [ discriminate H
                | rewrite prefix_cons in H; cbn [Ascii.eqb Bool.eqb andb] in H;
                  discriminate H ]
            end ]
  | rewrite string_app_cons, prefix_cons in H;
    let Hc := fresh "Hc" in
    apply andb_prop in H as [Hc H]; apply Ascii.eqb_eq in Hc; subst c ].

(** An occurrence of [http://] that starts in a part without slash,
    followed by nothing or by a slash, starts five characters before the
    end of that part. *)
Lemma http_occurrence (x tail : string) :
  no_slash x = true → slash_headed tail →
  String.prefix "http://" (x +:+ tail) = true → x = "http:".
Proof.
  intros Hns Ht H.
  eat_char H x. eat_char H x. eat_char H x. eat_char H x. eat_char H x.
  destruct x as [|c x]; [done|].
  rewrite string_app_cons, prefix_cons in H.
  apply andb_prop in H as [Hc _]. apply Ascii.eqb_eq in Hc. subst c.
  cbn in Hns. discriminate.
Qed.

Lemma https_occurrence (x tail : string) :
  no_slash x = true → slash_headed tail →
  String.prefix "https://" (x +:+ tail) = true → x = "https:".
Proof.
  intros Hns Ht H.
  eat_char H x. eat_char H x. eat_char H x. eat_char H x. eat_char H x.
  eat_char H x.
  destruct x as [|c x]; [done|].
  rewrite string_app_cons, prefix_cons in H.
  apply andb_prop in H as [Hc _]. apply Ascii.eqb_eq in Hc. subst c.
  cbn in Hns. discriminate.
Qed.

Lemma str_split_nonempty (sep : ascii) (s : string) : str_split sep s ≠ [].
Proof.
  induction s as [|c s IH]; [done|].
  cbn [str_split]. destruct (Ascii.eqb c sep); [done|].
  by destruct (str_split sep s).
Qed.

Lemma str_split_host (host tail : string) :
  no_slash host = true → slash_headed tail →
  hd EmptyString (str_split "/" (host +:+ tail)) = host.
Proof.
  intros Hns Ht. induction host as [|c host IH].
  - by destruct Ht as [-> | [t ->]].
  - cbn [no_slash] in Hns. apply andb_prop in Hns as [Hc Hns].
    apply negb_true_iff in Hc.
    rewrite string_app_cons. cbn [str_split]. rewrite Hc.
    specialize (IH Hns).
    pose proof (str_split_nonempty "/" (host +:+ tail)) as Hne.
    destruct (str_split "/" (host +:+ tail)) as [|x xs]; [done|].
    cbn [hd] in *. by rewrite IH.
Qed.

Lemma until_slash_host (host tail : string) :
  no_slash host = true → slash_headed tail →
  until_slash (host +:+ tail) = host.
Proof.
  intros Hns Ht. induction host as [|c host IH].
  - by destruct Ht as [-> | [t ->]].
  - cbn [no_slash] in Hns. apply andb_prop in Hns as [Hc Hns].
    apply negb_true_iff in Hc.
    rewrite string_app_cons. cbn [until_slash]. rewrite Hc.
    by rewrite (IH Hns).
Qed.

(** Removing the occurrences of a pattern that starts with [h] from a
    text that is empty or starts with a slash leaves such a text. *)
Lemma replace_slash_headed (old' tail : string) :
  slash_headed tail → slash_headed (str_replace (String "h" old') EmptyString tail).
Proof.
  intros [-> | [t ->]]; [by left|]. right.
  unfold str_replace. rewrite replace_from_cons0, prefix_cons.
  cbn [Ascii.eqb Bool.eqb andb]. eauto.
Qed.

Section DisplayName.
Variables host tail : string.
Hypothesis host_no_slash : no_slash host = true.
Hypothesis host_not_http : str_suffix "http:" host = false.
Hypothesis host_not_https : str_suffix "https:" host = false.

Lemma no_http_in_host (t : string) (pre suf : string) :
  slash_headed t → host = pre +:+ suf →
  String.prefix "http://" (suf +:+ t) = false.
Proof.
  intros Ht Hhost.
  destruct (String.prefix "http://" (suf +:+ t)) eqn:Hp; [|done].
  apply http_occurrence in Hp; [|..|done].
  - subst suf. rewrite Hhost, str_suffix_app in host_not_http. done.
  - rewrite Hhost, no_slash_app in host_no_slash.
    by apply andb_prop in host_no_slash as [_ ?].
Qed.

Lemma no_https_in_host (t : string) (pre suf : string) :
  slash_headed t → host = pre +:+ suf →
  String.prefix "https://" (suf +:+ t) = false.
Proof.
  intros Ht Hhost.
  destruct (String.prefix "https://" (suf +:+ t)) eqn:Hp; [|done].
  apply https_occurrence in Hp; [|..|done].
  - subst suf. rewrite Hhost, str_suffix_app in host_not_https. done.
  - rewrite Hhost, no_slash_app in host_no_slash.
    by apply andb_prop in host_no_slash as [_ ?].
Qed.

Lemma replace_https_host (t : string) :
  slash_headed t →
  str_replace "https://" EmptyString (host +:+ t) =
    host +:+ str_replace "https://" EmptyString t.
Proof.
  intros Ht. apply replace_from_scan. intros pre suf Hh _.
  by apply (no_https_in_host t pre suf).
Qed.

Lemma replace_http_host (t : string) :
  slash_headed t →
  str_replace "http://" EmptyString (host +:+ t) =
    host +:+ str_replace "http://" EmptyString t.
Proof.
  intros Ht. apply replace_from_scan. intros pre suf Hh _.
  by apply (no_http_in_host t pre suf).
Qed.

(** The scheme [http://] holds no occurrence of [https://]. *)
Lemma replace_https_in_http (r : string) :
  str_replace "https://" EmptyString ("http://" +:+ r) =
    "http://" +:+ str_replace "https://" EmptyString r.
Proof.
  unfold str_replace. rewrite !string_app_cons.
  repeat (rewrite replace_from_cons0, ?prefix_cons;
          cbn [Ascii.eqb Bool.eqb andb]).
  reflexivity.
Qed.

Hypothesis tail_slash : slash_headed tail.

Lemma university_name_of_host (scheme : string) :
  scheme = EmptyString ∨ scheme = "http://" ∨ scheme = "https://" →
  university_name_of (scheme +:+ host +:+ tail) = host.
Proof.
  pose proof (replace_slash_headed "ttps://" tail tail_slash) as Ht1.
  pose proof (replace_slash_headed "ttp://" _ Ht1) as Ht2.
  unfold university_name_of.
  intros [-> | [-> | ->]].
  - change (EmptyString +:+ host +:+ tail) with (host +:+ tail).
    rewrite replace_https_host, replace_http_host by done.
    by apply str_split_host.
  - rewrite replace_https_in_http, replace_https_host by done.
    unfold str_replace at 1. rewrite replace_from_occurrence.
    change (EmptyString +:+ ?x) with x.
    fold (str_replace "http://" EmptyString
            (host +:+ str_replace "https://" EmptyString tail)).
    rewrite replace_http_host by done.
    by apply str_split_host.
  - unfold str_replace at 2. rewrite replace_from_occurrence.
    change (EmptyString +:+ ?x) with x.
    fold (str_replace "https://" EmptyString (host +:+ tail)).
    rewrite replace_https_host, replace_http_host by done.
    by apply str_split_host.
Qed.

Lemma spec_display_name_host (scheme : string) :
  scheme = EmptyString ∨ scheme = "http://" ∨ scheme = "https://" →
  spec_display_name (scheme +:+ host +:+ tail) = host.
Proof.
  unfold spec_display_name, spec_strip_scheme.
  intros [-> | [-> | ->]].
  - change (EmptyString +:+ host +:+ tail) with (host +:+ tail).
    rewrite (no_https_in_host tail EmptyString host),
            (no_http_in_host tail EmptyString host) by done.
    by apply until_slash_host.
  - rewrite prefix_app.
    replace (String.prefix "https://" ("http://" +:+ host +:+ tail)) with false.
    2:{ rewrite !string_app_cons, !prefix_cons. reflexivity. }
    rewrite substring_after by done.
    by apply until_slash_host.
  - rewrite prefix_app, substring_after by done.
    by apply until_slash_host.
Qed.

End DisplayName.



(** ** Built-in operations, when they succeed *)

Lemma lookup_obj_ok l w o w' :
  lookup_obj l w = Ok o w' → w' = w ∧ heap w !! l = Some o.
Proof. unfold lookup_obj. destruct (heap w !! l); [|done]. by intros [= -> ->]. Qed.

Lemma store_ok l o w u w' :
  store l o w = Ok u w' → w' = set_heap (<[l := o]> (heap w)) w.
Proof. unfold store. by intros [= _ <-]. Qed.

Lemma raise_ok {A} e w (a : A) w' : raise e w = Ok a w' → False.
Proof. done. Qed.

Lemma py_len_ok v w n w' :
  py_len v w = Ok n w' → w' = w ∧ len_of (heap w) v = Some n.
Proof.
  destruct v; simpl; try done.
  - by intros [= <- <-].
  - intros (o & w1 & [-> Ho]%lookup_obj_ok & [-> ->]%ret_ok)%bind_ok.
    rewrite Ho. by destruct o.
Qed.

Lemma py_get_ok v k dflt w x w' :
  py_get v k dflt w = Ok x w' →
  w' = w ∧ ∃ l d, v = VRef l ∧ heap w !! l = Some (ODict d)
                  ∧ x = default dflt (d !! k).
Proof.
  destruct v; simpl; try done.
  intros (o & w1 & [-> Ho]%lookup_obj_ok & H)%bind_ok.
  destruct o; [|done]. apply ret_ok in H as [-> ->]. eauto 10.
Qed.

Lemma py_getitem_ok v k w x w' :
  py_getitem v k w = Ok x w' →
  w' = w ∧ ∃ l d, v = VRef l ∧ heap w !! l = Some (ODict d) ∧ d !! k = Some x.
Proof.
  destruct v; simpl; try done.
  intros (o & w1 & [-> Ho]%lookup_obj_ok & H)%bind_ok.
  destruct o; [|done]. destruct (d !! k) eqn:Hk; [|done].
  apply ret_ok in H as [-> ->]. eauto 10.
Qed.

Lemma py_setitem_ok v k x w u w' :
  py_setitem v k x w = Ok u w' →
  ∃ l d, v = VRef l ∧ heap w !! l = Some (ODict d)
         ∧ w' = set_heap (<[l := ODict (<[k := x]> d)]> (heap w)) w.
Proof.
  destruct v; simpl; try done.
  intros (o & w1 & [-> Ho]%lookup_obj_ok & H)%bind_ok.
  destruct o; [|done]. apply store_ok in H. eauto 10.
Qed.

Lemma py_append_ok v x w u w' :
  py_append v x w = Ok u w' →
  ∃ l xs, v = VRef l ∧ heap w !! l = Some (OList xs)
          ∧ w' = set_heap (<[l := OList (xs ++ [x])]> (heap w)) w.
Proof.
  destruct v; simpl; try done.
  intros (o & w1 & [-> Ho]%lookup_obj_ok & H)%bind_ok.
  destruct o; [done|]. apply store_ok in H. eauto 10.
Qed.

Lemma py_copy_ok v w c w' :
  py_copy v w = Ok c w' →
  ∃ l o, v = VRef l ∧ heap w !! l = Some o
         ∧ c = VRef (fresh (dom (heap w)))
         ∧ w' = set_heap (<[fresh (dom (heap w)) := o]> (heap w)) w.
Proof.
  destruct v; simpl; try done.
  intros (o & w1 & [-> Ho]%lookup_obj_ok & [-> ->]%alloc_ok)%bind_ok.
  eauto 10.
Qed.

Lemma py_iter_ok v w xs w' :
  py_iter v w = Ok xs w' →
  w' = w ∧
  ((∃ s, v = VStr s ∧ ∀ x, x ∈ xs → ∃ t, x = VStr t) ∨
   (∃ l d, v = VRef l ∧ heap w !! l = Some (ODict d) ∧ ∀ x, x ∈ xs → ∃ t, x = VStr t) ∨
   (∃ l, v = VRef l ∧ heap w !! l = Some (OList xs))).
Proof.
  destruct v; simpl; try done.
  - intros [-> ->]%ret_ok. split; [done|]. left. eexists; split; [done|].
    intros x (c & -> & _)%list_elem_of_fmap. eauto.
  - intros (o & w1 & [-> Ho]%lookup_obj_ok & [-> ->]%ret_ok)%bind_ok.
    split; [done|]. right. destruct o.
    + left. do 2 eexists. repeat split; [done|].
      intros x (c & -> & _)%list_elem_of_fmap. eauto.
    + right. eauto.
Qed.

Lemma py_add_int_ok v n w x w' :
  py_add_int v n w = Ok x w' →
  w' = w ∧ ((∃ z, v = VInt z ∧ x = VInt (z + Z.of_nat n)%Z)
            ∨ (∃ b, v = VBool b ∧ x = VInt (Z.b2z b + Z.of_nat n)%Z)).
Proof.
  destruct v; simpl; try done; intros [-> ->]%ret_ok; eauto 10.
Qed.

Lemma py_str_ok r v w x w' :
  py_str r v w = Ok x w' → w' = w ∧ x = str_of r (heap w) v.
Proof. destruct v as [|[]| | |]; simpl; by intros [-> ->]%ret_ok. Qed.

Lemma display_ok c w u w' :
  display c w = Ok u w' → heap w' = heap w ∧ ticks w' = ticks w ∧ db_file w' = db_file w.
Proof. unfold display. by intros [= _ <-]. Qed.

Lemma read_clock_ok f w t w' :
  read_clock f w = Ok t w' →
  t = f (ticks w) ∧ heap w' = heap w ∧ db_file w' = db_file w
  ∧ ticks w' = S (ticks w).
Proof. unfold read_clock. by intros [= <- <-]. Qed.

(** ** How the heap evolves *)

Section Evolves.
Variable K : list string.

Lemma evolves_refl h : evolves K h h.
Proof.
  intros l [d|xs] Hl.
  - by exists d.
  - exists []. by rewrite app_nil_r.
Qed.

Lemma evolves_trans h1 h2 h3 : evolves K h1 h2 → evolves K h2 h3 → evolves K h1 h3.
Proof.
  intros H12 H23 l o Hl. specialize (H12 l o Hl). destruct o as [d|xs].
  - destruct H12 as (d2 & Hd2 & Hk2). destruct (H23 l _ Hd2) as (d3 & Hd3 & Hk3).
    exists d3. split; [done|]. intros k Hk. by rewrite Hk3, Hk2.
  - destruct H12 as (ys & Hys). destruct (H23 l _ Hys) as (zs & Hzs).
    exists (ys ++ zs). by rewrite app_assoc.
Qed.

Lemma evolves_alloc h l o : h !! l = None → evolves K h (<[l := o]> h).
Proof.
  intros Hl l' o' Hl'. assert (l ≠ l') by congruence.
  rewrite lookup_insert_ne by done. by apply evolves_refl.
Qed.

Lemma evolves_setitem h l d k x :
  h !! l = Some (ODict d) → k ∈ K →
  evolves K h (<[l := ODict (<[k := x]> d)]> h).
Proof.
  intros Hl Hk l' o' Hl'. destruct (decide (l = l')) as [<-|Hne].
  - rewrite lookup_insert_eq. rewrite Hl in Hl'. injection Hl' as <-.
    eexists. split; [done|]. intros k' Hk'.
    rewrite lookup_insert_ne; [done|]. by intros ->.
  - rewrite lookup_insert_ne by done. by apply evolves_refl.
Qed.

Lemma evolves_append h l xs x :
  h !! l = Some (OList xs) → evolves K h (<[l := OList (xs ++ [x])]> h).
Proof.
  intros Hl l' o' Hl'. destruct (decide (l = l')) as [<-|Hne].
  - rewrite lookup_insert_eq. rewrite Hl in Hl'. injection Hl' as <-. eauto.
  - rewrite lookup_insert_ne by done. by apply evolves_refl.
Qed.

Lemma evolving_same {A} (m : M A) :
  (∀ w a w', m w = Ok a w' → heap w' = heap w ∧ db_file w' = db_file w) →
  evolving K m.
Proof.
  intros H w a w' Hm. destruct (H w a w' Hm) as [-> ->].
  split; [apply evolves_refl | done].
Qed.

Lemma evolving_ret {A} (a : A) : evolving K (mret a : M A).
Proof. apply evolving_same. by intros w b w' [-> ->]%ret_ok. Qed.

Lemma evolving_raise {A} e : evolving K (raise e : M A).
Proof. by intros w a w' H. Qed.

Lemma evolving_bind {A B} (m : M A) (f : A → M B) :
  evolving K m → (∀ a, evolving K (f a)) → evolving K (m ≫= f).
Proof.
  intros Hm Hf w b w' (a & w1 & H1 & H2)%bind_ok.
  destruct (Hm _ _ _ H1) as [? ?]. destruct (Hf _ _ _ _ H2) as [? ?].
  split; [by eapply evolves_trans | congruence].
Qed.

Lemma evolving_if {A} (b : bool) (m1 m2 : M A) :
  evolving K m1 → evolving K m2 → evolving K (if b then m1 else m2).
Proof. by destruct b. Qed.

Lemma evolving_for_each {A} (xs : list A) (body : A → M unit) :
  (∀ x, evolving K (body x)) → evolving K (for_each xs body).
Proof.
  intros Hbody. induction xs as [|x xs IH]; simpl.
  - apply evolving_ret.
  - apply evolving_bind; [apply Hbody | done].
Qed.

Lemma evolving_map_each {A B} (f : A → M B) (xs : list A) :
  (∀ x, evolving K (f x)) → evolving K (map_each f xs).
Proof.
  intros Hf. induction xs as [|x xs IH]; simpl.
  - apply evolving_ret.
  - apply evolving_bind; [apply Hf | intros y].
    apply evolving_bind; [done | intros ys]. apply evolving_ret.
Qed.

Lemma evolving_alloc o : evolving K (alloc o).
Proof.
  intros w v w' [-> ->]%alloc_ok. split; [|done].
  apply evolves_alloc, fresh_loc_None.
Qed.

Lemma evolving_py_len v : evolving K (py_len v).
Proof. apply evolving_same. by intros w n w' [-> _]%py_len_ok. Qed.

Lemma evolving_py_iter v : evolving K (py_iter v).
Proof. apply evolving_same. by intros w n w' [-> _]%py_iter_ok. Qed.

Lemma evolving_py_get v k dflt : evolving K (py_get v k dflt).
Proof. apply evolving_same. by intros w n w' [-> _]%py_get_ok. Qed.

Lemma evolving_py_getitem v k : evolving K (py_getitem v k).
Proof. apply evolving_same. by intros w n w' [-> _]%py_getitem_ok. Qed.

Lemma evolving_py_add_int v n : evolving K (py_add_int v n).
Proof. apply evolving_same. by intros w x w' [-> _]%py_add_int_ok. Qed.

Lemma evolving_py_str r v : evolving K (py_str r v).
Proof. apply evolving_same. by intros w x w' [-> _]%py_str_ok. Qed.

Lemma evolving_read_clock f : evolving K (read_clock f).
Proof. apply evolving_same. by intros w x w' (_ & ? & ? & _)%read_clock_ok. Qed.

Lemma evolving_display c : evolving K (display c).
Proof. apply evolving_same. by intros w x w' (? & _ & ?)%display_ok. Qed.

Lemma evolving_py_setitem v k x :
  bool_decide (k ∈ K) = true → evolving K (py_setitem v k x).
Proof.
  intros Hk%bool_decide_eq_true_1 w u w' (l & d & -> & Hl & ->)%py_setitem_ok.
  split; [|done]. by apply evolves_setitem.
Qed.

Lemma evolving_py_append v x : evolving K (py_append v x).
Proof.
  intros w u w' (l & xs & -> & Hl & ->)%py_append_ok. split; [|done].
  by apply evolves_append.
Qed.

Lemma evolving_py_copy v : evolving K (py_copy v).
Proof.
  intros w u w' (l & xs & -> & Hl & -> & ->)%py_copy_ok. split; [|done].
  apply evolves_alloc, fresh_loc_None.
Qed.

Lemma not_key (k : string) : bool_decide (k ∈ K) = false → k ∉ K.
Proof. apply bool_decide_eq_false_1. Qed.
End Evolves.

Lemma evolves_mono (K K' : list string) h h' :
  K ⊆ K' → evolves K h h' → evolves K' h h'.
Proof.
  intros HK H l o Hl. specialize (H l o Hl). destruct o as [d|xs]; [|done].
  destruct H as (d' & Hd' & Hk). exists d'. split; [done|].
  intros k Hk'. apply Hk. intros Hin. by apply Hk', HK.
Qed.

Create HintDb evolving.
#[local] Hint Resolve evolving_ret evolving_raise evolving_bind evolving_if
  evolving_for_each evolving_map_each evolving_alloc evolving_py_len
  evolving_py_iter evolving_py_get evolving_py_getitem evolving_py_add_int
  evolving_py_str evolving_read_clock evolving_display evolving_py_append
  evolving_py_copy : evolving.

#[local] Hint Extern 1 (evolving _ (py_setitem _ _ _)) =>
  apply evolving_py_setitem; reflexivity : evolving.

Section Evolving.
Variable isoformat_now : nat → string.
Variable repr_obj : gmap loc pyobj → loc → string.

Lemma evolving_update_university programs url uni :
  evolving scrape_keys (update_university isoformat_now programs url uni).
Proof. unfold update_university, now. eauto 20 with evolving. Qed.

Lemma evolving_add_program database name url program :
  evolving meta_keys (add_program isoformat_now repr_obj database name url program).
Proof. unfold add_program, now. eauto 30 with evolving. Qed.

Lemma evolving_register_university database programs name url :
  evolving scrape_keys
    (register_university isoformat_now database programs name url).
Proof.
  pose proof evolving_update_university.
  unfold register_university, now. eauto 40 with evolving.
Qed.

Lemma evolving_add_programs database name url ps :
  evolving meta_keys
    (for_each ps (add_program isoformat_now repr_obj database name url)).
Proof. apply evolving_for_each, evolving_add_program. Qed.

Lemma evolving_update_metadata database :
  evolving meta_keys (update_metadata isoformat_now database).
Proof. unfold update_metadata, now. eauto 20 with evolving. Qed.

Lemma scrape_keys_meta : scrape_keys ⊆ meta_keys.
Proof.
  intros k Hk. apply (bool_decide_eq_true_1 _).
  unfold scrape_keys in Hk. apply elem_of_cons in Hk as [->|Hk]; [done|].
  apply elem_of_cons in Hk as [->|Hk]; [done|]. by apply elem_of_nil in Hk.
Qed.
End Evolving.

(** ** Objects built from a document *)

Lemma fresh_in_weaken h h1 h2 l : h ⊆ h1 → h1 ⊆ h2 →
  (fresh_in h h1 l → fresh_in h h2 l) ∧ (fresh_in h1 h2 l → fresh_in h h2 l).
Proof.
  intros H1 H2. split; intros [Hn [o Ho]]; split.
  - done.
  - exists o. by eapply lookup_weaken.
  - destruct (h !! l) as [o'|] eqn:Hl; [|done].
    by rewrite (lookup_weaken _ _ _ _ Hl H1) in Hn.
  - by exists o.
Qed.

Lemma fresh_in_split h h1 h2 l : h ⊆ h1 → h1 ⊆ h2 →
  fresh_in h h2 l → fresh_in h h1 l ∨ fresh_in h1 h2 l.
Proof.
  intros H1 H2 [Hn Ho]. destruct (h1 !! l) as [o'|] eqn:Hl.
  - left. split; [done | by exists o'].
  - by right.
Qed.

(** A closed set of objects stays closed when the heap grows. *)
Lemma closed_in_weaken h1 h2 (P : loc → Prop) :
  h1 ⊆ h2 → (∀ l, P l → is_Some (h1 !! l)) → closed_in h1 P → closed_in h2 P.
Proof.
  intros Hsub Hdom Hcl l o l' Hl Ho Hr.
  destruct (Hdom l Hl) as [o' Ho'].
  rewrite (lookup_weaken _ _ _ _ Ho' Hsub) in Ho. injection Ho as <-.
  by eapply Hcl.
Qed.

Lemma fresh_in_same h l : ¬ fresh_in h h l.
Proof. intros [Hn [o Ho]]. congruence. Qed.

Lemma grown_refl h : grown h h.
Proof.
  split; [done|]. split.
  - intros l o l' Hl. by apply fresh_in_same in Hl.
  - intros l o Hl. by apply fresh_in_same in Hl.
Qed.

Lemma grown_trans h h1 h2 : grown h h1 → grown h1 h2 → grown h h2.
Proof.
  intros (H1 & Hc1 & Hs1) (H2 & Hc2 & Hs2). split; [by etrans|]. split.
  - intros l o l' Hl Ho Hr.
    destruct (fresh_in_split _ _ _ _ H1 H2 Hl) as [Hf|Hf].
    + apply (proj1 (fresh_in_weaken h h1 h2 l' H1 H2)).
      apply (closed_in_weaken h1 h2 _ H2) in Hc1; [|by intros ? [_ ?]].
      by eapply Hc1.
    + apply (proj2 (fresh_in_weaken h h1 h2 l' H1 H2)). by eapply Hc2.
  - intros l o Hl Ho.
    destruct (fresh_in_split _ _ _ _ H1 H2 Hl) as [Hf|Hf].
    + destruct Hf as [Hn [o1 Ho1]]. apply (Hs1 l o); [by split; [|eexists]|].
      by rewrite (lookup_weaken _ _ _ _ Ho1 H2) in Ho; injection Ho as <-.
    + by apply Hs2.
Qed.

(** Allocating an object that refers to new objects only. *)
Lemma grown_alloc h h1 o :
  grown h h1 → (∀ l', refers o l' → fresh_in h h1 l') →
  grown h (<[fresh (dom h1) := o]> h1).
Proof.
  intros (Hsub & Hcl & Hself) Hrefs.
  set (l := fresh (dom h1)).
  assert (Hl1 : h1 !! l = None) by apply fresh_loc_None.
  assert (Hsub1 : h1 ⊆ <[l := o]> h1) by by apply insert_subseteq.
  assert (Hfr : ∀ l', fresh_in h h1 l' → fresh_in h (<[l := o]> h1) l' ∧ l' ≠ l).
  { intros l' Hl'. split.
    - by apply (proj1 (fresh_in_weaken _ _ _ l' Hsub Hsub1)).
    - intros ->. destruct Hl' as [_ [o' Ho']]. congruence. }
  split; [by etrans|]. split.
  - intros l0 o0 l' Hl0 Ho0 Hr. destruct (decide (l0 = l)) as [->|Hne].
    + rewrite lookup_insert_eq in Ho0. injection Ho0 as <-. by apply Hfr, Hrefs.
    + rewrite lookup_insert_ne in Ho0 by done.
      apply Hfr. apply (Hcl l0 o0 l'); [|done..].
      destruct Hl0 as [Hn _]. split; [done|by eexists].
  - intros l0 o0 Hl0 Ho0. destruct (decide (l0 = l)) as [->|Hne].
    + rewrite lookup_insert_eq in Ho0. injection Ho0 as <-.
      intros [_ [o' Ho']]%Hrefs. congruence.
    + rewrite lookup_insert_ne in Ho0 by done.
      apply (Hself l0 o0); [|done]. destruct Hl0 as [Hn _]. split; [done|by eexists].
Qed.

Lemma same_env_refl w : same_env w w.
Proof. done. Qed.

Lemma same_env_trans w1 w2 w3 : same_env w1 w2 → same_env w2 w3 → same_env w1 w3.
Proof. unfold same_env. intros (? & ? & ?) (? & ? & ?). repeat split; congruence. Qed.

Lemma build_items_spec (xs : list jvalue) :
  Forall builds_well xs →
  ∀ w, ∃ vs w',
    build_items json_build xs w = Ok vs w' ∧ same_env w w' ∧
    grown (heap w) (heap w') ∧
    ∀ l, VRef l ∈ vs → fresh_in (heap w) (heap w') l.
Proof.
  intros Hall. induction Hall as [|x xs Hx _ IH]; intros w.
  - exists [], w. split; [done|split; [done|split; [apply grown_refl|]]].
    intros l0 Hl. by apply elem_of_nil in Hl.
  - destruct (Hx w) as (v & w1 & Hv & He1 & Hg1 & Hroot).
    destruct (IH w1) as (vs & w2 & Hvs & He2 & Hg2 & Hin).
    exists (v :: vs), w2. split; [|split; [|split]].
    + cbn [build_items]. rewrite (bind_eq _ _ _ _ _ Hv).
      fold (build_items json_build). by rewrite (bind_eq _ _ _ _ _ Hvs).
    + by eapply same_env_trans.
    + by eapply grown_trans.
    + destruct Hg1 as [Hsub1 _], Hg2 as [Hsub2 _].
      intros l [Heq|Hl]%elem_of_cons.
      * destruct (Hroot l (eq_sym Heq)) as [Hf _].
        by apply (proj1 (fresh_in_weaken _ _ _ l Hsub1 Hsub2)).
      * apply (proj2 (fresh_in_weaken _ _ _ l Hsub1 Hsub2)). by apply Hin.
Qed.

Lemma build_members_spec (kvs : list (string * jvalue)) :
  Forall (λ kv, builds_well kv.2) kvs →
  ∀ w, ∃ d w',
    build_members json_build kvs w = Ok d w' ∧ same_env w w' ∧
    grown (heap w) (heap w') ∧
    members_apart (heap w') (fresh_in (heap w) (heap w')) d.
Proof.
  intros Hall. induction Hall as [|[k x] kvs Hx _ IH]; intros w.
  - exists ∅, w. split; [done|split; [done|split; [apply grown_refl|]]].
    exists (λ _ _, False). split; [|split; [|split]].
    + intros k0 l0 Hk. by rewrite lookup_empty in Hk.
    + by intros k0 l0 o0 l' ?.
    + done.
    + done.
  - destruct (Hx w) as (v & w1 & Hv & He1 & Hg1 & Hroot).
    destruct (IH w1) as (d & w2 & Hd & He2 & Hg2 & ρ & Hρ1 & Hρ2 & Hρ3 & Hρ4).
    cbn [snd] in Hv.
    exists (match d !! k with Some _ => d | None => <[k := v]> d end), w2.
    split; [|split; [|split]].
    + cbn [build_members snd fst]. rewrite (bind_eq _ _ _ _ _ Hv).
      fold (build_members json_build). by rewrite (bind_eq _ _ _ _ _ Hd).
    + by eapply same_env_trans.
    + by eapply grown_trans.
    + pose proof Hg1 as (Hsub1 & Hcl1 & _). pose proof Hg2 as (Hsub2 & _).
      destruct (d !! k) as [vk|] eqn:Hk.
      * exists ρ. split; [done|split; [done|split; [|done]]].
        intros k0 l0 Hl0. apply (proj2 (fresh_in_weaken _ _ _ l0 Hsub1 Hsub2)).
        by eapply Hρ3.
      * exists (λ k0 l0, if decide (k0 = k) then fresh_in (heap w) (heap w1) l0
                         else ρ k0 l0).
        split; [|split; [|split]].
        -- intros k0 l0. destruct (decide (k0 = k)) as [->|Hne].
           ++ rewrite lookup_insert_eq. intros [= ->]. by apply Hroot.
           ++ rewrite lookup_insert_ne by done. apply Hρ1.
        -- intros k0. destruct (decide (k0 = k)); [|done].
           apply (closed_in_weaken (heap w1)); [done| by intros ? [_ ?] |done].
        -- intros k0 l0. destruct (decide (k0 = k)).
           ++ apply (proj1 (fresh_in_weaken _ _ _ l0 Hsub1 Hsub2)).
           ++ intros Hl0. apply (proj2 (fresh_in_weaken _ _ _ l0 Hsub1 Hsub2)).
              by eapply Hρ3.
        -- intros k1 k2 l0.
           destruct (decide (k1 = k)) as [->|?], (decide (k2 = k)) as [->|?];
             try done.
           ++ intros [_ [o Ho]] [Hn _]%Hρ3. congruence.
           ++ intros [Hn _]%Hρ3 [_ [o Ho]]. congruence.
           ++ apply Hρ4.
Qed.

Lemma builds_well_alloc (w w1 : world) (o : pyobj) :
  same_env w w1 → grown (heap w) (heap w1) →
  (∀ l', refers o l' → fresh_in (heap w) (heap w1) l') →
  (∀ d, o = ODict d → members_apart (heap w1) (fresh_in (heap w) (heap w1)) d) →
  ∃ v w', alloc o w1 = Ok v w' ∧ same_env w w' ∧ built (heap w) v (heap w').
Proof.
  intros He Hg Hrefs Hmem.
  set (l := fresh (dom (heap w1))).
  assert (Hl1 : heap w1 !! l = None) by apply fresh_loc_None.
  pose proof Hg as (Hsub & _).
  assert (Hsub1 : heap w1 ⊆ <[l := o]> (heap w1)) by by apply insert_subseteq.
  exists (VRef l), (set_heap (<[l := o]> (heap w1)) w1).
  split; [done|]. split; [by eapply same_env_trans|].
  cbn [heap set_heap]. split; [by apply grown_alloc|].
  intros l0 [= <-]. split.
  - split; [|by rewrite lookup_insert_eq].
    destruct (heap w !! l) as [o'|] eqn:Hl; [|done].
    by rewrite (lookup_weaken _ _ _ _ Hl Hsub) in Hl1.
  - rewrite lookup_insert_eq. intros d [= ->].
    destruct (Hmem d eq_refl) as (ρ & Hρ1 & Hρ2 & Hρ3 & Hρ4).
    exists ρ. split; [done|split; [|split; [|done]]].
    + intros k. apply (closed_in_weaken (heap w1)); [done| |done].
      by intros l' [_ ?]%Hρ3.
    + intros k l' Hl'%Hρ3. split.
      * by apply (proj1 (fresh_in_weaken _ _ _ l' Hsub Hsub1)).
      * intros ->. destruct Hl' as [_ [o' Ho']]. congruence.
Qed.

Theorem json_build_spec (j : jvalue) : builds_well j.
Proof.
  induction j as [| | | |xs IH|kvs IH] using jvalue_nested_ind; intros w.
  1-4: (eexists _, w; split; [done|]; split; [done|];
        split; [apply grown_refl|done]).
  - destruct (build_items_spec xs IH w) as (vs & w1 & Hvs & He & Hg & Hin).
    destruct (builds_well_alloc w w1 (OList vs)) as (v & w' & Hv & ? & ?); try done.
    exists v, w'. split; [|done].
    cbn [json_build]. by rewrite (bind_eq _ _ _ _ _ Hvs).
  - destruct (build_members_spec kvs IH w) as (d & w1 & Hd & He & Hg & Hmem).
    destruct (builds_well_alloc w w1 (ODict d)) as (v & w' & Hv & ? & ?); try done.
    + intros l' [k Hk]. destruct Hmem as (ρ & Hρ1 & _ & Hρ3 & _).
      by eapply Hρ3, Hρ1.
    + by intros d' [= <-].
    + exists v, w'. split; [|done].
      cbn [json_build]. by rewrite (bind_eq _ _ _ _ _ Hd).
Qed.

(** ** What load_database returns *)

Section Load.
Variable DATABASE_FILE : string.

(** The dict literal of [load_database] is the empty collection, built
    anew. *)
Lemma empty_database_as_document w :
  empty_database w = json_build empty_document w.
Proof. reflexivity. Qed.

(** [load_database] never raises; the database it returns is a tree of
    new objects. *)
Lemma load_database_spec w :
  ∃ db w', load_database DATABASE_FILE w = Ok db w' ∧
           ticks w' = ticks w ∧ db_file w' = db_file w ∧
           built (heap w) db (heap w').
Proof.
  unfold load_database.
  rewrite (bind_eq read_file _ w (db_file w) w eq_refl).
  destruct (db_file w) as [|msg|doc] eqn:Hfile.
  - set (w1 := World (heap w) (ticks w) (db_file w)
                 (ui w ++ [SidebarInfo ("New database will be created at: "
                                        +:+ DATABASE_FILE)])).
    rewrite (bind_eq (display _) _ w tt w1 eq_refl), empty_database_as_document.
    destruct (json_build_spec empty_document w1) as (v & w' & -> & (? & ? & ?) & ?).
    exists v, w'. unfold w1 in *. cbn [heap ticks db_file ui] in *.
    split; [done|]. split; [congruence|]. split; [congruence|]. done.
  - set (w1 := World (heap w) (ticks w) (db_file w)
                 (ui w ++ [SidebarError ("Error loading database: " +:+ msg)])).
    rewrite (bind_eq (display _) _ w tt w1 eq_refl), empty_database_as_document.
    destruct (json_build_spec empty_document w1) as (v & w' & -> & (? & ? & ?) & ?).
    exists v, w'. unfold w1 in *. cbn [heap ticks db_file ui] in *.
    split; [done|]. split; [congruence|]. split; [congruence|]. done.
  - destruct (json_build_spec doc w) as (v & w1 & Hv & (? & ? & ?) & ?).
    rewrite (bind_eq _ _ _ _ _ Hv).
    eexists v, _. split; [reflexivity|]. cbn [heap ticks db_file ui].
    split; [congruence|]. split; [congruence|]. done.
Qed.

Lemma load_database_ok w db w' :
  load_database DATABASE_FILE w = Ok db w' →
  ticks w' = ticks w ∧ db_file w' = db_file w ∧ built (heap w) db (heap w').
Proof.
  destruct (load_database_spec w) as (db0 & w0 & -> & H). by intros [= <- <-].
Qed.
End Load.

(** ** Which objects are written *)

Lemma writes_in_refl T h : writes_in T h h.
Proof. intros l o Hl. split; [by eexists | done]. Qed.

Lemma writes_in_trans T h1 h2 h3 :
  writes_in T h1 h2 → writes_in T h2 h3 → writes_in T h1 h3.
Proof.
  intros H12 H23 l o Hl. destruct (H12 l o Hl) as [[o2 Ho2] Hk2].
  destruct (H23 l o2 Ho2) as [Hs3 Hk3]. split; [done|].
  intros HT. specialize (Hk2 HT). rewrite Hk2 in Ho2. injection Ho2 as <-. auto.
Qed.

Lemma writes_in_mono (T T' : loc → Prop) h h' :
  (∀ l, is_Some (h !! l) → T l → T' l) → writes_in T h h' → writes_in T' h h'.
Proof.
  intros HT H l o Hl. destruct (H l o Hl) as [Hs Hk]. split; [done|].
  intros HT'. apply Hk. intros Hl'. apply HT', HT; [by eexists | done].
Qed.

Lemma writes_in_alloc T h l o : h !! l = None → writes_in T h (<[l := o]> h).
Proof.
  intros Hl l' o' Hl'. assert (l ≠ l') by congruence.
  rewrite lookup_insert_ne by done. split; [by eexists | done].
Qed.

Lemma writes_in_store (T : loc → Prop) h l o : T l → writes_in T h (<[l := o]> h).
Proof.
  intros HT l' o' Hl'. destruct (decide (l = l')) as [<-|Hne].
  - rewrite lookup_insert_eq. split; [by eexists | done].
  - rewrite lookup_insert_ne by done. split; [by eexists | done].
Qed.

Lemma writes_in_None T h h' l : writes_in T h h' → h' !! l = None → h !! l = None.
Proof.
  intros H Hl. destruct (h !! l) as [o|] eqn:Ho; [|done].
  destruct (H l o Ho) as [[o' Ho'] _]. congruence.
Qed.

(** ** The blocks of add_programs_to_database, when they succeed *)

Lemma len_of_insert_ne h l o v :
  v ≠ VRef l → len_of (<[l := o]> h) v = len_of h v.
Proof.
  intros Hv. destruct v as [| | | |l']; try done.
  unfold len_of. rewrite lookup_insert_ne; [done|]. by intros ->.
Qed.

Ltac step H x w Hx := apply bind_ok in H as (x & w & Hx & H).

Section Blocks.
Variable isoformat_now : nat → string.
Variable repr_obj : gmap loc pyobj → loc → string.

Lemma update_metadata_ok w ld d w' :
  heap w !! ld = Some (ODict d) →
  update_metadata isoformat_now (VRef ld) w = Ok tt w' →
  ∃ vP n,
    d !! "programs" = Some vP ∧
    len_of (<[ld := ODict (<["last_updated" := VStr (isoformat_now (ticks w))]> d)]>
              (heap w)) vP = Some n ∧
    heap w' = <[ld := ODict (<["total_programs" := VInt (Z.of_nat n)]>
                            (<["last_updated" := VStr (isoformat_now (ticks w))]> d))]>
                (heap w) ∧
    db_file w' = db_file w.
Proof.
  intros Hld H. unfold update_metadata, now in H.
  step H t w1 Ht. apply read_clock_ok in Ht as (-> & Hh1 & Hf1 & Ht1).
  step H u w2 Hs. apply py_setitem_ok in Hs as (l & d1 & [= <-] & Hl & ->).
  rewrite Hh1, Hld in Hl. injection Hl as <-.
  step H ps w3 Hg. apply py_getitem_ok in Hg as (-> & l & d1 & [= <-] & Hl & Hps).
  cbn [heap set_heap] in Hl. rewrite lookup_insert_eq in Hl. injection Hl as <-.
  rewrite lookup_insert_ne in Hps by done.
  step H n w4 Hn. apply py_len_ok in Hn as (-> & Hn). cbn [heap set_heap] in Hn.
  apply py_setitem_ok in H as (l & d1 & [= <-] & Hl & ->).
  cbn [heap set_heap] in Hl. rewrite lookup_insert_eq in Hl. injection Hl as <-.
  exists ps, n. rewrite Hh1 in Hn. split; [done|]. split; [done|].
  cbn [heap set_heap db_file]. rewrite insert_insert_eq, Hh1. done.
Qed.

Lemma update_university_ok programs url uni w w' :
  update_university isoformat_now programs url uni w = Ok tt w' →
  ∃ l de,
    uni = VRef l ∧ heap w !! l = Some (ODict de) ∧ db_file w' = db_file w ∧
    if py_eq_str (default VNone (de !! "url")) url
    then ∃ z, heap w' = <[l := ODict (<["programs_count" := VInt z]>
                                     (<["scraped_at" := VStr (isoformat_now (ticks w))]> de))]>
                          (heap w)
    else heap w' = heap w.
Proof.
  intros H. unfold update_university, now in H.
  step H u w1 Hu. apply py_get_ok in Hu as (-> & l & de & -> & Hl & ->).
  exists l, de. split; [done|]. split; [done|].
  destruct (py_eq_str (default VNone (de !! "url")) url).
  - step H t w1 Ht. apply read_clock_ok in Ht as (-> & Hh1 & Hf1 & Ht1).
    step H u w2 Hs. apply py_setitem_ok in Hs as (l' & d1 & [= <-] & Hl' & ->).
    rewrite Hh1, Hl in Hl'. injection Hl' as <-.
    step H c w3 Hc. apply py_get_ok in Hc as (-> & _).
    step H n w3 Hn. apply py_len_ok in Hn as (-> & _).
    step H s w3 Hs. apply py_add_int_ok in Hs as (-> & Hs).
    apply py_setitem_ok in H as (l' & d1 & [= <-] & Hl' & ->).
    cbn [heap set_heap] in Hl'. rewrite lookup_insert_eq in Hl'. injection Hl' as <-.
    cbn [heap set_heap db_file]. split; [done|].
    destruct Hs as [(z & _ & ->) | (b & _ & ->)]; eexists;
      by rewrite insert_insert_eq, Hh1.
  - apply ret_ok in H as [_ ->]. done.
Qed.

Lemma add_program_ok database name url program w ld d w' :
  database = VRef ld → heap w !! ld = Some (ODict d) →
  add_program isoformat_now repr_obj database name url program w = Ok tt w' →
  ∃ li r lp old hc,
    program = VRef li ∧ heap w !! li = Some (ODict r) ∧
    d !! "programs" = Some (VRef lp) ∧ heap w !! lp = Some (OList old) ∧
    heap w' = <[lp := OList (old ++ [VRef (fresh (dom (heap w)))])]>
                (<[fresh (dom (heap w)) :=
                     ODict (with_meta name url (name_shown repr_obj hc r)
                              (isoformat_now (ticks w)) (length old) r)]>
                   (heap w)) ∧
    ticks w' = S (ticks w) ∧ db_file w' = db_file w.
Proof.
  intros -> Hld H. unfold add_program, now in H.
  set (c := fresh (dom (heap w))).
  assert (Hc : heap w !! c = None) by apply fresh_loc_None.
  assert (Hcld : c ≠ ld) by (by apply (fresh_loc_ne _ _ (ODict d))).
  step H pm w1 Hpm. apply py_copy_ok in Hpm as (li & o & -> & Hli & -> & ->).
  fold c in H.
  assert (Hcli : c ≠ li) by (by apply (fresh_loc_ne _ _ o)).
  step H u w2 Hs. apply py_setitem_ok in Hs as (l' & d1 & [= <-] & Hl' & ->).
  cbn [heap set_heap] in Hl'. rewrite lookup_insert_eq in Hl'. injection Hl' as ->.
  step H u2 w3 Hs. apply py_setitem_ok in Hs as (l' & d2 & [= <-] & Hl' & ->).
  cbn [heap set_heap] in Hl'. rewrite lookup_insert_eq in Hl'. injection Hl' as <-.
  step H t w3 Ht. apply read_clock_ok in Ht as (-> & Hh3 & Hf3 & Ht3).
  cbn [heap set_heap ticks db_file] in *.
  step H u3 w4 Hs. apply py_setitem_ok in Hs as (l' & d3 & [= <-] & Hl' & ->).
  rewrite Hh3, lookup_insert_eq in Hl'. injection Hl' as <-.
  step H nm w5 Hnm. apply py_get_ok in Hnm as (-> & l' & r' & [= <-] & Hl' & ->).
  cbn [heap set_heap] in Hl'. rewrite lookup_insert_ne, Hh3 in Hl' by done.
  rewrite !insert_insert_eq in Hl'. rewrite lookup_insert_ne in Hl' by done.
  rewrite Hli in Hl'. injection Hl' as <-.
  step H ns w5 Hns. apply py_str_ok in Hns as (-> & ->).
  step H ps w5 Hps. apply py_getitem_ok in Hps as (-> & l' & d' & [= <-] & Hl' & Hps).
  cbn [heap set_heap] in Hl'. rewrite lookup_insert_ne, Hh3 in Hl' by done.
  rewrite !insert_insert_eq in Hl'. rewrite lookup_insert_ne in Hl' by done.
  rewrite Hld in Hl'. injection Hl' as <-.
  step H n w5 Hn. apply py_len_ok in Hn as (-> & Hn).
  step H u4 w5 Hs. apply py_setitem_ok in Hs as (l' & d4 & [= <-] & Hl' & ->).
  cbn [heap set_heap] in Hl'. rewrite lookup_insert_eq in Hl'. injection Hl' as <-.
  step H ps' w6 Hps'.
  apply py_getitem_ok in Hps' as (-> & l' & d' & [= <-] & Hl' & Hps').
  cbn [heap set_heap] in Hl'. rewrite Hh3, !insert_insert_eq in Hl'.
  rewrite lookup_insert_ne in Hl' by done.
  rewrite Hld in Hl'. injection Hl' as <-.
  rewrite Hps in Hps'. injection Hps' as <-.
  apply py_append_ok in H as (lp & old & -> & Hlp & ->).
  cbn [heap set_heap] in Hlp. rewrite Hh3, !insert_insert_eq in Hlp.
  assert (Hclp : c ≠ lp).
  { intros <-. by rewrite lookup_insert_eq in Hlp. }
  rewrite lookup_insert_ne in Hlp by done.
  cbn [heap set_heap] in Hn. rewrite Hh3, !insert_insert_eq in Hn.
  unfold len_of in Hn. rewrite lookup_insert_ne, Hlp in Hn by done.
  injection Hn as <-.
  eexists li, d1, lp, old, _. split; [done|]. split; [done|].
  split; [done|]. split; [done|].
  cbn [heap set_heap ticks db_file]. rewrite Hh3, !insert_insert_eq.
  split; [reflexivity|]. done.
Qed.

Lemma map_each_get_ok k dflt xs :
  ∀ w ys w', map_each (λ x, py_get x k dflt) xs w = Ok ys w' →
    w' = w ∧
    Forall2 (λ x y, ∃ l de, x = VRef l ∧ heap w !! l = Some (ODict de)
                            ∧ y = default dflt (de !! k)) xs ys.
Proof.
  induction xs as [|x xs IH]; intros w ys w' H; cbn [map_each] in H.
  - apply ret_ok in H as [-> ->]. by split.
  - step H y w1 Hy. apply py_get_ok in Hy as (-> & Hy).
    step H ys' w1 Hys. apply IH in Hys as (-> & Hys).
    apply ret_ok in H as [-> ->]. split; [done|]. by constructor.
Qed.

Lemma matching_evolves h h' url l :
  evolves scrape_keys h h' → is_Some (h !! l) → matching h' url l →
  matching h url l.
Proof.
  intros Hev [o Ho] (de' & Hde' & Hm). specialize (Hev l o Ho).
  destruct o as [de|xs].
  - destruct Hev as (de2 & Hde2 & Hk). rewrite Hde2 in Hde'. injection Hde' as ->.
    exists de. split; [done|]. rewrite <- Hk; [done|].
    by apply not_key.
  - destruct Hev as (ys & Hys). congruence.
Qed.

(** The loop over the existing entries writes to entries of the list
    that match the URL, and to nothing else. *)
Lemma update_universities_ok programs url items :
  ∀ w w', for_each items (update_university isoformat_now programs url) w = Ok tt w' →
    db_file w' = db_file w ∧
    writes_in (λ l, VRef l ∈ items ∧ matching (heap w) url l) (heap w) (heap w').
Proof.
  induction items as [|x items IH]; intros w w' H; cbn [for_each] in H.
  - apply ret_ok in H as [_ ->]. split; [done|]. apply writes_in_refl.
  - step H u w1 Hx. destruct u.
    pose proof (evolving_update_university isoformat_now _ _ _ _ _ _ Hx) as [Hev _].
    apply update_university_ok in Hx as (l & de & -> & Hl & Hf1 & Hx).
    apply IH in H as [Hf2 Hw]. split; [congruence|].
    apply (writes_in_trans _ _ (heap w1)).
    + destruct (py_eq_str (default VNone (de !! "url")) url) eqn:Hm.
      * destruct Hx as [s ->]. apply writes_in_store. split.
        -- apply elem_of_cons. by left.
        -- by exists de.
      * rewrite Hx. apply writes_in_refl.
    + eapply writes_in_mono; [|exact Hw].
      intros l' Hl' [Hin Hm]. split.
      * apply elem_of_cons. by right.
      * apply (matching_evolves _ _ _ _ Hev); [|done].
        destruct (heap w !! l') as [o|] eqn:Ho; [by eexists|].
        exfalso. destruct Hm as (de' & Hde' & _).
        destruct (py_eq_str (default VNone (de !! "url")) url).
        -- destruct Hx as [s Hx]. rewrite Hx in Hde'.
           destruct (decide (l = l')) as [<-|Hne]; [congruence|].
           rewrite lookup_insert_ne in Hde' by done. congruence.
        -- congruence.
Qed.

Lemma update_universities_keep_stamped programs url l items :
  ∀ w w', for_each items (update_university isoformat_now programs url) w = Ok tt w' →
    stamped isoformat_now (heap w) l → stamped isoformat_now (heap w') l.
Proof.
  induction items as [|x items IH]; intros w w' H Hst; cbn [for_each] in H.
  - by apply ret_ok in H as [_ ->].
  - step H u w1 Hx. destruct u.
    apply update_university_ok in Hx as (lx & de & -> & Hl & _ & Hx).
    apply (IH _ _ H). clear H IH.
    destruct (py_eq_str (default VNone (de !! "url")) url); [|by rewrite Hx].
    destruct Hx as [z ->]. destruct (decide (lx = l)) as [->|Hne].
    + eexists _, (ticks w), z. rewrite lookup_insert_eq. split; [done|].
      rewrite lookup_insert_ne by done. by rewrite !lookup_insert_eq.
    + destruct Hst as (de0 & k & z0 & ? & ? & ?). exists de0, k, z0.
      by rewrite lookup_insert_ne.
Qed.

(** After the loop, the entries of the list that match the URL carry a
    reading of the clock. *)
Lemma update_universities_stamped programs url l items :
  ∀ w w', for_each items (update_university isoformat_now programs url) w = Ok tt w' →
    VRef l ∈ items → matching (heap w) url l → stamped isoformat_now (heap w') l.
Proof.
  induction items as [|x items IH]; intros w w' H Hin Hm; cbn [for_each] in H.
  - by apply elem_of_nil in Hin.
  - step H u w1 Hx. destruct u.
    pose proof (evolving_update_university isoformat_now _ _ _ _ _ _ Hx) as [Hev _].
    apply update_university_ok in Hx as (lx & de & -> & Hl & _ & Hx).
    destruct Hm as (dm & Hdm & Hmatch).
    apply elem_of_cons in Hin as [[= ->]|Hin].
    + rewrite Hl in Hdm. injection Hdm as <-. rewrite Hmatch in Hx.
      destruct Hx as [z Hx].
      apply (update_universities_keep_stamped _ _ _ _ _ _ H).
      eexists _, (ticks w), z. rewrite Hx, lookup_insert_eq. split; [done|].
      rewrite lookup_insert_ne by done. by rewrite !lookup_insert_eq.
    + apply (IH _ _ H Hin).
      destruct (Hev l _ Hdm) as (dm' & Hdm' & Hk). exists dm'. split; [done|].
      rewrite Hk; [done|]. by apply not_key.
Qed.

Lemma appended_weaken h1 h h' name url n items cs :
  (∀ c, h1 !! c = None → h !! c = None) →
  (∀ li r, VRef li ∈ items → h1 !! li = Some (ODict r) → h !! li = Some (ODict r)) →
  appended repr_obj h1 h' name url n items cs →
  appended repr_obj h h' name url n items cs.
Proof.
  intros Hc. revert n cs.
  induction items as [|item items IH]; intros n [|c cs] Hli; try done.
  intros [(Hcn & li & r & hc & t & -> & Hr & Hnew) Hrest]. split.
  - split; [by apply Hc|]. exists li, r, hc, t. split; [done|]. split; [|done].
    apply Hli; [|done]. apply elem_of_cons. by left.
  - apply IH; [|done]. intros li' r' Hin. apply Hli, elem_of_cons. by right.
Qed.

Lemma appended_lookup h h' name url n items cs :
  appended repr_obj h h' name url n items cs →
  length cs = length items ∧
  ∀ i item, items !! i = Some item →
    ∃ c, cs !! i = Some c ∧ new_record repr_obj h h' name url (n + i) item c.
Proof.
  revert n cs. induction items as [|item items IH]; intros n [|c cs]; try done.
  intros [Hnew Hrest]. destruct (IH _ _ Hrest) as [Hlen Hi]. split.
  - cbn [length]. by rewrite Hlen.
  - intros [|i] item' Hitem; cbn in Hitem.
    + injection Hitem as <-. exists c. split; [done|]. by rewrite Nat.add_0_r.
    + destruct (Hi i item' Hitem) as (c' & Hc' & Hn'). exists c'. split; [done|].
      by replace (n + S i) with (S n + i) by lia.
Qed.

(** The loop over the new programs appends one new record per program
    to the list of programs, and writes to no other object that was
    there before. *)
Lemma add_programs_ok name url ld d lp items :
  d !! "programs" = Some (VRef lp) →
  ∀ w w' old,
    heap w !! ld = Some (ODict d) → heap w !! lp = Some (OList old) →
    (∀ li, VRef li ∈ items → is_Some (heap w !! li)) →
    for_each items (add_program isoformat_now repr_obj (VRef ld) name url) w
      = Ok tt w' →
    db_file w' = db_file w ∧
    writes_in (λ l, l = lp) (heap w) (heap w') ∧
    heap w' !! ld = Some (ODict d) ∧
    ∃ cs, heap w' !! lp = Some (OList (old ++ (VRef <$> cs))) ∧
          appended repr_obj (heap w) (heap w') name url (length old) items cs.
Proof.
  intros Hps. induction items as [|item items IH]; intros w w' old Hld Hlp Hitems H;
    cbn [for_each] in H.
  - apply ret_ok in H as [_ ->]. split; [done|]. split; [apply writes_in_refl|].
    split; [done|]. exists []. by rewrite app_nil_r.
  - step H u w1 Hx. destruct u.
    apply (add_program_ok (VRef ld) name url item w ld d w1 eq_refl Hld) in Hx
      as (li & r & lp' & old' & hc & -> & Hli & Hps' & Hlp' & Hh1 & Ht1 & Hf1).
    rewrite Hps in Hps'. injection Hps' as <-.
    rewrite Hlp in Hlp'. injection Hlp' as <-.
    set (c := fresh (dom (heap w))) in *.
    assert (Hc : heap w !! c = None) by apply fresh_loc_None.
    assert (Hcld : c ≠ ld) by congruence.
    assert (Hclp : c ≠ lp) by congruence.
    assert (Hlpld : lp ≠ ld) by congruence.
    assert (Hw1 : writes_in (λ l, l = lp) (heap w) (heap w1)).
    { rewrite Hh1. eapply writes_in_trans;
        [by apply writes_in_alloc | by apply writes_in_store]. }
    destruct (IH w1 w' (old ++ [VRef c])) as (Hf2 & Hw2 & Hld2 & cs & Hlp2 & Happ).
    { rewrite Hh1. by rewrite !lookup_insert_ne. }
    { rewrite Hh1. by rewrite lookup_insert_eq. }
    { intros li' Hin. destruct (Hitems li') as [o Ho].
      - apply elem_of_cons. by right.
      - by destruct (Hw1 _ _ Ho). }
    { done. }
    split; [congruence|]. split; [by eapply writes_in_trans|].
    split; [done|]. exists (c :: cs). split.
    { rewrite Hlp2. f_equal. f_equal. rewrite fmap_cons. by rewrite <- app_assoc. }
    cbn [appended]. split.
    + split; [done|]. exists li, r, hc, (isoformat_now (ticks w)).
      split; [done|]. split; [done|].
      assert (Hc1 : heap w1 !! c = Some (ODict (with_meta name url
                      (name_shown repr_obj hc r) (isoformat_now (ticks w))
                      (length old) r))).
      { rewrite Hh1. rewrite lookup_insert_ne by done. by rewrite lookup_insert_eq. }
      destruct (Hw2 _ _ Hc1) as [_ Hkeep]. by apply Hkeep.
    + rewrite length_app in Happ. cbn [length] in Happ.
      rewrite Nat.add_1_r in Happ.
      eapply appended_weaken; [| |exact Happ].
      * intros c'. by apply (writes_in_None _ _ _ _ Hw1).
      * intros li' r' Hin Hr'. destruct (Hitems li') as [o Ho].
        { apply elem_of_cons. by right. }
        rewrite Hh1 in Hr'.
        destruct (decide (lp = li')) as [<-|Hne1].
        { by rewrite lookup_insert_eq in Hr'. }
        rewrite lookup_insert_ne in Hr' by done.
        destruct (decide (c = li')) as [<-|Hne2]; [congruence|].
        by rewrite lookup_insert_ne in Hr'.
Qed.

Lemma existsb_listed h us urls url :
  Forall2 (λ x y, ∃ l de, x = VRef l ∧ h !! l = Some (ODict de)
                          ∧ y = default (VStr EmptyString) (de !! "url")) us urls →
  existsb (λ u, py_eq_str u url) urls = true ↔ listed h us url.
Proof.
  induction 1 as [|x y us urls (l & de & -> & Hl & ->) _ IH]; cbn [existsb].
  - split; [done|]. intros (l & de & Hin & _). by apply elem_of_nil in Hin.
  - rewrite orb_true_iff, IH. split.
    + intros [Hm | (l' & de' & Hin & Hl' & Hm)].
      * exists l, de. split; [|done]. apply elem_of_cons. by left.
      * exists l', de'. split; [|done]. apply elem_of_cons. by right.
    + intros (l' & de' & [[= <-]|Hin]%elem_of_cons & Hl' & Hm).
      * left. rewrite Hl in Hl'. by injection Hl' as <-.
      * right. by exists l', de'.
Qed.

Lemma listed_alloc h f o us url :
  h !! f = None → listed (<[f := o]> h) us url → o = OList [] → listed h us url.
Proof.
  intros Hf (l & de & Hin & Hl & Hm) ->. exists l, de. split; [done|]. split; [|done].
  destruct (decide (f = l)) as [<-|Hne].
  - by rewrite lookup_insert_eq in Hl.
  - by rewrite lookup_insert_ne in Hl.
Qed.

Lemma register_university_ok programs name url w ld d w2 :
  heap w !! ld = Some (ODict d) →
  (∀ l, d !! "universities" = Some (VRef l) → is_Some (heap w !! l)) →
  register_university isoformat_now (VRef ld) programs name url w = Ok tt w2 →
  ∃ lu us,
    d !! "universities" = Some (VRef lu) ∧ heap w !! lu = Some (OList us) ∧
    db_file w2 = db_file w ∧
    ((listed (heap w) us url ∧
      writes_in (λ l, VRef l ∈ us ∧ matching (heap w) url l) (heap w) (heap w2) ∧
      ∀ l, VRef l ∈ us → matching (heap w) url l → stamped isoformat_now (heap w2) l)
     ∨
     (¬ listed (heap w) us url ∧
      ∃ n, let h1 := <[fresh (dom (heap w)) := OList []]> (heap w) in
           len_of h1 programs = Some n ∧
           heap w2 =
             <[lu := OList (us ++ [VRef (fresh (dom h1))])]>
               (<[fresh (dom h1) :=
                    ODict (<["name" := VStr name]>
                          (<["url" := VStr url]>
                          (<["scraped_at" := VStr (isoformat_now (ticks w))]>
                          (<["programs_count" := VInt (Z.of_nat n)]> ∅))))]> h1))).
Proof.
  intros Hld Hdom H. unfold register_university, now in H.
  set (f := fresh (dom (heap w))) in *.
  assert (Hf : heap w !! f = None) by apply fresh_loc_None.
  assert (Hfld : f ≠ ld) by congruence.
  step H dflt w1 Ha. apply alloc_ok in Ha as [-> ->]. fold f in H.
  set (h1 := <[f := OList []]> (heap w)) in *.
  assert (Hld1 : h1 !! ld = Some (ODict d)) by (unfold h1; by rewrite lookup_insert_ne).
  step H unis w2' Hu. apply py_get_ok in Hu as (-> & l & d' & [= <-] & Hl & ->).
  cbn [heap set_heap] in Hl. rewrite Hld1 in Hl. injection Hl as <-.
  step H items w2' Hit. apply py_iter_ok in Hit as (-> & Hit).
  step H urls w2' Hurls. apply map_each_get_ok in Hurls as (-> & Hurls).
  cbn [heap set_heap] in *.
  destruct (existsb (λ u, py_eq_str u url) urls) eqn:Hex; cbn [negb] in H.
  - (* the URL is among the existing ones *)
    step H us_v w3 Hg. apply py_getitem_ok in Hg as (-> & l & d' & [= <-] & Hl & Hus).
    cbn [heap set_heap] in Hl. rewrite Hld1 in Hl. injection Hl as <-.
    rewrite Hus in Hit. cbn [default from_option id] in Hit.
    step H us w3 Hit2. apply py_iter_ok in Hit2 as (-> & Hit2).
    cbn [heap set_heap] in Hit2.
    pose proof (λ l, update_universities_stamped _ _ l _ _ _ H) as Hst.
    apply update_universities_ok in H as [Hf2 Hw]. cbn [heap set_heap db_file] in *.
    assert (Hne : ∃ x l de, x ∈ items ∧ x = VRef l ∧ h1 !! l = Some (ODict de)).
    { apply (existsb_listed h1 items) in Hex; [|done].
      destruct Hex as (l & de & Hin & Hl & _). by exists (VRef l), l, de. }
    destruct Hne as (x & lx & dx & Hx & -> & Hlx).
    destruct Hit as [(s & -> & Hstr) | [(l & dl & -> & Hl & Hstr) | (lu & -> & Hlu)]].
    { destruct (Hstr _ Hx) as [? [=]]. }
    { destruct (Hstr _ Hx) as [? [=]]. }
    destruct Hit2 as [(s & [=] & _) | [(l & dl & [= <-] & Hl & _) | (l & [= <-] & Hlu2)]];
      [congruence|].
    rewrite Hlu in Hlu2. injection Hlu2 as <-.
    assert (Hflu : f ≠ lu).
    { intros <-. destruct (Hdom f Hus) as [o Ho]. congruence. }
    exists lu, items. split; [done|]. split.
    { unfold h1 in Hlu. by rewrite lookup_insert_ne in Hlu. }
    split; [done|]. left. split; [|split].
    + apply (listed_alloc (heap w) f (OList [])); [done| |done].
      by apply (existsb_listed h1 items urls).
    + apply (writes_in_trans _ _ h1); [by apply writes_in_alloc|].
      eapply writes_in_mono; [|exact Hw].
      intros l' _ [Hin (de & Hde & Hm)]. split; [done|].
      exists de. split; [|done]. unfold h1 in Hde.
      destruct (decide (f = l')) as [<-|?].
      * by rewrite lookup_insert_eq in Hde.
      * by rewrite lookup_insert_ne in Hde.
    + intros l' Hin (de & Hde & Hm). apply (Hst l' Hin).
      exists de. split; [|done]. unfold h1.
      rewrite lookup_insert_ne; [done|]. congruence.
  - (* a new URL *)
    step H t w3 Ht. apply read_clock_ok in Ht as (-> & Hh3 & Hf3 & Ht3).
    cbn [heap set_heap ticks db_file] in *.
    step H n w4 Hn. apply py_len_ok in Hn as (-> & Hn). rewrite Hh3 in Hn.
    step H info w4 Hi. apply alloc_ok in Hi as [-> ->]. rewrite Hh3 in H.
    set (li := fresh (dom h1)) in *.
    assert (Hli : h1 !! li = None) by apply fresh_loc_None.
    step H us_v w5 Hg. apply py_getitem_ok in Hg as (-> & l & d' & [= <-] & Hl & Hus).
    cbn [heap set_heap] in Hl.
    assert (li ≠ ld) by congruence.
    rewrite lookup_insert_ne, Hld1 in Hl by done. injection Hl as <-.
    apply py_append_ok in H as (lu & us & -> & Hlu & ->).
    cbn [heap set_heap db_file] in *.
    assert (Hlilu : li ≠ lu).
    { intros <-. by rewrite lookup_insert_eq in Hlu. }
    rewrite lookup_insert_ne in Hlu by done.
    assert (Hflu : f ≠ lu).
    { intros <-. destruct (Hdom f Hus) as [o Ho]. congruence. }
    rewrite Hus in Hit. cbn [default from_option id] in Hit.
    destruct Hit as [(s & [=] & _) | [(l & dl & [= <-] & Hl & _) | (l & [= <-] & Hlu2)]];
      [congruence|].
    rewrite Hlu in Hlu2. injection Hlu2 as <-.
    exists lu, us. split; [done|]. split.
    { unfold h1 in Hlu. by rewrite lookup_insert_ne in Hlu. }
    split; [done|]. right. split.
    + intros Hlisted.
      assert (listed h1 us url) as Hl1.
      { destruct Hlisted as (l & de & Hin & Hl & Hm). exists l, de.
        split; [done|]. split; [|done]. unfold h1.
        rewrite lookup_insert_ne; [done|]. congruence. }
      apply (existsb_listed h1 us urls) in Hl1; [congruence|done].
    + exists n. cbn zeta. fold f. fold h1. fold li. split; [done|].
      reflexivity.
Qed.

(** Whatever the database holds, the loop over the new programs writes
    to the list of programs and to new objects, and to nothing else. *)
Lemma add_programs_writes name url ld d items :
  ∀ w w',
    heap w !! ld = Some (ODict d) →
    for_each items (add_program isoformat_now repr_obj (VRef ld) name url) w
      = Ok tt w' →
    db_file w' = db_file w ∧
    writes_in (λ l, d !! "programs" = Some (VRef l)) (heap w) (heap w') ∧
    heap w' !! ld = Some (ODict d).
Proof.
  induction items as [|item items IH]; intros w w' Hld H; cbn [for_each] in H.
  - apply ret_ok in H as [_ ->]. split; [done|]. split; [apply writes_in_refl|done].
  - step H u w1 Hx. destruct u.
    apply (add_program_ok (VRef ld) name url item w ld d w1 eq_refl Hld) in Hx
      as (li & r & lp & old & hc & -> & Hli & Hps & Hlp & Hh1 & Ht1 & Hf1).
    set (c := fresh (dom (heap w))) in *.
    assert (Hc : heap w !! c = None) by apply fresh_loc_None.
    assert (Hcld : c ≠ ld) by congruence.
    assert (Hlpld : lp ≠ ld) by congruence.
    destruct (IH w1 w') as (Hf2 & Hw2 & Hld2); [|done|].
    { rewrite Hh1. by rewrite !lookup_insert_ne. }
    split; [congruence|]. split; [|done].
    apply (writes_in_trans _ _ (heap w1)); [|done].
    rewrite Hh1. eapply writes_in_trans;
      [by apply writes_in_alloc | by apply writes_in_store].
Qed.

Lemma register_university_dict database programs name url w w2 :
  register_university isoformat_now database programs name url w = Ok tt w2 →
  ∃ ld d, database = VRef ld ∧ heap w !! ld = Some (ODict d).
Proof.
  intros H. unfold register_university in H.
  step H dflt w1 Ha. apply alloc_ok in Ha as [-> ->].
  step H unis w2' Hu. apply py_get_ok in Hu as (-> & l & d & -> & Hl & ->).
  cbn [heap set_heap] in Hl. exists l, d. split; [done|].
  destruct (decide (fresh (dom (heap w)) = l)) as [<-|Hne].
  - by rewrite lookup_insert_eq in Hl.
  - by rewrite lookup_insert_ne in Hl.
Qed.

Lemma merge_loaded_inv database programs url w1 r w' :
  merge_loaded isoformat_now repr_obj database programs url w1 = Ok r w' →
  r = database ∧
  ∃ w2 items w3,
    register_university isoformat_now database programs
      (university_name_of url) url w1 = Ok tt w2 ∧
    py_iter programs w2 = Ok items w2 ∧
    for_each items (add_program isoformat_now repr_obj database
                      (university_name_of url) url) w2 = Ok tt w3 ∧
    update_metadata isoformat_now database w3 = Ok tt w'.
Proof.
  intros H. unfold merge_loaded in H. cbn zeta in H.
  step H u1 w2 H1. destruct u1.
  step H items w2' H2. pose proof H2 as [-> _]%py_iter_ok.
  step H u3 w3 H3. destruct u3.
  step H u4 w4 H4. destruct u4.
  apply ret_ok in H as [-> ->]. split; [done|]. by exists w2, items, w3.
Qed.
(** The count that [update_university] stores. *)
Lemma update_university_count programs url uni w w' :
  update_university isoformat_now programs url uni w = Ok tt w' →
  ∃ l de,
    uni = VRef l ∧ heap w !! l = Some (ODict de) ∧
    if py_eq_str (default VNone (de !! "url")) url
    then ∃ n,
      let de1 := <["scraped_at" := VStr (isoformat_now (ticks w))]> de in
      len_of (<[l := ODict de1]> (heap w)) programs = Some n ∧
      heap w' = <[l := ODict (<["programs_count" := VInt (count_of de + Z.of_nat n)]> de1)]>
                  (heap w)
    else heap w' = heap w.
Proof.
  intros H. unfold update_university, now in H.
  step H u w1 Hu. apply py_get_ok in Hu as (-> & l & de & -> & Hl & ->).
  exists l, de. split; [done|]. split; [done|].
  destruct (py_eq_str (default VNone (de !! "url")) url).
  - step H t w1 Ht. apply read_clock_ok in Ht as (-> & Hh1 & Hf1 & Ht1).
    step H u w2 Hs. apply py_setitem_ok in Hs as (l' & d1 & [= <-] & Hl' & ->).
    rewrite Hh1, Hl in Hl'. injection Hl' as <-.
    step H c w3 Hc. apply py_get_ok in Hc as (-> & l' & d1 & [= <-] & Hl' & ->).
    cbn [heap set_heap] in Hl'. rewrite lookup_insert_eq in Hl'. injection Hl' as <-.
    rewrite lookup_insert_ne in H by done.
    step H n w3 Hn. apply py_len_ok in Hn as (-> & Hn).
    cbn [heap set_heap] in Hn. rewrite Hh1 in Hn.
    step H s w3 Hs. apply py_add_int_ok in Hs as (-> & Hs).
    apply py_setitem_ok in H as (l' & d1 & [= <-] & Hl' & ->).
    cbn [heap set_heap] in Hl'. rewrite lookup_insert_eq in Hl'. injection Hl' as <-.
    cbn [heap set_heap]. exists n. cbn zeta. split; [done|].
    rewrite insert_insert_eq, Hh1. unfold count_of.
    destruct Hs as [(z & Hz & ->) | (b & Hb & ->)].
    + destruct (de !! "programs_count") as [v|]; cbn in Hz.
      * by rewrite Hz.
      * by injection Hz as <-.
    + destruct (de !! "programs_count") as [v|]; cbn in Hb; [by rewrite Hb|done].
  - apply ret_ok in H as [_ ->]. done.
Qed.

(** When the batch is empty, the loop over the entries keeps their
    counts. *)
Lemma update_universities_keep_count lb url items :
  ∀ w w', for_each items (update_university isoformat_now (VRef lb) url) w = Ok tt w' →
    heap w !! lb = Some (OList []) →
    ∀ l de, heap w !! l = Some (ODict de) →
      ∃ de', heap w' !! l = Some (ODict de') ∧ count_of de' = count_of de.
Proof.
  induction items as [|x items IH]; intros w w' H Hlb l de Hl; cbn [for_each] in H.
  - apply ret_ok in H as [_ ->]. by exists de.
  - step H u w1 Hx. destruct u.
    apply update_university_count in Hx as (lx & dx & -> & Hlx & Hx).
    destruct (py_eq_str (default VNone (dx !! "url")) url).
    2:{ rewrite <- Hx in Hlb, Hl. by apply (IH _ _ H Hlb). }
    destruct Hx as (n & Hn & Hh). cbn zeta in *.
    assert (lx ≠ lb) by congruence.
    unfold len_of in Hn. rewrite lookup_insert_ne, Hlb in Hn by done.
    injection Hn as <-. cbn [length Z.of_nat] in Hh. rewrite Z.add_0_r in Hh.
    assert (Hlb1 : heap w1 !! lb = Some (OList [])) by (by rewrite Hh, lookup_insert_ne).
    destruct (decide (lx = l)) as [->|Hne].
    + rewrite Hlx in Hl. injection Hl as <-.
      destruct (IH _ _ H Hlb1 l _ ltac:(rewrite Hh; apply lookup_insert_eq))
        as (de' & Hde' & Hc).
      exists de'. split; [done|]. rewrite Hc. unfold count_of at 1.
      by rewrite lookup_insert_eq.
    + apply (IH _ _ H Hlb1). by rewrite Hh, lookup_insert_ne.
Qed.

Lemma register_university_keep_count database lb name url w w2 :
  register_university isoformat_now database (VRef lb) name url w = Ok tt w2 →
  heap w !! lb = Some (OList []) →
  ∀ l de, heap w !! l = Some (ODict de) →
    ∃ de', heap w2 !! l = Some (ODict de') ∧ count_of de' = count_of de.
Proof.
  intros H Hlb l de Hl. unfold register_university, now in H.
  set (f := fresh (dom (heap w))) in *.
  assert (Hf : ∀ l o, heap w !! l = Some o → <[f := OList []]> (heap w) !! l = Some o).
  { intros l' o Hl'. rewrite lookup_insert_ne; [done|]. by eapply fresh_loc_ne. }
  step H dflt w1 Ha. apply alloc_ok in Ha as [-> ->]. fold f in H.
  step H unis w2' Hu. apply py_get_ok in Hu as (-> & _).
  step H items w2' Hit. apply py_iter_ok in Hit as (-> & _).
  step H urls w2' Hurls. apply map_each_get_ok in Hurls as (-> & _).
  destruct (negb _).
  - step H t w3 Ht. apply read_clock_ok in Ht as (-> & Hh3 & _).
    step H n w4 Hn. apply py_len_ok in Hn as (-> & _).
    step H info w4 Hi. apply alloc_ok in Hi as [-> ->]. rewrite Hh3 in H.
    step H us_v w5 Hg. apply py_getitem_ok in Hg as (-> & _).
    apply py_append_ok in H as (lu & us & -> & Hlu & ->).
    cbn [heap set_heap] in *.
    set (info := fresh (dom (<[f := OList []]> (heap w)))) in *.
    assert (Hi : info ≠ l) by (eapply fresh_loc_ne; by apply Hf).
    assert (Hne : lu ≠ l).
    { intros ->. rewrite lookup_insert_ne in Hlu by done.
      rewrite (Hf _ _ Hl) in Hlu. done. }
    exists de. split; [|done]. rewrite !lookup_insert_ne by done. by apply Hf.
  - step H us_v w3 Hg. apply py_getitem_ok in Hg as (-> & _).
    step H us w3 Hit2. apply py_iter_ok in Hit2 as (-> & _).
    apply (update_universities_keep_count _ _ _ _ _ H); cbn [heap set_heap]; by apply Hf.
Qed.
End Blocks.

(** ** The merge returns *)

(** The built-in operations on objects of the right kind. *)
Lemma py_get_run l d k dflt w :
  heap w !! l = Some (ODict d) → py_get (VRef l) k dflt w = Ok (default dflt (d !! k)) w.
Proof. intros H. unfold py_get, mbind, M_bind, lookup_obj. by rewrite H. Qed.

Lemma py_getitem_run l d k x w :
  heap w !! l = Some (ODict d) → d !! k = Some x → py_getitem (VRef l) k w = Ok x w.
Proof. intros H Hk. unfold py_getitem, mbind, M_bind, lookup_obj. by rewrite H, Hk. Qed.

Lemma py_setitem_run l d k x w :
  heap w !! l = Some (ODict d) →
  py_setitem (VRef l) k x w = Ok tt (set_heap (<[l := ODict (<[k := x]> d)]> (heap w)) w).
Proof. intros H. unfold py_setitem, mbind, M_bind, lookup_obj. by rewrite H. Qed.

Lemma py_append_run l xs x w :
  heap w !! l = Some (OList xs) →
  py_append (VRef l) x w = Ok tt (set_heap (<[l := OList (xs ++ [x])]> (heap w)) w).
Proof. intros H. unfold py_append, mbind, M_bind, lookup_obj. by rewrite H. Qed.

Lemma py_len_run l xs w :
  heap w !! l = Some (OList xs) → py_len (VRef l) w = Ok (length xs) w.
Proof. intros H. unfold py_len, mbind, M_bind, lookup_obj. by rewrite H. Qed.

Lemma py_iter_run l xs w :
  heap w !! l = Some (OList xs) → py_iter (VRef l) w = Ok xs w.
Proof. intros H. unfold py_iter, mbind, M_bind, lookup_obj. by rewrite H. Qed.

Lemma py_copy_run l o w :
  heap w !! l = Some o →
  py_copy (VRef l) w
  = Ok (VRef (fresh (dom (heap w)))) (set_heap (<[fresh (dom (heap w)) := o]> (heap w)) w).
Proof. intros H. unfold py_copy, mbind, M_bind, lookup_obj. by rewrite H. Qed.

Lemma py_str_run r v w : py_str r v w = Ok (str_of r (heap w) v) w.
Proof. by destruct v as [|[]| | |]. Qed.

Ltac run H := rewrite (bind_eq _ _ _ _ _ H).

Section Returns.
Variable isoformat_now : nat → string.
Variable repr_obj : gmap loc pyobj → loc → string.

Lemma update_university_returns lb items url uni w :
  entry_at (heap w) uni → heap w !! lb = Some (OList items) →
  ∃ w', update_university isoformat_now (VRef lb) url uni w = Ok tt w'.
Proof.
  intros (l & de & -> & Hl & Hc) Hlb. unfold update_university, now.
  run (py_get_run _ _ "url" VNone _ Hl).
  destruct (py_eq_str _ url); [|by eexists].
  rewrite (bind_eq (read_clock _) _ w _ _ eq_refl).
  set (w1 := World (heap w) (S (ticks w)) (db_file w) (ui w)).
  run (py_setitem_run l de "scraped_at" (VStr (isoformat_now (ticks w))) w1 Hl).
  set (w2 := set_heap _ w1).
  assert (Hl2 : heap w2 !! l = Some (ODict (<["scraped_at" := VStr (isoformat_now (ticks w))]> de)))
    by apply lookup_insert_eq.
  assert (Hlb2 : heap w2 !! lb = Some (OList items)).
  { unfold w2. cbn [heap set_heap]. rewrite lookup_insert_ne; [done|congruence]. }
  run (py_get_run _ _ "programs_count" (VInt 0) _ Hl2).
  rewrite lookup_insert_ne by done.
  run (py_len_run _ _ _ Hlb2).
  unfold countable in Hc.
  destruct (de !! "programs_count") as [[| | | |]|]; try done; cbn [default from_option id py_add_int];
    rewrite (bind_eq (mret _) _ w2 _ _ eq_refl); rewrite (py_setitem_run _ _ _ _ _ Hl2); by eexists.
Qed.

(** What [update_university] keeps. *)
Lemma update_university_keeps lb url uni w w' :
  update_university isoformat_now (VRef lb) url uni w = Ok tt w' →
  (∀ v, entry_at (heap w) v → entry_at (heap w') v) ∧
  (∀ l xs, heap w !! l = Some (OList xs) → heap w' !! l = Some (OList xs)).
Proof.
  intros (l & de & -> & Hl & _ & H)%update_university_ok.
  destruct (py_eq_str _ url); [|by rewrite H].
  destruct H as [z ->]. split.
  - intros v (l' & de' & -> & Hl' & Hc). destruct (decide (l' = l)) as [->|Hne].
    + eexists l, _. split; [done|]. rewrite lookup_insert_eq. split; [done|].
      unfold countable. by rewrite lookup_insert_eq.
    + exists l', de'. by rewrite lookup_insert_ne.
  - intros l' xs Hl'. rewrite lookup_insert_ne; [done|congruence].
Qed.

Lemma update_universities_returns lb items url us :
  ∀ w, Forall (entry_at (heap w)) us → heap w !! lb = Some (OList items) →
    ∃ w', for_each us (update_university isoformat_now (VRef lb) url) w = Ok tt w'.
Proof.
  induction us as [|u us IH]; intros w Hall Hlb; cbn [for_each].
  - by eexists.
  - apply Forall_cons in Hall as [Hu Hall].
    destruct (update_university_returns lb items url u w Hu Hlb) as [w1 H1].
    run H1. apply update_university_keeps in H1 as [Hent Hlist].
    apply IH; [|by apply Hlist].
    eapply Forall_impl; [exact Hall|]. exact Hent.
Qed.

Lemma map_each_get_returns k dflt xs w :
  Forall (entry_at (heap w)) xs →
  ∃ ys, map_each (λ x, py_get x k dflt) xs w = Ok ys w.
Proof.
  induction 1 as [|x xs (l & de & -> & Hl & _) _ [ys IH]]; cbn [map_each].
  - by eexists.
  - run (py_get_run _ _ k dflt _ Hl). run IH. by eexists.
Qed.

Lemma register_university_returns db lb items name url w :
  collection_at (heap w) db → heap w !! lb = Some (OList items) →
  ∃ w', register_university isoformat_now db (VRef lb) name url w = Ok tt w'.
Proof.
  intros (ld & d & lp & ps & lu & us & -> & Hld & Hps & Hlp & Hus & Hlu & Hall) Hlb.
  unfold register_university, now.
  set (f := fresh (dom (heap w))).
  assert (Hf : ∀ l o, heap w !! l = Some o → <[f := OList []]> (heap w) !! l = Some o).
  { intros l o Hl. rewrite lookup_insert_ne; [done|]. by eapply fresh_loc_ne. }
  rewrite (bind_eq (alloc _) _ w _ _ eq_refl). fold f.
  set (w1 := set_heap _ w).
  run (py_get_run ld d "universities" (VRef f) w1 (Hf _ _ Hld)).
  rewrite Hus. cbn [default from_option id].
  run (py_iter_run lu us w1 (Hf _ _ Hlu)).
  assert (Hall1 : Forall (entry_at (heap w1)) us).
  { eapply Forall_impl; [exact Hall|].
    intros v (l & de & -> & Hl & Hc). exists l, de. split; [done|]. split; [|done].
    by apply Hf. }
  destruct (map_each_get_returns "url" (VStr EmptyString) us w1 Hall1) as [urls Hurls].
  run Hurls.
  destruct (negb _).
  - rewrite (bind_eq (read_clock _) _ w1 _ _ eq_refl).
    set (w2 := World _ _ _ _).
    run (py_len_run lb items w2 (Hf _ _ Hlb)).
    rewrite (bind_eq (alloc _) _ w2 _ _ eq_refl).
    set (w3 := set_heap _ w2). set (info := fresh (dom (heap w2))).
    assert (Hi : ∀ l o, heap w2 !! l = Some o → heap w3 !! l = Some o).
    { intros l o Hl. unfold w3. cbn [heap set_heap]. rewrite lookup_insert_ne; [done|].
      by eapply fresh_loc_ne. }
    run (py_getitem_run ld d "universities" (VRef lu) w3 (Hi _ _ (Hf _ _ Hld)) Hus).
    rewrite (py_append_run lu us _ w3 (Hi _ _ (Hf _ _ Hlu))). by eexists.
  - run (py_getitem_run ld d "universities" (VRef lu) w1 (Hf _ _ Hld) Hus).
    run (py_iter_run lu us w1 (Hf _ _ Hlu)).
    apply (update_universities_returns lb items); [done|by apply Hf].
Qed.

Lemma add_program_returns ld d lp ps li r name url w :
  heap w !! ld = Some (ODict d) → d !! "programs" = Some (VRef lp) →
  heap w !! lp = Some (OList ps) → heap w !! li = Some (ODict r) →
  ∃ w', add_program isoformat_now repr_obj (VRef ld) name url (VRef li) w = Ok tt w'.
Proof.
  intros Hld Hps Hlp Hli. unfold add_program, now.
  set (c := fresh (dom (heap w))).
  assert (Hc : ∀ l o, heap w !! l = Some o → c ≠ l) by (intros; by eapply fresh_loc_ne).
  run (py_copy_run li _ w Hli). fold c.
  set (w1 := set_heap _ w).
  assert (H1 : heap w1 !! c = Some (ODict r)) by apply lookup_insert_eq.
  run (py_setitem_run c _ "university" (VStr name) w1 H1).
  set (w2 := set_heap _ w1).
  assert (H2 : heap w2 !! c = Some (ODict (<["university" := VStr name]> r)))
    by apply lookup_insert_eq.
  run (py_setitem_run c _ "source_url" (VStr url) w2 H2).
  set (w3 := set_heap _ w2).
  rewrite (bind_eq (read_clock _) _ w3 _ _ eq_refl).
  set (w4 := World _ _ _ _).
  assert (H4 : heap w4 !! c = Some (ODict (<["source_url" := VStr url]>
                                          (<["university" := VStr name]> r))))
    by apply lookup_insert_eq.
  run (py_setitem_run c _ "added_at" (VStr (isoformat_now (ticks w3))) w4 H4).
  set (w5 := set_heap _ w4).
  assert (Hk : ∀ l o, heap w !! l = Some o → heap w5 !! l = Some o).
  { intros l o Hl. pose proof (Hc _ _ Hl).
    unfold w5, w4, w3, w2, w1. cbn [heap set_heap]. by rewrite !lookup_insert_ne. }
  run (py_get_run li r "name" (VStr "unknown") w5 (Hk _ _ Hli)).
  run (py_str_run repr_obj (default (VStr "unknown") (r !! "name")) w5).
  run (py_getitem_run ld d "programs" (VRef lp) w5 (Hk _ _ Hld) Hps).
  run (py_len_run lp ps w5 (Hk _ _ Hlp)).
  assert (H5 : heap w5 !! c = Some (ODict (<["added_at" := VStr (isoformat_now (ticks w3))]>
                                          (<["source_url" := VStr url]>
                                          (<["university" := VStr name]> r)))))
    by apply lookup_insert_eq.
  run (py_setitem_run c _ "id"
         (VStr (name +:+ "_" +:+ str_of repr_obj (heap w5) (default (VStr "unknown") (r !! "name"))
                +:+ "_" +:+ str_of_nat (length ps))) w5 H5).
  set (w6 := set_heap _ w5).
  assert (Hk6 : ∀ l o, heap w !! l = Some o → heap w6 !! l = Some o).
  { intros l o Hl. pose proof (Hc _ _ Hl). unfold w6. cbn [heap set_heap].
    rewrite lookup_insert_ne by done. by apply Hk. }
  run (py_getitem_run ld d "programs" (VRef lp) w6 (Hk6 _ _ Hld) Hps).
  rewrite (py_append_run lp ps _ w6 (Hk6 _ _ Hlp)). by eexists.
Qed.

Lemma programs_key : "programs" ∉ meta_keys.
Proof. apply (not_key meta_keys). reflexivity. Qed.

Lemma add_programs_returns ld lp name url items :
  ∀ w d ps,
    heap w !! ld = Some (ODict d) → d !! "programs" = Some (VRef lp) →
    heap w !! lp = Some (OList ps) → Forall (record_at (heap w)) items →
    ∃ w', for_each items (add_program isoformat_now repr_obj (VRef ld) name url) w
          = Ok tt w'.
Proof.
  induction items as [|x items IH]; intros w d ps Hld Hps Hlp Hall; cbn [for_each].
  - by eexists.
  - apply Forall_cons in Hall as [(li & r & -> & Hli) Hall].
    destruct (add_program_returns ld d lp ps li r name url w Hld Hps Hlp Hli) as [w1 H1].
    run H1.
    destruct (evolving_add_program isoformat_now repr_obj _ _ _ _ _ _ _ H1) as [Hev _].
    destruct (Hev _ _ Hld) as (d1 & Hld1 & Hd1).
    destruct (Hev _ _ Hlp) as (ys & Hlp1).
    apply (IH w1 d1 (ps ++ ys)); [done| |done|].
    + rewrite Hd1; [done|apply programs_key].
    + eapply Forall_impl; [exact Hall|].
      intros v (l & r' & -> & Hl). destruct (Hev _ _ Hl) as (r1 & Hl1 & _). by exists l, r1.
Qed.

Lemma update_metadata_returns ld d lp ps w :
  heap w !! ld = Some (ODict d) → d !! "programs" = Some (VRef lp) →
  heap w !! lp = Some (OList ps) →
  ∃ w', update_metadata isoformat_now (VRef ld) w = Ok tt w'.
Proof.
  intros Hld Hps Hlp. unfold update_metadata, now.
  rewrite (bind_eq (read_clock _) _ w _ _ eq_refl).
  set (w1 := World _ _ _ _).
  run (py_setitem_run ld d "last_updated" (VStr (isoformat_now (ticks w))) w1 Hld).
  set (w2 := set_heap _ w1).
  assert (H2 : heap w2 !! ld = Some (ODict (<["last_updated" := VStr (isoformat_now (ticks w))]> d)))
    by apply lookup_insert_eq.
  assert (Hlp2 : heap w2 !! lp = Some (OList ps)).
  { unfold w2. cbn [heap set_heap]. rewrite lookup_insert_ne; [done|congruence]. }
  rewrite (bind_eq _ _ _ _ _ (py_getitem_run ld _ "programs" (VRef lp) w2 H2
                               ltac:(by rewrite lookup_insert_ne))).
  run (py_len_run lp ps w2 Hlp2).
  rewrite (py_setitem_run ld _ _ _ w2 H2). by eexists.
Qed.

End Returns.

(** ** add_programs_to_database, when it returns *)

Section Merge.
Variable DATABASE_FILE : string.
Variable isoformat_now : nat → string.
Variable repr_obj : gmap loc pyobj → loc → string.

Abbreviation load := (load_database DATABASE_FILE).
Abbreviation merge :=
  (add_programs_to_database DATABASE_FILE isoformat_now repr_obj).

(** The steps of a call that returns: the database is loaded as a tree
    of new objects, a dict whose [universities] is a list; then the three
    blocks run. *)
Lemma add_programs_to_database_inv programs url w0 r w' :
  merge programs url w0 = Ok r w' →
  ∃ w1 w2 items w3 ld d lu us,
    load w0 = Ok (VRef ld) w1 ∧ r = VRef ld ∧
    built (heap w0) (VRef ld) (heap w1) ∧
    db_file w1 = db_file w0 ∧ ticks w1 = ticks w0 ∧
    heap w1 !! ld = Some (ODict d) ∧
    d !! "universities" = Some (VRef lu) ∧ heap w1 !! lu = Some (OList us) ∧
    register_university isoformat_now (VRef ld) programs
      (university_name_of url) url w1 = Ok tt w2 ∧
    py_iter programs w2 = Ok items w2 ∧
    for_each items (add_program isoformat_now repr_obj (VRef ld)
                      (university_name_of url) url) w2 = Ok tt w3 ∧
    update_metadata isoformat_now (VRef ld) w3 = Ok tt w'.
Proof.
  intros H. unfold add_programs_to_database in H.
  step H db w1 Hload. pose proof (load_database_ok _ _ _ _ Hload) as (Ht & Hf & Hb).
  apply merge_loaded_inv in H as (-> & w2 & items & w3 & H1 & H2 & H3 & H4).
  destruct (register_university_dict _ _ _ _ _ _ _ H1) as (ld & d & -> & Hld).
  assert (Hdom : ∀ l, d !! "universities" = Some (VRef l) → is_Some (heap w1 !! l)).
  { intros l Hl. destruct Hb as [(_ & Hcl & _) Hroot].
    destruct (Hroot ld eq_refl) as [Hfr _].
    assert (fresh_in (heap w0) (heap w1) l) as [_ ?]; [|done].
    apply (Hcl ld (ODict d) l); [done..|]. by exists "universities". }
  destruct (register_university_ok isoformat_now programs _ url w1 ld d w2 Hld Hdom H1)
    as (lu & us & Hus & Hlu & _).
  exists w1, w2, items, w3, ld, d, lu, us. done.
Qed.

(** What is known of a loaded database. *)
Lemma built_database h0 h1 ld d :
  built h0 (VRef ld) h1 → h1 !! ld = Some (ODict d) →
  h0 ⊆ h1 ∧ h0 !! ld = None ∧
  (∀ k l, d !! k = Some (VRef l) → l ≠ ld ∧ h0 !! l = None ∧ is_Some (h1 !! l)) ∧
  (∀ k l xs l', d !! k = Some (VRef l) → h1 !! l = Some (OList xs) → VRef l' ∈ xs →
                l' ≠ l ∧ l' ≠ ld ∧ h0 !! l' = None ∧ is_Some (h1 !! l')) ∧
  ∃ ρ : string → loc → Prop,
    (∀ k l, d !! k = Some (VRef l) → ρ k l) ∧
    (∀ k, closed_in h1 (ρ k)) ∧
    (∀ k l, ρ k l → is_Some (h1 !! l) ∧ h0 !! l = None ∧ l ≠ ld) ∧
    (∀ k1 k2 l, ρ k1 l → ρ k2 l → k1 = k2).
Proof.
  intros [(Hsub & Hcl & Hself) Hroot] Hld.
  destruct (Hroot ld eq_refl) as [Hfr Hmem].
  destruct (Hmem d Hld) as (ρ & Hρ1 & Hρ2 & Hρ3 & Hρ4).
  split; [done|]. split; [by destruct Hfr|].
  assert (Hkey : ∀ k l, d !! k = Some (VRef l) → fresh_in h0 h1 l ∧ l ≠ ld).
  { intros k l Hk. split.
    - apply (Hcl ld (ODict d) l); [done..|]. by exists k.
    - intros ->. apply (Hself ld (ODict d)); [done..|]. by exists k. }
  split; [|split].
  - intros k l Hk. destruct (Hkey k l Hk) as [[? ?] ?]. done.
  - intros k l xs l' Hk Hl Hin. destruct (Hkey k l Hk) as [Hfl Hne].
    assert (fresh_in h0 h1 l') as Hfl' by (by apply (Hcl l (OList xs) l')).
    destruct Hfl' as [? ?]. split; [|split; [|done]].
    + intros ->. by apply (Hself l (OList xs)).
    + intros ->. destruct (Hρ3 k l (Hρ1 k l Hk)) as [_ Hnld].
      pose proof (Hρ2 k l (OList xs) ld (Hρ1 k l Hk) Hl Hin) as Hρld.
      by destruct (Hρ3 k ld Hρld) as [_ ?].
  - exists ρ. split; [done|]. split; [done|]. split; [|done].
    intros k l Hl. destruct (Hρ3 k l Hl) as [[? ?] ?]. done.
Qed.

Section Trace.
Variables (programs : pyval) (url : string).
Variables (w1 w2 w3 w' : world) (items : list pyval).
Variables (ld lu : loc) (d : gmap string pyval) (us : list pyval).
Hypothesis Hld : heap w1 !! ld = Some (ODict d).
Hypothesis Hus : d !! "universities" = Some (VRef lu).
Hypothesis Hlu : heap w1 !! lu = Some (OList us).
Hypothesis Hregister :
  register_university isoformat_now (VRef ld) programs
    (university_name_of url) url w1 = Ok tt w2.
Hypothesis Hadd :
  for_each items (add_program isoformat_now repr_obj (VRef ld)
                    (university_name_of url) url) w2 = Ok tt w3.
Hypothesis Hmeta : update_metadata isoformat_now (VRef ld) w3 = Ok tt w'.

(** The database dict before the last block: as loaded, but for the
    keys of [scrape_keys]. *)
Lemma trace_database :
  ∃ d2, heap w2 !! ld = Some (ODict d2) ∧ heap w3 !! ld = Some (ODict d2) ∧
        ∀ k, k ∉ scrape_keys → d2 !! k = d !! k.
Proof.
  destruct (evolving_register_university isoformat_now _ _ _ _ _ _ _ Hregister)
    as [Hev _].
  destruct (Hev ld _ Hld) as (d2 & Hd2 & Hk).
  destruct (add_programs_writes _ _ _ _ _ _ _ _ _ Hd2 Hadd) as (_ & _ & Hd3).
  by exists d2.
Qed.

Lemma trace_metadata :
  ∃ d2 ps n t,
    heap w3 !! ld = Some (ODict d2) ∧ (∀ k, k ∉ scrape_keys → d2 !! k = d !! k) ∧
    d !! "programs" = Some ps ∧
    (ps ≠ VRef ld → len_of (heap w3) ps = Some n) ∧
    heap w' = <[ld := ODict (<["total_programs" := VInt (Z.of_nat n)]>
                            (<["last_updated" := VStr t]> d2))]> (heap w3).
Proof.
  destruct trace_database as (d2 & _ & Hd3 & Hk).
  destruct (update_metadata_ok _ _ _ _ _ Hd3 Hmeta) as (ps & n & Hps & Hn & Hh & _).
  exists d2, ps, n, (isoformat_now (ticks w3)).
  split; [done|]. split; [done|]. split; [|split; [|done]].
  - rewrite <- Hk; [done|]. by apply not_key.
  - intros Hne. by rewrite len_of_insert_ne in Hn.
Qed.

(** The entry of the source: either the URL is listed and the
    matching entries are rewritten, or it is not and an entry is
    appended. *)
Lemma trace_register :
  db_file w2 = db_file w1 ∧
  ((listed (heap w1) us url ∧
    writes_in (λ l, VRef l ∈ us ∧ matching (heap w1) url l) (heap w1) (heap w2) ∧
    ∀ l, VRef l ∈ us → matching (heap w1) url l → stamped isoformat_now (heap w2) l)
   ∨
   (¬ listed (heap w1) us url ∧
    ∃ n, let h1 := <[fresh (dom (heap w1)) := OList []]> (heap w1) in
         len_of h1 programs = Some n ∧
         heap w2 =
           <[lu := OList (us ++ [VRef (fresh (dom h1))])]>
             (<[fresh (dom h1) :=
                  ODict (<["name" := VStr (university_name_of url)]>
                        (<["url" := VStr url]>
                        (<["scraped_at" := VStr (isoformat_now (ticks w1))]>
                        (<["programs_count" := VInt (Z.of_nat n)]> ∅))))]> h1))).
Proof.
  assert (Hdom : ∀ l, d !! "universities" = Some (VRef l) → is_Some (heap w1 !! l)).
  { intros l Hl. rewrite Hus in Hl. injection Hl as <-. by eexists. }
  destruct (register_university_ok _ _ _ _ _ _ _ _ Hld Hdom Hregister)
    as (lu' & us' & Hus' & Hlu' & Hf & Hcase).
  rewrite Hus in Hus'. injection Hus' as <-.
  rewrite Hlu in Hlu'. injection Hlu' as <-. by split.
Qed.

(** Which of the objects of the loaded database are written. *)
Lemma trace_register_writes (T : loc → Prop) :
  (listed (heap w1) us url → ∀ l, VRef l ∈ us → matching (heap w1) url l → T l) →
  (¬ listed (heap w1) us url → T lu) →
  writes_in T (heap w1) (heap w2).
Proof.
  intros HTus HTlu.
  destruct trace_register as [_ [(Hl & Hw & _) | [Hnl (n & _ & ->)]]].
  - eapply writes_in_mono; [|exact Hw]. intros l _ [? ?]. by apply HTus.
  - eapply writes_in_trans; [eapply writes_in_trans|].
    + apply writes_in_alloc, fresh_loc_None.
    + apply writes_in_alloc, fresh_loc_None.
    + by apply writes_in_store, HTlu.
Qed.

Lemma trace_add_writes (T : loc → Prop) :
  (items ≠ [] → ∀ l, d !! "programs" = Some (VRef l) → T l) →
  writes_in T (heap w2) (heap w3).
Proof.
  intros HTps. destruct trace_database as (d2 & Hd2 & Hd3 & Hk).
  destruct items as [|item items'].
  - cbn [for_each] in Hadd. apply ret_ok in Hadd as [_ ->]. apply writes_in_refl.
  - destruct (add_programs_writes _ _ _ _ _ _ _ _ _ Hd2 Hadd) as (_ & Hw & _).
    eapply writes_in_mono; [|exact Hw]. intros l _ Hl. apply HTps; [done|].
    rewrite <- Hk; [done|]. by apply not_key.
Qed.

Lemma trace_meta_writes (T : loc → Prop) :
  T ld → writes_in T (heap w3) (heap w').
Proof.
  intros HTld. destruct trace_database as (d2 & Hd2 & Hd3 & Hk).
  destruct (update_metadata_ok _ _ _ _ _ Hd3 Hmeta) as (ps & n & _ & _ & -> & _).
  by apply writes_in_store.
Qed.

Lemma trace_writes (T : loc → Prop) :
  T ld →
  (listed (heap w1) us url → ∀ l, VRef l ∈ us → matching (heap w1) url l → T l) →
  (¬ listed (heap w1) us url → T lu) →
  (items ≠ [] → ∀ l, d !! "programs" = Some (VRef l) → T l) →
  writes_in T (heap w1) (heap w').
Proof.
  intros HTld HTus HTlu HTps.
  apply (writes_in_trans _ _ (heap w2)); [|apply (writes_in_trans _ _ (heap w3))].
  - by apply trace_register_writes.
  - by apply trace_add_writes.
  - by apply trace_meta_writes.
Qed.

Lemma trace_evolves : evolves meta_keys (heap w1) (heap w').
Proof.
  destruct (evolving_register_university isoformat_now _ _ _ _ _ _ _ Hregister)
    as [Hev1 _].
  destruct (evolving_add_programs isoformat_now repr_obj _ _ _ _ _ _ _ Hadd)
    as [Hev2 _].
  destruct (evolving_update_metadata isoformat_now _ _ _ _ Hmeta) as [Hev3 _].
  apply (evolves_trans _ _ (heap w2)).
  { eapply evolves_mono; [apply scrape_keys_meta | done]. }
  by apply (evolves_trans _ _ (heap w3)).
Qed.
End Trace.

(** The database of a missing or unreadable file is a collection. *)
Lemma load_database_empty_collection w db w' :
  db_file w = FileMissing ∨ (∃ msg, db_file w = FileUnreadable msg) →
  load_database DATABASE_FILE w = Ok db w' → collection_at (heap w') db.
Proof.
  intros Hfile. unfold load_database.
  rewrite (bind_eq read_file _ w (db_file w) w eq_refl).
  set (lp := fresh (dom (heap w))).
  set (lu := fresh (dom (<[lp := OList []]> (heap w)))).
  set (ld := fresh (dom (<[lu := OList []]> (<[lp := OList []]> (heap w))))).
  assert (Hlu : lu ≠ lp) by apply (fresh_loc_ne _ _ (OList [])), lookup_insert_eq.
  assert (ld ≠ lu ∧ ld ≠ lp) as [Hld1 Hld2].
  { split.
    - apply (fresh_loc_ne _ _ (OList [])), lookup_insert_eq.
    - apply (fresh_loc_ne _ _ (OList [])).
      rewrite lookup_insert_ne by done. apply lookup_insert_eq. }
  assert (∀ u, empty_database (World (heap w) (ticks w) (db_file w) u) = Ok db w' →
               collection_at (heap w') db) as Hempty.
  { intros u. rewrite empty_database_ok. cbn [heap set_heap]. fold lp lu ld.
    intros [= <- <-]. cbn [heap set_heap].
    eexists ld, _, lp, [], lu, []. split; [done|].
    rewrite lookup_insert_eq. split; [done|]. split; [done|].
    rewrite !lookup_insert_ne, lookup_insert_eq by done. split; [done|]. split; [done|].
    rewrite lookup_insert_ne, lookup_insert_eq by done. split; [done|]. constructor. }
  destruct Hfile as [Hf|[msg Hf]]; rewrite Hf;
    rewrite (bind_eq (display _) _ w tt _ eq_refl); rewrite <- ?Hf; apply Hempty.
Qed.

(** For a batch that is a list of records, when the database loaded is a
    collection, [add_programs_to_database] returns. *)
Theorem add_programs_to_database_returns programs url w0 db w1 :
  load_database DATABASE_FILE w0 = Ok db w1 →
  collection_at (heap w1) db → batch_at (heap w0) programs →
  ∃ r w', add_programs_to_database DATABASE_FILE isoformat_now repr_obj programs url w0
          = Ok r w'.
Proof.
  intros Hload (ld & d & lp & ps & lu & us & -> & Hld & Hps & Hlp & Hus & Hlu & Hall)
         (lb & items & -> & Hlb & Hitems).
  pose proof (load_database_ok _ _ _ _ Hload) as (_ & _ & Hb).
  destruct (built_database _ _ _ _ Hb Hld) as (Hsub & _ & Hkeys & _).
  assert (Hlb1 : heap w1 !! lb = Some (OList items)) by (by eapply lookup_weaken).
  assert (Hitems1 : Forall (record_at (heap w1)) items).
  { eapply Forall_impl; [exact Hitems|]. intros v (l & r & -> & Hl).
    exists l, r. split; [done|]. by eapply lookup_weaken. }
  unfold add_programs_to_database. run Hload. unfold merge_loaded. cbn zeta.
  (* the entry of the source *)
  destruct (register_university_returns isoformat_now (VRef ld) lb items
              (university_name_of url) url w1) as [w2 H1].
  { by exists ld, d, lp, ps, lu, us. }
  { done. }
  run H1.
  destruct (evolving_register_university isoformat_now _ _ _ _ _ _ _ H1) as [Hev _].
  apply (evolves_mono _ meta_keys) in Hev; [|apply scrape_keys_meta].
  assert (Hlb2 : heap w2 !! lb = Some (OList items)).
  { assert (Hdom : ∀ l, d !! "universities" = Some (VRef l) → is_Some (heap w1 !! l)).
    { intros l Hl. rewrite Hus in Hl. injection Hl as <-. by eexists. }
    destruct (register_university_ok isoformat_now _ _ url w1 ld d w2 Hld Hdom H1)
      as (lu' & us' & Hus' & Hlu' & _ & [(_ & Hw & _) | (_ & n & _ & ->)]).
    - destruct (Hw lb _ Hlb1) as [_ Hkeep]. apply Hkeep.
      intros [_ (de & Hde & _)]. congruence.
    - rewrite Hus in Hus'. injection Hus' as <-.
      destruct (Hkeys _ _ Hus) as (_ & Hnew & _).
      rewrite !lookup_insert_ne; [done|..].
      + apply (fresh_loc_ne _ _ (OList items)). done.
      + apply (fresh_loc_ne _ _ (OList items)).
        rewrite lookup_insert_ne; [done|]. by apply (fresh_loc_ne _ _ (OList items)).
      + congruence. }
  run (py_iter_run lb items w2 Hlb2).
  (* the new records *)
  destruct (Hev _ _ Hld) as (d2 & Hld2 & Hd2).
  destruct (Hev _ _ Hlp) as (ys & Hlp2).
  destruct (add_programs_returns isoformat_now repr_obj ld lp (university_name_of url)
              url items w2 d2 (ps ++ ys)) as [w3 H3]; [done| |done| |].
  { rewrite Hd2; [done|apply programs_key]. }
  { eapply Forall_impl; [exact Hitems1|]. intros v (l & r & -> & Hl).
    destruct (Hev _ _ Hl) as (r2 & Hl2 & _). by exists l, r2. }
  run H3.
  (* the metadata *)
  destruct (evolving_add_programs isoformat_now repr_obj _ _ _ _ _ _ _ H3) as [Hev3 _].
  destruct (Hev3 _ _ Hld2) as (d3 & Hld3 & Hd3).
  destruct (Hev3 _ _ Hlp2) as (zs & Hlp3).
  destruct (update_metadata_returns isoformat_now ld d3 lp ((ps ++ ys) ++ zs) w3 Hld3) as [w' H4];
    [|done|].
  { rewrite Hd3; [|apply programs_key]. rewrite Hd2; [done|apply programs_key]. }
  run H4. by eexists _, _.
Qed.

(** C1. For a batch that is a list of records, when the database loaded
    is a collection, [add_programs_to_database] returns.  Whenever it
    returns, it returns the database dict, and the [total_programs] of
    that dict is the length of its [programs]. *)
Theorem total_programs_is_length programs url w0 :
  (∀ db w1,
     load_database DATABASE_FILE w0 = Ok db w1 →
     collection_at (heap w1) db → batch_at (heap w0) programs →
     ∃ r w', add_programs_to_database DATABASE_FILE isoformat_now repr_obj
               programs url w0 = Ok r w') ∧
  (∀ r w',
     add_programs_to_database DATABASE_FILE isoformat_now repr_obj programs url w0
       = Ok r w' →
     ∃ ld d' ps n,
       r = VRef ld ∧ heap w' !! ld = Some (ODict d') ∧
       d' !! "programs" = Some ps ∧ len_of (heap w') ps = Some n ∧
       d' !! "total_programs" = Some (VInt (Z.of_nat n))).
Proof.
  split; [apply add_programs_to_database_returns|].
  intros r w'
    (w1 & w2 & items & w3 & ld & d & lu & us & Hload & -> & Hb & _ & _
     & Hld & Hus & Hlu & H1 & _ & H3 & H4)%add_programs_to_database_inv.
  destruct (trace_metadata _ _ _ _ _ _ _ _ _ Hld H1 H3 H4)
    as (d2 & ps & n & t & Hd3 & Hk & Hps & Hn & Hh).
  destruct (built_database _ _ _ _ Hb Hld) as (_ & _ & Hkeys & _).
  assert (Hne : ps ≠ VRef ld).
  { intros ->. by destruct (Hkeys _ _ Hps). }
  eexists ld, _, ps, n. split; [done|]. rewrite Hh, lookup_insert_eq.
  split; [done|]. rewrite !lookup_insert_ne by done.
  split; [|split].
  - rewrite Hk; [done|]. by apply not_key.
  - rewrite len_of_insert_ne by done. by apply Hn.
  - by rewrite lookup_insert_eq.
Qed.

(** C10. [add_programs_to_database] changes no object that existed
    before the call: the list it is given and every record of that list
    are afterwards as they were. *)
Theorem batch_not_mutated lb items url w0 r w' :
  add_programs_to_database DATABASE_FILE isoformat_now repr_obj (VRef lb) url w0
    = Ok r w' →
  heap w0 !! lb = Some (OList items) →
  heap w' !! lb = Some (OList items) ∧
  (∀ li o, VRef li ∈ items → heap w0 !! li = Some o → heap w' !! li = Some o) ∧
  (∀ l o, heap w0 !! l = Some o → heap w' !! l = Some o).
Proof.
  intros (w1 & w2 & items' & w3 & ld & d & lu & us & Hload & -> & Hb & _ & _
          & Hld & Hus & Hlu & H1 & _ & H3 & H4)%add_programs_to_database_inv Hlb.
  destruct (built_database _ _ _ _ Hb Hld) as (Hsub & Hnld & Hkeys & Helems & _).
  assert (Hw : writes_in (λ l, heap w0 !! l = None) (heap w1) (heap w')).
  { eapply trace_writes; try done.
    - intros _ l Hin _. by destruct (Helems _ _ _ _ Hus Hlu Hin) as (_ & _ & ? & _).
    - intros _. by destruct (Hkeys _ _ Hus) as (_ & ? & _).
    - intros _ l Hl. by destruct (Hkeys _ _ Hl) as (_ & ? & _). }
  assert (Hall : ∀ l o, heap w0 !! l = Some o → heap w' !! l = Some o).
  { intros l o Hl. destruct (Hw l o) as [_ Hkeep].
    - by eapply lookup_weaken.
    - apply Hkeep. congruence. }
  split; [by apply Hall|]. split; [|done]. intros li o _. apply Hall.
Qed.

(** C3. The merge only appends to the list of programs.  With [old] the
    list of the loaded database: afterwards the list is [old] followed by
    new elements, every record of [old] is as it was, and so is every
    object the records refer to, directly or not ([below] is a set of
    objects that holds the records and that references do not leave). *)
Theorem programs_append_only programs url w0 r w' w1 ld d lp old :
  add_programs_to_database DATABASE_FILE isoformat_now repr_obj programs url w0
    = Ok r w' →
  load_database DATABASE_FILE w0 = Ok (VRef ld) w1 →
  heap w1 !! ld = Some (ODict d) →
  d !! "programs" = Some (VRef lp) →
  heap w1 !! lp = Some (OList old) →
  ∃ d' news,
    heap w' !! ld = Some (ODict d') ∧ d' !! "programs" = Some (VRef lp) ∧
    heap w' !! lp = Some (OList (old ++ news)) ∧
    (∀ l o, VRef l ∈ old → heap w1 !! l = Some o → heap w' !! l = Some o) ∧
    ∃ below : loc → Prop,
      (∀ l, VRef l ∈ old → below l) ∧
      closed_in (heap w1) below ∧
      (∀ l o, below l → l ≠ lp → heap w1 !! l = Some o → heap w' !! l = Some o).
Proof.
  intros (w1' & w2 & items & w3 & ld' & d0 & lu & us & Hload & -> & Hb & _ & _
          & Hld' & Hus & Hlu & H1 & _ & H3 & H4)%add_programs_to_database_inv
         Hload' Hld Hps Hlp.
  rewrite Hload in Hload'. injection Hload' as -> ->.
  rewrite Hld in Hld'. injection Hld' as <-.
  destruct (built_database _ _ _ _ Hb Hld)
    as (Hsub & Hnld & Hkeys & Helems & ρ & Hρ1 & Hρ2 & Hρ3 & Hρ4).
  pose proof (trace_evolves _ _ _ _ _ _ _ _ H1 H3 H4) as Hev.
  destruct (Hev ld _ Hld) as (d' & Hd' & Hk).
  destruct (Hev lp _ Hlp) as (news & Hnews).
  assert (HρP : ∀ l, VRef l ∈ old → ρ "programs" l).
  { intros l Hin. apply (Hρ2 "programs" lp (OList old) l); [by apply Hρ1|done..]. }
  assert (HρU : ∀ l, VRef l ∈ us → ρ "universities" l).
  { intros l Hin. apply (Hρ2 "universities" lu (OList us) l); [by apply Hρ1|done..]. }
  assert (Hw : writes_in (λ l, ¬ ρ "programs" l ∨ l = lp) (heap w1) (heap w')).
  { eapply trace_writes; try done.
    - left. intros Hl. by destruct (Hρ3 _ _ Hl) as (_ & _ & ?).
    - intros _ l Hin _. left. intros Hl.
      by pose proof (Hρ4 _ _ _ Hl (HρU l Hin)).
    - intros _. left. intros Hl.
      by pose proof (Hρ4 _ _ _ Hl (Hρ1 _ _ Hus)).
    - intros _ l Hl. right. congruence. }
  assert (Hkeep : ∀ l o, ρ "programs" l → l ≠ lp →
                         heap w1 !! l = Some o → heap w' !! l = Some o).
  { intros l o Hl Hne Ho. destruct (Hw l o Ho) as [_ Hkeep]. apply Hkeep.
    by intros [?|?]. }
  exists d', news. split; [done|]. split.
  { rewrite Hk; [done|]. by apply not_key. }
  split; [done|]. split.
  - intros l o Hin. apply Hkeep; [by apply HρP|].
    by destruct (Helems _ _ _ _ Hps Hlp Hin) as (? & _).
  - exists (ρ "programs"). split; [done|]. split; [apply Hρ2 | done].
Qed.

(** C7. An entry of [universities] stands for the source URL when its
    [url] is that very string.  With [us] the list of the loaded
    database: if some entry has the URL, no entry is appended; if none
    has, one entry with this [url] is appended; the entries keep their
    [url].  So after a merge under [https://a.edu] into a database
    whose only entry has the url [https://a.edu/], there are two
    entries, one for each string. *)
Theorem university_entries_by_exact_url programs url w0 r w' w1 ld d lu us :
  add_programs_to_database DATABASE_FILE isoformat_now repr_obj programs url w0
    = Ok r w' →
  load_database DATABASE_FILE w0 = Ok (VRef ld) w1 →
  heap w1 !! ld = Some (ODict d) →
  d !! "universities" = Some (VRef lu) →
  heap w1 !! lu = Some (OList us) →
  (listed (heap w1) us url → heap w' !! lu = Some (OList us)) ∧
  (¬ listed (heap w1) us url →
   ∃ info de,
     heap w1 !! info = None ∧
     heap w' !! lu = Some (OList (us ++ [VRef info])) ∧
     heap w' !! info = Some (ODict de) ∧ de !! "url" = Some (VStr url)) ∧
  (∀ l de, VRef l ∈ us → heap w1 !! l = Some (ODict de) →
           ∃ de', heap w' !! l = Some (ODict de') ∧ de' !! "url" = de !! "url") ∧
  (∀ e de, us = [VRef e] → heap w1 !! e = Some (ODict de) →
           de !! "url" = Some (VStr "https://a.edu/") → url = "https://a.edu" →
           ∃ info de' dinfo,
             info ≠ e ∧ heap w' !! lu = Some (OList [VRef e; VRef info]) ∧
             heap w' !! e = Some (ODict de') ∧
             de' !! "url" = Some (VStr "https://a.edu/") ∧
             heap w' !! info = Some (ODict dinfo) ∧
             dinfo !! "url" = Some (VStr "https://a.edu")).
Proof.
  intros (w1' & w2 & items & w3 & ld' & d0 & lu' & us' & Hload & -> & Hb & _ & _
          & Hld' & Hus' & Hlu' & H1 & _ & H3 & H4)%add_programs_to_database_inv
         Hload' Hld Hus Hlu.
  rewrite Hload in Hload'. injection Hload' as -> ->.
  rewrite Hld in Hld'. injection Hld' as <-.
  rewrite Hus in Hus'. injection Hus' as <-.
  rewrite Hlu in Hlu'. injection Hlu' as <-.
  destruct (built_database _ _ _ _ Hb Hld)
    as (Hsub & Hnld & Hkeys & Helems & ρ & Hρ1 & Hρ2 & Hρ3 & Hρ4).
  pose proof (trace_evolves _ _ _ _ _ _ _ _ H1 H3 H4) as Hev.
  assert (Hplu : ∀ l, d !! "programs" = Some (VRef l) → l ≠ lu).
  { intros l Hl ->. by pose proof (Hρ4 _ _ _ (Hρ1 _ _ Hl) (Hρ1 _ _ Hus)). }
  assert (Hldlu : ld ≠ lu) by (by destruct (Hkeys _ _ Hus) as [? _]).
  assert (Hknown : listed (heap w1) us url → heap w' !! lu = Some (OList us)).
  { intros Hl.
    assert (Hw : writes_in (λ l, l ≠ lu) (heap w1) (heap w')).
    { eapply trace_writes; try done.
      intros _ l Hin _. by destruct (Helems _ _ _ _ Hus Hlu Hin) as [? _]. }
    destruct (Hw _ _ Hlu) as [_ Hkeep]. apply Hkeep. by intros ?. }
  assert (Hnew : ¬ listed (heap w1) us url →
    ∃ info de,
      heap w1 !! info = None ∧
      heap w' !! lu = Some (OList (us ++ [VRef info])) ∧
      heap w' !! info = Some (ODict de) ∧ de !! "url" = Some (VStr url)).
  { intros Hnl.
    destruct (trace_register _ _ _ _ _ _ _ _ Hld Hus Hlu H1)
      as [_ [[? _] | [_ (n & _ & Hh2)]]]; [done|].
    set (f := fresh (dom (heap w1))) in *.
    set (h1f := <[f := OList []]> (heap w1)) in *.
    set (info := fresh (dom h1f)) in *.
    assert (Hf : heap w1 !! f = None) by apply fresh_loc_None.
    assert (Hi : h1f !! info = None) by apply fresh_loc_None.
    assert (Hi1 : heap w1 !! info = None).
    { destruct (heap w1 !! info) as [o|] eqn:Ho; [|done].
      unfold h1f in Hi. destruct (decide (f = info)) as [Heq|Hne].
      - rewrite Heq in Hf. congruence.
      - rewrite lookup_insert_ne in Hi by done. congruence. }
    assert (Hilu : info ≠ lu) by congruence.
    assert (Hw : writes_in (λ l, l ≠ lu ∧ l ≠ info) (heap w2) (heap w')).
    { apply (writes_in_trans _ _ (heap w3)).
      - eapply trace_add_writes; try done. intros _ l Hl. split; [by apply Hplu|].
        destruct (Hkeys _ _ Hl) as (_ & _ & [o Ho]). congruence.
      - eapply trace_meta_writes; try done. split; [done|]. congruence. }
    eexists info, _. split; [done|].
    assert (H2lu : heap w2 !! lu = Some (OList (us ++ [VRef info]))).
    { rewrite Hh2. by rewrite lookup_insert_eq. }
    assert (H2i : heap w2 !! info = Some (ODict
              (<["name" := VStr (university_name_of url)]>
              (<["url" := VStr url]>
              (<["scraped_at" := VStr (isoformat_now (ticks w1))]>
              (<["programs_count" := VInt (Z.of_nat n)]> ∅)))))).
    { rewrite Hh2. rewrite lookup_insert_ne by done. by rewrite lookup_insert_eq. }
    destruct (Hw _ _ H2lu) as [_ Hk1]. destruct (Hw _ _ H2i) as [_ Hk2].
    split; [apply Hk1; by intros [? _]|].
    split; [apply Hk2; by intros [_ ?]|]. done. }
  assert (Hurl : ∀ l de, VRef l ∈ us → heap w1 !! l = Some (ODict de) →
                 ∃ de', heap w' !! l = Some (ODict de') ∧ de' !! "url" = de !! "url").
  { intros l de _ Hl. destruct (Hev l _ Hl) as (de' & Hde' & Hk).
    exists de'. split; [done|]. apply Hk. by apply not_key. }
  split; [done|]. split; [done|]. split; [done|].
  intros e de -> He Hde ->.
  destruct Hnew as (info & dinfo & Hi & Hlist & Hinfo & Hiurl).
  { intros (l & de0 & Hin & Hl & Hm). apply list_elem_of_singleton in Hin.
    injection Hin as ->. rewrite He in Hl. injection Hl as <-.
    rewrite Hde in Hm. cbn in Hm. discriminate. }
  destruct (Hurl e de) as (de' & Hde' & Hk); [by apply list_elem_of_singleton|done|].
  exists info, de', dinfo. split; [congruence|]. split; [done|].
  split; [done|]. split; [congruence|]. done.
Qed.

(** C5. Each record the merge appends is a new object: the record of
    the batch with [university], [source_url], [added_at] and [id]
    added, where [id] is the name of the source, the [name] of the
    record as an f-string shows it ([unknown] when the record has none)
    and the length of the list of programs just before the record is
    appended, joined by underscores.  Merging the one record named
    [Code Camp] under [https://mit.edu/summer] when there is no database
    file gives one program with the id [mit.edu_Code Camp_0], one
    entry of [universities] with [programs_count] 1, and
    [total_programs] 1. *)
Theorem new_records_get_ids :
  (∀ lb items url w0 r w' w1 ld d lp old,
     add_programs_to_database DATABASE_FILE isoformat_now repr_obj (VRef lb) url w0
       = Ok r w' →
     heap w0 !! lb = Some (OList items) →
     (∀ li, VRef li ∈ items → is_Some (heap w0 !! li)) →
     load_database DATABASE_FILE w0 = Ok (VRef ld) w1 →
     heap w1 !! ld = Some (ODict d) →
     d !! "programs" = Some (VRef lp) →
     heap w1 !! lp = Some (OList old) →
     ∃ cs,
       heap w' !! lp = Some (OList (old ++ (VRef <$> cs))) ∧
       length cs = length items ∧
       ∀ i item, items !! i = Some item →
         ∃ c li r hc t,
           cs !! i = Some c ∧ item = VRef li ∧
           heap w0 !! li = Some (ODict r) ∧ heap w1 !! c = None ∧
           heap w' !! c =
             Some (ODict (with_meta (university_name_of url) url
                            (name_shown repr_obj hc r) t (length old + i) r)))
  ∧
  (∃ w',
     add_programs_to_database DATABASE_FILE isoformat_now repr_obj
       (VRef 1%positive) "https://mit.edu/summer" (world0 FileMissing code_camp_heap)
       = Ok (VRef 5%positive) w' ∧
     heap w' !! 5%positive =
       Some (ODict (<["programs" := VRef 3%positive]>
                   (<["universities" := VRef 4%positive]>
                   (<["last_updated" := VStr (isoformat_now 2)]>
                   (<["total_programs" := VInt 1]> ∅))))) ∧
     heap w' !! 3%positive = Some (OList [VRef 8%positive]) ∧
     heap w' !! 8%positive =
       Some (ODict (<["name" := VStr "Code Camp"]>
                   (<["university" := VStr "mit.edu"]>
                   (<["source_url" := VStr "https://mit.edu/summer"]>
                   (<["added_at" := VStr (isoformat_now 1)]>
                   (<["id" := VStr "mit.edu_Code Camp_0"]> ∅)))))) ∧
     heap w' !! 4%positive = Some (OList [VRef 7%positive]) ∧
     heap w' !! 7%positive =
       Some (ODict (<["name" := VStr "mit.edu"]>
                   (<["url" := VStr "https://mit.edu/summer"]>
                   (<["scraped_at" := VStr (isoformat_now 0)]>
                   (<["programs_count" := VInt 1]> ∅)))))).
Proof.
  split.
  - intros lb items url w0 r w' w1 ld d lp old
      (w1' & w2 & items' & w3 & ld' & d0 & lu & us & Hload & -> & Hb & _ & _
       & Hld' & Hus & Hlu & H1 & H2 & H3 & H4)%add_programs_to_database_inv
      Hlb Hitems Hload' Hld Hps Hlp.
    rewrite Hload in Hload'. injection Hload' as -> ->.
    rewrite Hld in Hld'. injection Hld' as <-.
    destruct (built_database _ _ _ _ Hb Hld)
      as (Hsub & Hnld & Hkeys & Helems & ρ & Hρ1 & Hρ2 & Hρ3 & Hρ4).
    assert (HρU : ∀ l, VRef l ∈ us → ρ "universities" l).
    { intros l Hin. apply (Hρ2 "universities" lu (OList us) l); [by apply Hρ1|done..]. }
    assert (Hlpld : lp ≠ ld) by (by destruct (Hkeys _ _ Hps) as [? _]).
    (* the first block leaves the batch and the list of programs alone *)
    assert (Hw0 : writes_in (λ l, heap w0 !! l = None) (heap w1) (heap w2)).
    { eapply trace_register_writes; try done.
      - intros _ l Hin _. by destruct (Helems _ _ _ _ Hus Hlu Hin) as (_ & _ & ? & _).
      - intros _. by destruct (Hkeys _ _ Hus) as (_ & ? & _). }
    assert (Hold : ∀ l o, heap w0 !! l = Some o → heap w2 !! l = Some o).
    { intros l o Hl. destruct (Hw0 l o) as [_ Hkeep].
      - by eapply lookup_weaken.
      - apply Hkeep. congruence. }
    assert (Hwp : writes_in (λ l, l ≠ lp) (heap w1) (heap w2)).
    { eapply trace_register_writes; try done.
      - intros _ l Hin _ ->.
        by pose proof (Hρ4 _ _ _ (Hρ1 _ _ Hps) (HρU _ Hin)).
      - intros _ <-. by pose proof (Hρ4 _ _ _ (Hρ1 _ _ Hps) (Hρ1 _ _ Hus)). }
    assert (Hlp2 : heap w2 !! lp = Some (OList old)).
    { destruct (Hwp _ _ Hlp) as [_ Hkeep]. apply Hkeep. by intros ?. }
    destruct (trace_database _ _ _ _ _ _ _ _ Hld H1 H3) as (d2 & Hd2 & Hd3 & Hk).
    assert (Hps2 : d2 !! "programs" = Some (VRef lp)).
    { rewrite Hk; [done|]. by apply not_key. }
    apply py_iter_ok in H2 as [_ H2].
    destruct H2 as [(? & [=] & _) | [(l0 & ? & [= <-] & Hl0 & _) | (l0 & [= <-] & Hl0)]];
      rewrite (Hold _ _ Hlb) in Hl0; [discriminate|injection Hl0 as <-].
    destruct (add_programs_ok isoformat_now repr_obj (university_name_of url) url
                ld d2 lp items Hps2 w2 w3 old Hd2 Hlp2)
      as (_ & _ & _ & cs & Hcs & Happ); [|done|].
    { intros li Hin. destruct (Hitems li Hin) as [o Ho]. exists o. by apply Hold. }
    assert (Hw3 : writes_in (λ l, l = ld) (heap w3) (heap w')).
    { eapply trace_meta_writes; [exact Hld|exact H1|exact H3|exact H4|done]. }
    destruct (appended_lookup _ _ _ _ _ _ _ _ Happ) as [Hlen Hidx].
    exists cs. split; [|split; [done|]].
    { destruct (Hw3 _ _ Hcs) as [_ Hkeep]. by apply Hkeep. }
    intros i item Hi. destruct (Hidx i item Hi)
      as (c & Hc & Hcn & li & r0 & hc & t & -> & Hr & Hnew).
    exists c, li, r0, hc, t. split; [done|]. split; [done|]. split; [|split].
    + destruct (Hitems li) as [o Ho]; [by eapply list_elem_of_lookup_2|].
      rewrite (Hold _ _ Ho) in Hr. by injection Hr as ->.
    + by apply (writes_in_None _ _ _ _ Hw0).
    + destruct (Hw3 _ _ Hnew) as [_ Hkeep]. apply Hkeep. intros ->. congruence.
  - eexists. split; [vm_compute; reflexivity|]. cbn [heap].
    repeat split; vm_compute; reflexivity.
Qed.

End Merge.

(** ** Extraction: a completion that is not JSON *)

(** C2. When the completion is not JSON, [extract_programs_with_openai]
    displays an error and the text, and returns a new empty list: the
    value it returns, and the heap, are those of a completion that parses
    to the empty array, and the script takes the same branch on it (no
    programs found). *)
Theorem parse_failure_returns_empty_list
    (api_key : string) (chat_bad chat_empty : string → string → api_result)
    (json_loads : string → option jvalue)
    (content url text_bad text_empty : string) (w : world) :
  api_key ≠ EmptyString →
  chat_bad api_key (prompt_of content url) = ApiContent (Some text_bad) →
  chat_empty api_key (prompt_of content url) = ApiContent (Some text_empty) →
  json_loads (clean_response text_bad) = None →
  json_loads (clean_response text_empty) = Some (JArr []) →
  let l := fresh (dom (heap w)) in
  let h := <[l := OList []]> (heap w) in
  extract_programs_with_openai api_key chat_bad json_loads content url w
    = Ok (VRef l)
         (World h (ticks w) (db_file w)
            (ui w ++ [StError "Failed to parse AI response as JSON";
                      StCode (clean_response text_bad)])) ∧
  extract_programs_with_openai api_key chat_empty json_loads content url w
    = Ok (VRef l) (World h (ticks w) (db_file w) (ui w)) ∧
  (∀ w2, heap w2 = h → verdict_of (VRef l) w2 = Ok NoProgramsFound w2).
Proof.
  intros Hkey%String.eqb_neq Hbad Hempty Hnone Harr l h.
  unfold extract_programs_with_openai. rewrite Hkey, Hbad, Hempty, Hnone, Harr.
  split; [|split].
  - unfold display, alloc, mbind, M_bind. cbn [heap ticks db_file ui set_heap].
    fold l. fold h. by rewrite <- app_assoc.
  - cbn [json_build build_items].
    unfold alloc, py_is_list, lookup_obj, mbind, M_bind, mret, M_ret.
    cbn [heap ticks db_file ui set_heap]. fold l. fold h.
    unfold h at 1. rewrite lookup_insert_eq. reflexivity.
  - intros w2 Hw2. unfold verdict_of, py_truthy, py_eq_empty_list, lookup_obj,
      mbind, M_bind, mret, M_ret.
    rewrite Hw2. unfold h. rewrite lookup_insert_eq. cbn [length Nat.eqb negb].
    rewrite Hw2. unfold h. by rewrite lookup_insert_eq.
Qed.

(** ** The theorems on examples *)

Lemma load_database_missing_or_corrupt_witness :
  ∃ ld lp lu w',
    load0 (world0 (FileUnreadable "Expecting value: line 1 column 1 (char 0)")
             code_camp_heap) = Ok (VRef ld) w' ∧
    heap w' !! ld = Some (ODict (<["programs" := VRef lp]>
                                (<["universities" := VRef lu]>
                                (<["last_updated" := VNone]>
                                (<["total_programs" := VInt 0]> ∅))))) ∧
    heap w' !! lp = Some (OList []) ∧
    heap w' !! lu = Some (OList []) ∧
    (∀ l o, heap (world0 (FileUnreadable "Expecting value: line 1 column 1 (char 0)")
                    code_camp_heap) !! l = Some o →
            heap w' !! l = Some o).
Proof.
  apply (load_database_missing_or_corrupt database_path).
  right. eexists. simpl. reflexivity.
Defined.

Lemma total_programs_is_length_witness :
  ∃ r w',
    merge0 "https://a.edu" scrape_world = Ok r w' ∧
    ∃ ld d' ps n,
      r = VRef ld ∧ heap w' !! ld = Some (ODict d') ∧
      d' !! "programs" = Some ps ∧ len_of (heap w') ps = Some n ∧
      d' !! "total_programs" = Some (VInt (Z.of_nat n)).
Proof.
  assert (Hload : load0 scrape_world
                  = Ok (VRef 7%positive) (result_world (load0 scrape_world)))
    by (vm_compute; reflexivity).
  assert (Hcol : collection_at (heap (result_world (load0 scrape_world)))
                   (VRef 7%positive)).
  { eexists 7%positive, _, 4%positive, [VRef 3%positive], 6%positive, [VRef 5%positive].
    split; [reflexivity|]. split; [vm_compute; reflexivity|].
    split; [vm_compute; reflexivity|]. split; [vm_compute; reflexivity|].
    split; [vm_compute; reflexivity|]. split; [vm_compute; reflexivity|].
    constructor; [|constructor]. eexists 5%positive, _.
    split; [reflexivity|]. split; [vm_compute; reflexivity|]. vm_compute. exact I. }
  assert (Hbatch : batch_at (heap scrape_world) (VRef 1%positive)).
  { eexists 1%positive, [VRef 2%positive].
    split; [reflexivity|]. split; [vm_compute; reflexivity|].
    constructor; [|constructor]. eexists 2%positive, _.
    split; [reflexivity|]. vm_compute; reflexivity. }
  destruct (proj1 (total_programs_is_length database_path clock0 repr0
                     (VRef 1%positive) "https://a.edu" scrape_world)
              _ _ Hload Hcol Hbatch) as (r & w' & Hmerge).
  exists r, w'. split; [exact Hmerge|].
  exact (proj2 (total_programs_is_length database_path clock0 repr0
                  (VRef 1%positive) "https://a.edu" scrape_world) r w' Hmerge).
Defined.

Lemma batch_not_mutated_witness :
  heap (result_world (merge0 "https://a.edu" scrape_world)) !! 1%positive
    = Some (OList [VRef 2%positive]) ∧
  (∀ li o, VRef li ∈ [VRef 2%positive] → heap scrape_world !! li = Some o →
           heap (result_world (merge0 "https://a.edu" scrape_world)) !! li = Some o) ∧
  (∀ l o, heap scrape_world !! l = Some o →
          heap (result_world (merge0 "https://a.edu" scrape_world)) !! l = Some o).
Proof.
  apply (batch_not_mutated database_path clock0 repr0 1%positive [VRef 2%positive]
           "https://a.edu" scrape_world (VRef 7%positive)).
  - vm_compute; reflexivity.
  - vm_compute; reflexivity.
Defined.

Lemma programs_append_only_witness :
  ∃ d' news,
    heap (result_world (merge0 "https://a.edu" scrape_world)) !! 7%positive
      = Some (ODict d') ∧
    d' !! "programs" = Some (VRef 4%positive) ∧
    heap (result_world (merge0 "https://a.edu" scrape_world)) !! 4%positive
      = Some (OList ([VRef 3%positive] ++ news)) ∧
    (∀ l o, VRef l ∈ [VRef 3%positive] →
            heap (result_world (load0 scrape_world)) !! l = Some o →
            heap (result_world (merge0 "https://a.edu" scrape_world)) !! l = Some o) ∧
    ∃ below : loc → Prop,
      (∀ l, VRef l ∈ [VRef 3%positive] → below l) ∧
      closed_in (heap (result_world (load0 scrape_world))) below ∧
      (∀ l o, below l → l ≠ 4%positive →
              heap (result_world (load0 scrape_world)) !! l = Some o →
              heap (result_world (merge0 "https://a.edu" scrape_world)) !! l = Some o).
Proof.
  eapply (programs_append_only database_path clock0 repr0 (VRef 1%positive)
            "https://a.edu" scrape_world (VRef 7%positive)).
  - vm_compute; reflexivity.
  - vm_compute; reflexivity.
  - vm_compute; reflexivity.
  - vm_compute; reflexivity.
  - vm_compute; reflexivity.
Defined.

Lemma university_entries_by_exact_url_witness :
  ∃ info de' dinfo,
    info ≠ 5%positive ∧
    heap (result_world (merge0 "https://a.edu" scrape_world)) !! 6%positive
      = Some (OList [VRef 5%positive; VRef info]) ∧
    heap (result_world (merge0 "https://a.edu" scrape_world)) !! 5%positive
      = Some (ODict de') ∧
    de' !! "url" = Some (VStr "https://a.edu/") ∧
    heap (result_world (merge0 "https://a.edu" scrape_world)) !! info
      = Some (ODict dinfo) ∧
    dinfo !! "url" = Some (VStr "https://a.edu").
Proof.
  assert (∃ d, heap (result_world (load0 scrape_world)) !! 7%positive = Some (ODict d) ∧
               d !! "universities" = Some (VRef 6%positive)) as (d & Hd & Hus).
  { eexists. split; vm_compute; reflexivity. }
  assert (∃ de, heap (result_world (load0 scrape_world)) !! 5%positive = Some (ODict de) ∧
                de !! "url" = Some (VStr "https://a.edu/")) as (de & Hde & Hurl).
  { eexists. split; vm_compute; reflexivity. }
  refine (proj2 (proj2 (proj2
            (university_entries_by_exact_url database_path clock0 repr0
               (VRef 1%positive) "https://a.edu" scrape_world (VRef 7%positive)
               (result_world (merge0 "https://a.edu" scrape_world))
               (result_world (load0 scrape_world)) 7%positive d 6%positive
               [VRef 5%positive] _ _ Hd Hus _)))
            5%positive de eq_refl Hde Hurl eq_refl).
  - vm_compute; reflexivity.
  - vm_compute; reflexivity.
  - vm_compute; reflexivity.
Defined.

Lemma new_records_get_ids_witness :
  ∃ cs,
    heap (result_world (merge0 "https://a.edu" scrape_world)) !! 4%positive
      = Some (OList ([VRef 3%positive] ++ (VRef <$> cs))) ∧
    length cs = 1 ∧
    ∀ i item, [VRef 2%positive] !! i = Some item →
      ∃ c li r hc t,
        cs !! i = Some c ∧ item = VRef li ∧
        heap scrape_world !! li = Some (ODict r) ∧
        heap (result_world (load0 scrape_world)) !! c = None ∧
        heap (result_world (merge0 "https://a.edu" scrape_world)) !! c =
          Some (ODict (with_meta (university_name_of "https://a.edu") "https://a.edu"
                         (name_shown repr0 hc r) t (1 + i) r)).
Proof.
  eapply (proj1 (new_records_get_ids database_path clock0 repr0) 1%positive
            [VRef 2%positive] "https://a.edu" scrape_world (VRef 7%positive)
            (result_world (merge0 "https://a.edu" scrape_world))
            (result_world (load0 scrape_world)) 7%positive _ 4%positive
            [VRef 3%positive]).
  - vm_compute; reflexivity.
  - vm_compute; reflexivity.
  - intros li Hin. apply list_elem_of_singleton in Hin. injection Hin as ->.
    eexists. vm_compute; reflexivity.
  - vm_compute; reflexivity.
  - vm_compute; reflexivity.
  - vm_compute; reflexivity.
  - vm_compute; reflexivity.
Defined.



Lemma parse_failure_returns_empty_list_witness :
  extract_programs_with_openai "sk-test" (completion_of "Sorry, I could not find any.")
    loads_empty_array "<html></html>" "https://a.edu" (world0 FileMissing ∅)
    = Ok (VRef 1%positive)
         (World (<[1%positive := OList []]> ∅) 0 FileMissing
            [StError "Failed to parse AI response as JSON";
             StCode "Sorry, I could not find any."]) ∧
  extract_programs_with_openai "sk-test" (completion_of "[]")
    loads_empty_array "<html></html>" "https://a.edu" (world0 FileMissing ∅)
    = Ok (VRef 1%positive) (World (<[1%positive := OList []]> ∅) 0 FileMissing []) ∧
  (∀ w2, heap w2 = <[1%positive := OList []]> ∅ →
         verdict_of (VRef 1%positive) w2 = Ok NoProgramsFound w2).
Proof.
  pose proof (parse_failure_returns_empty_list "sk-test"
                (completion_of "Sorry, I could not find any.") (completion_of "[]")
                loads_empty_array "<html></html>" "https://a.edu"
                "Sorry, I could not find any." "[]" (world0 FileMissing ∅)) as H.
  vm_compute in H. vm_compute. apply H.
  - discriminate.
  - reflexivity.
  - reflexivity.
  - reflexivity.
  - reflexivity.
Defined.

(** ** json.dump *)

Lemma dump_items_ext (f g : pyval → dumping jvalue) (xs : list pyval) r :
  (∀ x r, x ∈ xs → f x = r → r ≠ Starved → g x = r) →
  dump_items f xs = r → r ≠ Starved → dump_items g xs = r.
Proof.
  revert r. induction xs as [|x xs IH]; intros r Hfg Hr Hne; cbn in *; [done|].
  destruct (f x) as [j| | |] eqn:Hx; cbn in Hr.
  - rewrite (Hfg x (Dumped j)); [|by left|done..]. cbn.
    destruct (dump_items f xs) as [js| | |] eqn:Hxs; cbn in Hr.
    + rewrite (IH (Dumped js)); [done| |done..].
      intros y r' Hy. apply Hfg. by right.
    + rewrite (IH Circular); [done| |done..]. intros y r' Hy. apply Hfg. by right.
    + rewrite (IH Dangling); [done| |done..]. intros y r' Hy. apply Hfg. by right.
    + by subst r.
  - rewrite (Hfg x Circular); [done|by left|done..].
  - rewrite (Hfg x Dangling); [done|by left|done..].
  - by subst r.
Qed.

Lemma dump_members_ext (f g : pyval → dumping jvalue) (kvs : list (string * pyval)) r :
  (∀ kv r, kv ∈ kvs → f kv.2 = r → r ≠ Starved → g kv.2 = r) →
  dump_members f kvs = r → r ≠ Starved → dump_members g kvs = r.
Proof.
  revert r. induction kvs as [|kv kvs IH]; intros r Hfg Hr Hne; cbn in *; [done|].
  destruct (f kv.2) as [j| | |] eqn:Hx; cbn in Hr.
  - rewrite (Hfg kv (Dumped j)); [|by left|done..]. cbn.
    destruct (dump_members f kvs) as [js| | |] eqn:Hxs; cbn in Hr.
    + rewrite (IH (Dumped js)); [done| |done..].
      intros y r' Hy. apply Hfg. by right.
    + rewrite (IH Circular); [done| |done..]. intros y r' Hy. apply Hfg. by right.
    + rewrite (IH Dangling); [done| |done..]. intros y r' Hy. apply Hfg. by right.
    + by subst r.
  - rewrite (Hfg kv Circular); [done|by left|done..].
  - rewrite (Hfg kv Dangling); [done|by left|done..].
  - by subst r.
Qed.

(** More fuel does not change a result. *)
Lemma json_dump_from_more_fuel n h :
  ∀ m v r, json_dump_from n h m v = r → r ≠ Starved →
    ∀ n', n ≤ n' → json_dump_from n' h m v = r.
Proof.
  induction n as [|n IH]; intros m v r Hr Hne n' Hn'.
  - destruct v as [|b|z|s|l]; [by destruct n'; cbn in *..|].
    destruct n' as [|n']; [done|]. cbn in *.
    destruct (bool_decide (l ∈ m)); [done|].
    destruct (h !! l) as [[d|xs]|]; [by subst r..|done].
  - destruct v as [|b|z|s|l]; [by destruct n'; cbn in *..|].
    destruct n' as [|n']; [lia|]. cbn in *.
    destruct (bool_decide (l ∈ m)); [done|].
    destruct (h !! l) as [[d|xs]|]; [| |done].
    + destruct (dump_members (json_dump_from n h (l :: m)) (map_to_list d))
        as [kvs| | |] eqn:Hd; cbn in Hr; try (by subst r);
        (rewrite (dump_members_ext _ (json_dump_from n' h (l :: m)) _ _
                    ltac:(intros kv r' _ Hkv Hr'; apply (IH _ _ _ Hkv Hr'); lia)
                    Hd ltac:(done)); exact Hr).
    + destruct (dump_items (json_dump_from n h (l :: m)) xs)
        as [js| | |] eqn:Hd; cbn in Hr; try (by subst r);
        (rewrite (dump_items_ext _ (json_dump_from n' h (l :: m)) _ _
                    ltac:(intros kv r' _ Hkv Hr'; apply (IH _ _ _ Hkv Hr'); lia)
                    Hd ltac:(done)); exact Hr).
Qed.

Lemma dump_items_fed (f : pyval → dumping jvalue) (xs : list pyval) :
  (∀ x, x ∈ xs → f x ≠ Starved) → dump_items f xs ≠ Starved.
Proof.
  induction xs as [|x xs IH]; intros Hf; cbn; [done|].
  pose proof (Hf x ltac:(by left)).
  destruct (f x); cbn; try done.
  assert (dump_items f xs ≠ Starved) by (apply IH; intros y Hy; apply Hf; by right).
  by destruct (dump_items f xs).
Qed.

Lemma dump_members_fed (f : pyval → dumping jvalue) (kvs : list (string * pyval)) :
  (∀ kv, kv ∈ kvs → f kv.2 ≠ Starved) → dump_members f kvs ≠ Starved.
Proof.
  induction kvs as [|x xs IH]; intros Hf; cbn; [done|].
  pose proof (Hf x ltac:(by left)).
  destruct (f x.2); cbn; try done.
  assert (dump_members f xs ≠ Starved) by (apply IH; intros y Hy; apply Hf; by right).
  by destruct (dump_members f xs).
Qed.

Lemma markers_length (h : gmap loc pyobj) (m : list loc) :
  NoDup m → (∀ l, l ∈ m → is_Some (h !! l)) → length m ≤ size h.
Proof.
  intros Hnd Hm. rewrite <- (size_dom (D := gset loc)).
  rewrite <- (size_list_to_set (C := gset loc) m) by done.
  apply subseteq_size. intros l Hl%elem_of_list_to_set.
  by apply elem_of_dom, Hm.
Qed.

(** The fuel of [json_dump] is enough. *)
Lemma json_dump_from_fed n h :
  ∀ m v, NoDup m → (∀ l, l ∈ m → is_Some (h !! l)) → size h ≤ length m + n →
    json_dump_from n h m v ≠ Starved.
Proof.
  induction n as [|n IH]; intros m v Hnd Hm Hsize;
    (destruct v as [|b|z|s|l]; [done..|]); cbn.
  - case_bool_decide as Hl; [done|]. destruct (h !! l) as [o|] eqn:Ho; [|done].
    exfalso. assert (length (l :: m) ≤ size h); [|cbn in *; lia].
    apply markers_length; [by constructor|].
    intros l' [->|Hl']%elem_of_cons; [by eexists|by apply Hm].
  - case_bool_decide as Hl; [done|]. destruct (h !! l) as [[d|xs]|] eqn:Ho; [| |done].
    + assert (dump_members (json_dump_from n h (l :: m)) (map_to_list d) ≠ Starved).
      { apply dump_members_fed. intros kv _. apply IH.
        - by constructor.
        - intros l' [->|Hl']%elem_of_cons; [by eexists|by apply Hm].
        - cbn. lia. }
      by destruct (dump_members _ _).
    + assert (dump_items (json_dump_from n h (l :: m)) xs ≠ Starved).
      { apply dump_items_fed. intros kv _. apply IH.
        - by constructor.
        - intros l' [->|Hl']%elem_of_cons; [by eexists|by apply Hm].
        - cbn. lia. }
      by destruct (dump_items _ _).
Qed.

Lemma json_dump_fed h v : json_dump h v ≠ Starved.
Proof.
  apply json_dump_from_fed; [constructor| |cbn; lia].
  intros l Hl. by apply elem_of_nil in Hl.
Qed.

Lemma dump_members_fmap (f : pyval → dumping jvalue) (g : pyval → jvalue)
    (kvs : list (string * pyval)) :
  (∀ kv, kv ∈ kvs → f kv.2 = Dumped (g kv.2)) →
  dump_members f kvs = Dumped (prod_map id g <$> kvs).
Proof.
  induction kvs as [|kv kvs IH]; intros Hf; cbn; [done|].
  rewrite (Hf kv) by by left. cbn. rewrite IH; [done|].
  intros kv' Hkv'. apply Hf. by right.
Qed.

Lemma dump_members_map f d D :
  dumps_to f d D → dump_members f (map_to_list d) = Dumped (map_to_list D).
Proof.
  intros Hd.
  set (g := λ v, match f v with Dumped j => j | _ => JNull end).
  assert (D = g <$> d) as ->.
  { apply map_eq. intros k. rewrite lookup_fmap. specialize (Hd k).
    destruct (d !! k) as [v|], (D !! k) as [j|]; try done. cbn. unfold g. by rewrite Hd. }
  rewrite map_to_list_fmap. apply dump_members_fmap.
  intros [k v] Hkv%elem_of_map_to_list. cbn. specialize (Hd k).
  rewrite Hkv, lookup_fmap, Hkv in Hd. cbn in Hd. unfold g. by rewrite Hd.
Qed.

Lemma build_items_reloads (xs : list jvalue) :
  Forall reloads xs →
  ∀ w vs w', build_items json_build xs w = Ok vs w' →
    heap w ⊆ heap w' ∧
    ∃ n, ∀ n' H m,
      n ≤ n' → heap w' ⊆ H → (∀ l, l ∈ m → heap w' !! l = None) →
      dump_items (json_dump_from n' H m) vs = Dumped (canon <$> xs).
Proof.
  intros Hall. induction Hall as [|x xs Hx _ IH]; intros w vs w' H; cbn [build_items] in H.
  - apply ret_ok in H as [-> ->]. split; [done|]. by exists 0.
  - step H v w1 Hv. fold (build_items json_build) in H.
    step H vs' w2 Hvs. apply ret_ok in H as [-> ->].
    destruct (Hx _ _ _ Hv) as (Hsub1 & n1 & Hn1).
    destruct (IH _ _ _ Hvs) as (Hsub2 & n2 & Hn2).
    split; [by etrans|]. exists (n1 `max` n2). intros n' H m Hn' HH Hm. cbn.
    rewrite Hn1; [|lia|by etrans|].
    2:{ intros l Hl. specialize (Hm l Hl).
        destruct (heap w1 !! l) as [o|] eqn:Ho; [|done].
        by rewrite (lookup_weaken _ _ _ _ Ho Hsub2) in Hm. }
    cbn. rewrite Hn2; [done|lia|done..].
Qed.

Lemma build_members_reloads (kvs : list (string * jvalue)) :
  Forall (λ kv, reloads kv.2) kvs →
  ∀ w d w', build_members json_build kvs w = Ok d w' →
    heap w ⊆ heap w' ∧
    ∃ n, ∀ n' H m,
      n ≤ n' → heap w' ⊆ H → (∀ l, l ∈ m → heap w' !! l = None) →
      dumps_to (json_dump_from n' H m) d
        (foldr (λ kv (D : gmap string jvalue),
                  match D !! kv.1 with
                  | Some _ => D
                  | None => <[kv.1 := canon kv.2]> D
                  end) ∅ kvs).
Proof.
  intros Hall. induction Hall as [|[k x] kvs Hx _ IH]; intros w d w' H;
    cbn [build_members] in H.
  - apply ret_ok in H as [-> ->]. split; [done|]. exists 0. intros n' H m _ _ _ k.
    by rewrite !lookup_empty.
  - step H v w1 Hv. fold (build_members json_build) in H.
    step H d' w2 Hd. apply ret_ok in H as [-> ->]. cbn [fst snd] in *.
    destruct (Hx _ _ _ Hv) as (Hsub1 & n1 & Hn1).
    destruct (IH _ _ _ Hd) as (Hsub2 & n2 & Hn2).
    split; [by etrans|]. exists (n1 `max` n2). intros n' H m Hn' HH Hm. cbn [foldr fst snd].
    set (D' := foldr _ ∅ kvs).
    assert (HD : dumps_to (json_dump_from n' H m) d' D') by (apply Hn2; [lia|done..]).
    pose proof (HD k) as Hk.
    destruct (d' !! k) as [v'|] eqn:Hdk, (D' !! k) as [j'|] eqn:HDk; try done.
    intros k'. destruct (decide (k' = k)) as [->|Hne].
    + rewrite !lookup_insert_eq. apply Hn1; [lia|by etrans|].
      intros l Hl. specialize (Hm l Hl).
      destruct (heap w1 !! l) as [o|] eqn:Ho; [|done].
      by rewrite (lookup_weaken _ _ _ _ Ho Hsub2) in Hm.
    + rewrite !lookup_insert_ne by done. apply HD.
Qed.

(** What [json.load] builds, [json.dump] writes back. *)
Lemma json_build_reloads (j : jvalue) : reloads j.
Proof.
  induction j as [| | | |xs IH|kvs IH] using jvalue_nested_ind; intros w v w' H; cbn in H.
  - apply ret_ok in H as [-> ->]. split; [done|]. exists 0. by intros [|n'] ??.
  - apply ret_ok in H as [-> ->]. split; [done|]. exists 0. by intros [|n'] ??.
  - apply ret_ok in H as [-> ->]. split; [done|]. exists 0. by intros [|n'] ??.
  - apply ret_ok in H as [-> ->]. split; [done|]. exists 0. by intros [|n'] ??.
  - step H vs w1 Hvs. apply alloc_ok in H as [-> ->]. cbn [heap set_heap].
    destruct (build_items_reloads xs IH _ _ _ Hvs) as (Hsub & n & Hn).
    set (l := fresh (dom (heap w1))).
    assert (Hl : heap w1 !! l = None) by apply fresh_loc_None.
    assert (Hsub1 : heap w1 ⊆ <[l := OList vs]> (heap w1)) by by apply insert_subseteq.
    split; [by etrans|]. exists (S n). intros [|n'] H m Hn' HH Hm; [lia|]. cbn.
    case_bool_decide as Hlm.
    { specialize (Hm l Hlm). by rewrite lookup_insert_eq in Hm. }
    rewrite (lookup_weaken _ _ l (OList vs) (lookup_insert_eq _ _ _) HH).
    rewrite Hn; [done|lia|by etrans|].
    intros l' [->|Hl']%elem_of_cons; [done|].
    specialize (Hm l' Hl'). destruct (heap w1 !! l') as [o|] eqn:Ho; [|done].
    by rewrite (lookup_weaken _ _ _ _ Ho Hsub1) in Hm.
  - step H d w1 Hd. apply alloc_ok in H as [-> ->]. cbn [heap set_heap].
    destruct (build_members_reloads kvs IH _ _ _ Hd) as (Hsub & n & Hn).
    set (l := fresh (dom (heap w1))).
    assert (Hl : heap w1 !! l = None) by apply fresh_loc_None.
    assert (Hsub1 : heap w1 ⊆ <[l := ODict d]> (heap w1)) by by apply insert_subseteq.
    split; [by etrans|]. exists (S n). intros [|n'] H m Hn' HH Hm; [lia|]. cbn.
    case_bool_decide as Hlm.
    { specialize (Hm l Hlm). by rewrite lookup_insert_eq in Hm. }
    rewrite (lookup_weaken _ _ l (ODict d) (lookup_insert_eq _ _ _) HH).
    erewrite dump_members_map; [done|].
    apply Hn; [lia|by etrans|].
    intros l' [->|Hl']%elem_of_cons; [done|].
    specialize (Hm l' Hl'). destruct (heap w1 !! l') as [o|] eqn:Ho; [|done].
    by rewrite (lookup_weaken _ _ _ _ Ho Hsub1) in Hm.
Qed.

Lemma json_build_dump j w v w' :
  json_build j w = Ok v w' → json_dump (heap w') v = Dumped (canon j).
Proof.
  intros (_ & n & Hn)%json_build_reloads.
  pose proof (json_dump_fed (heap w') v) as Hfed. unfold json_dump in *.
  rewrite <- (Hn (n `max` size (heap w')) (heap w') []); [|lia|done|].
  - symmetry. apply (json_dump_from_more_fuel _ _ _ _ _ eq_refl Hfed). lia.
  - intros l Hl. by apply elem_of_nil in Hl.
Qed.

Lemma members_map_nodup (g : jvalue → jvalue) (kvs : list (string * jvalue)) :
  NoDup kvs.*1 →
  foldr (λ kv (D : gmap string jvalue),
           match D !! kv.1 with
           | Some _ => D
           | None => <[kv.1 := g kv.2]> D
           end) ∅ kvs
  = list_to_map (prod_map id g <$> kvs).
Proof.
  induction kvs as [|[k x] kvs IH]; intros Hnd; cbn; [done|].
  apply NoDup_cons in Hnd as [Hk Hnd]. rewrite IH by done.
  rewrite (proj1 (not_elem_of_list_to_map _ k)); [done|].
  rewrite <- list_fmap_compose. intros Hin. apply Hk.
  apply list_elem_of_fmap in Hin as ([k' x'] & -> & Hin).
  apply list_elem_of_fmap. by exists (k', x').
Qed.

Lemma dump_items_inv (f : pyval → dumping jvalue) (xs : list pyval) js :
  dump_items f xs = Dumped js → Forall2 (λ x j, f x = Dumped j) xs js.
Proof.
  revert js. induction xs as [|x xs IH]; intros js H; cbn in H.
  - injection H as <-. constructor.
  - destruct (f x) as [j| | |] eqn:Hx; try done. cbn in H.
    destruct (dump_items f xs) as [js'| | |]; try done. injection H as <-.
    constructor; [done|]. by apply IH.
Qed.

Lemma dump_members_inv (f : pyval → dumping jvalue) (kvs : list (string * pyval)) js :
  dump_members f kvs = Dumped js →
  Forall2 (λ kv kj, kj.1 = kv.1 ∧ f kv.2 = Dumped kj.2) kvs js.
Proof.
  revert js. induction kvs as [|x xs IH]; intros js H; cbn in H.
  - injection H as <-. constructor.
  - destruct (f x.2) as [j| | |] eqn:Hx; try done. cbn in H.
    destruct (dump_members f xs) as [js'| | |]; try done. injection H as <-.
    constructor; [done|]. by apply IH.
Qed.

(** Written documents are in the form of [canon]. *)
Lemma json_dump_from_canon n h :
  ∀ m v j, json_dump_from n h m v = Dumped j → canon j = j.
Proof.
  induction n as [|n IH]; intros m v j H;
    (destruct v as [|b|z|s|l]; [by injection H as <-..|]); cbn in H;
    destruct (bool_decide (l ∈ m)); try done;
    destruct (h !! l) as [[d|xs]|]; try done.
  - destruct (dump_members _ _) as [kvs| | |] eqn:Hd; try done. injection H as <-.
    apply dump_members_inv in Hd. cbn. f_equal.
    assert (Hkeys : kvs.*1 = (map_to_list d).*1).
    { clear -Hd. induction Hd as [|kv kj ?? [Hk _] _ IH']; cbn; [done|]. by rewrite Hk, IH'. }
    rewrite members_map_nodup by (rewrite Hkeys; apply NoDup_fst_map_to_list).
    assert (Hid : prod_map id canon <$> kvs = kvs).
    { clear -Hd IH. induction Hd as [|kv [k j] ?? [_ Hj] _ IH']; cbn; [done|].
      rewrite IH'. cbn in Hj. by rewrite (IH _ _ _ Hj). }
    rewrite Hid.
    assert (Hlist : kvs = map_to_list (list_to_map kvs : gmap string jvalue)); [|by rewrite <- Hlist].
    set (g := λ v, match json_dump_from n h (l :: m) v with Dumped j => j | _ => JNull end).
    assert (kvs = prod_map id g <$> map_to_list d) as ->.
    { clear -Hd. induction Hd as [|[k v] [k' j] ?? [Hk Hj] _ IH']; cbn; [done|].
      cbn in *. subst k'. rewrite <- IH'. unfold g. by rewrite Hj. }
    rewrite <- map_to_list_fmap. by rewrite list_to_map_to_list.
  - destruct (dump_items _ _) as [js| | |] eqn:Hd; try done. injection H as <-.
    apply dump_items_inv in Hd. cbn. f_equal.
    clear -Hd IH. induction Hd as [|x j ?? Hj _ IH']; cbn; [done|].
    by rewrite IH', (IH _ _ _ Hj).
Qed.

(** ** save_database *)

Lemma load_database_data DATABASE_FILE doc w db w' :
  db_file w = FileData doc → load_database DATABASE_FILE w = Ok db w' →
  ∃ w1, json_build doc w = Ok db w1 ∧ heap w' = heap w1 ∧ db_file w' = FileData doc.
Proof.
  intros Hf H. unfold load_database in H.
  rewrite (bind_eq read_file _ w (db_file w) w eq_refl), Hf in H.
  step H data w1 Hb. step H u w2 Hd. apply display_ok in Hd as (Hh & _ & Hfd).
  apply ret_ok in H as [-> ->].
  destruct (json_build_spec doc w) as (v & w1' & Hv & (_ & Hfile & _) & _).
  rewrite Hb in Hv. injection Hv as <- <-.
  exists w1. split; [done|]. split; [done|]. by rewrite Hfd, Hfile.
Qed.

Section Save.
Variable DATABASE_FILE : string.
Variable partial_dump_error : gmap loc pyobj → pyval → string.

Abbreviation save := (save_database DATABASE_FILE partial_dump_error).

Lemma save_database_true database w msgs w' :
  save database w = Ok (true, msgs) w' →
  ∃ doc, json_dump (heap w) database = Dumped doc ∧
         w' = World (heap w) (ticks w) (FileData doc) (ui w) ∧
         msgs = [StSuccess (" Database saved to: " +:+ DATABASE_FILE)].
Proof.
  unfold save_database. destruct (json_dump (heap w) database) as [doc| | |]; [|done..].
  intros [= <- <-]. by exists doc.
Qed.

(** X1. A database that was saved and is loaded again is a new object
    with the same content: it is written as the very document that was
    saved.  The objects that existed are as they were. *)
Theorem save_then_load database w msgs w1 db w2 :
  save_database DATABASE_FILE partial_dump_error database w = Ok (true, msgs) w1 →
  load_database DATABASE_FILE w1 = Ok db w2 →
  ∃ doc,
    db_file w2 = FileData doc ∧
    json_dump (heap w) database = Dumped doc ∧
    json_dump (heap w2) db = Dumped doc ∧
    (∀ l, db = VRef l → heap w !! l = None) ∧
    (∀ l o, heap w !! l = Some o → heap w2 !! l = Some o).
Proof.
  intros (doc & Hdump & -> & _)%save_database_true Hload.
  pose proof (load_database_ok _ _ _ _ Hload) as (_ & _ & Hb).
  destruct (load_database_data _ doc (World (heap w) (ticks w) (FileData doc) (ui w))
              _ _ eq_refl Hload) as (w3 & Hbuild & Hh & Hf).
  cbn [heap] in *. exists doc. split; [done|]. split; [done|]. split; [|split].
  - rewrite Hh, (json_build_dump _ _ _ _ Hbuild).
    f_equal. unfold json_dump in Hdump. by eapply json_dump_from_canon.
  - intros l ->. destruct Hb as [_ Hroot]. by destruct (Hroot l eq_refl) as [[? _] _].
  - intros l o Hl. destruct Hb as [(Hsub & _) _]. by eapply lookup_weaken.
Qed.

(** What [load_database] returns is written as the document of the
    file, or as the empty collection. *)
Lemma load_database_dump w db w1 :
  load_database DATABASE_FILE w = Ok db w1 →
  json_dump (heap w1) db = Dumped (canon (match db_file w with
                                          | FileData doc => doc
                                          | _ => empty_document
                                          end)).
Proof.
  intros Hload. unfold load_database in Hload.
  rewrite (bind_eq read_file _ w (db_file w) w eq_refl) in Hload.
  destruct (db_file w) as [|msg|doc].
  - step Hload u w0 Hd. rewrite empty_database_as_document in Hload.
    by apply json_build_dump in Hload.
  - step Hload u w0 Hd. rewrite empty_database_as_document in Hload.
    by apply json_build_dump in Hload.
  - step Hload data w0 Hb. step Hload u w2 Hd. apply display_ok in Hd as (Hd & _).
    apply ret_ok in Hload as [-> ->]. rewrite Hd. by apply json_build_dump in Hb.
Qed.


End Save.

(** ** The text of a page *)

Lemma all_chars_lstrip p s : all_chars p s = true → all_chars p (str_lstrip s) = true.
Proof.
  induction s as [|c s IH]; cbn; [done|].
  intros [Hc Hs]%andb_true_iff. destruct (py_isspace c); [by apply IH|].
  cbn. by rewrite Hc, Hs.
Qed.

Lemma all_chars_rstrip p s : all_chars p s = true → all_chars p (str_rstrip s) = true.
Proof.
  induction s as [|c s IH]; cbn; [done|].
  intros [Hc Hs]%andb_true_iff. specialize (IH Hs).
  destruct (str_rstrip s) as [|c' r].
  - destruct (py_isspace c); cbn; [done|]. by rewrite Hc.
  - cbn in *. by rewrite Hc, IH.
Qed.

Lemma all_chars_strip p s : all_chars p s = true → all_chars p (str_strip s) = true.
Proof. intros. by apply all_chars_rstrip, all_chars_lstrip. Qed.

Lemma all_chars_split p sep s :
  all_chars p s = true → ∀ k, Forall (λ x, all_chars p x = true) (split_from sep k s).
Proof.
  induction s as [|c s IH]; intros Hs k; cbn [split_from].
  - by repeat constructor.
  - cbn in Hs. apply andb_true_iff in Hs as [Hc Hs].
    destruct k as [|k]; [|by apply IH].
    destruct (String.prefix sep (String c s)).
    + constructor; [done|by apply IH].
    + specialize (IH Hs 0). destruct (split_from sep 0 s) as [|x xs].
      * repeat constructor. cbn. by rewrite Hc.
      * apply Forall_cons in IH as [Hx Hxs]. constructor; [|done]. cbn. by rewrite Hc, Hx.
Qed.

Lemma all_chars_splitlines p s :
  all_chars p s = true → ∀ b, Forall (λ x, all_chars p x = true) (splitlines_from b s).
Proof.
  induction s as [|c s IH]; intros Hs b; cbn.
  - constructor.
  - cbn in Hs. apply andb_true_iff in Hs as [Hc Hs].
    destruct (b && Ascii.eqb c "010"); [by apply IH|].
    destruct (py_islinebreak c).
    + constructor; [done|by apply IH].
    + specialize (IH Hs false). destruct (splitlines_from false s) as [|x xs].
      * repeat constructor. cbn. by rewrite Hc.
      * apply Forall_cons in IH as [Hx Hxs]. constructor; [|done]. cbn. by rewrite Hc, Hx.
Qed.

(** A line holds no line break. *)
Lemma splitlines_one_line s : ∀ b, Forall (λ x, one_line x = true) (splitlines_from b s).
Proof.
  induction s as [|c s IH]; intros b; cbn.
  - constructor.
  - destruct (b && Ascii.eqb c "010"); [by apply IH|].
    destruct (py_islinebreak c) eqn:Hc.
    + constructor; [done|by apply IH].
    + specialize (IH false). destruct (splitlines_from false s) as [|x xs].
      * repeat constructor. unfold one_line. cbn. by rewrite Hc.
      * apply Forall_cons in IH as [Hx Hxs]. constructor; [|done].
        unfold one_line in *. cbn. by rewrite Hc, Hx.
Qed.

(** The first piece of a split is the start of the text. *)
Lemma split_from_head sep s x xs :
  split_from sep 0 s = x :: xs → starts_with is_space x = true → starts_with is_space s = true.
Proof.
  destruct s as [|c s]; cbn [split_from].
  - by intros [= <- <-].
  - destruct (String.prefix sep (String c s)); [by intros [= <- <-]|].
    destruct (split_from sep 0 s) as [|y ys]; by intros [= <- <-].
Qed.

Lemma single_spaced_split s :
  ∀ k, Forall (λ x, single_spaced x = true) (split_from "  " k s).
Proof.
  induction s as [|c s IH]; intros k; cbn -[String.prefix].
  - by repeat constructor.
  - destruct k as [|k]; [|by apply IH].
    destruct (String.prefix "  " (String c s)) eqn:Hp.
    + constructor; [done|by apply IH].
    + specialize (IH 0). destruct (split_from "  " 0 s) as [|x xs] eqn:Hs.
      * repeat constructor. cbn. by rewrite andb_false_r.
      * apply Forall_cons in IH as [Hx Hxs]. constructor; [|done].
        cbn. rewrite Hx, andb_true_r. apply negb_true_iff, andb_false_iff.
        destruct (is_space c) eqn:Hc; [right|by left].
        destruct (starts_with is_space x) eqn:Hsx; [|done].
        apply (split_from_head _ _ _ _ Hs) in Hsx.
        unfold is_space in Hc. apply Ascii.eqb_eq in Hc as ->.
        destruct s as [|c' s]; [done|]. cbn in Hsx. unfold is_space in Hsx.
        apply Ascii.eqb_eq in Hsx as ->. cbn in Hp. by destruct s.
Qed.

Lemma single_spaced_tail c s : single_spaced (String c s) = true → single_spaced s = true.
Proof. cbn. by intros [_ ?]%andb_true_iff. Qed.

Lemma single_spaced_lstrip s : single_spaced s = true → single_spaced (str_lstrip s) = true.
Proof.
  induction s as [|c s IH]; [done|]. intros Hs. cbn [str_lstrip].
  destruct (py_isspace c); [|done]. by apply IH, (single_spaced_tail c).
Qed.

Lemma rstrip_head s c r :
  str_rstrip s = String c r → ∃ s', s = String c s'.
Proof.
  destruct s as [|c' s]; cbn; [done|].
  destruct (str_rstrip s); [destruct (py_isspace c')|]; intros [= <- <-]; eauto.
Qed.

Lemma single_spaced_rstrip s : single_spaced s = true → single_spaced (str_rstrip s) = true.
Proof.
  induction s as [|c s IH]; [done|]. cbn [single_spaced str_rstrip].
  intros [Hc Hs]%andb_true_iff. specialize (IH Hs).
  destruct (str_rstrip s) as [|c' r] eqn:Hr.
  - destruct (py_isspace c); cbn; [done|by rewrite andb_false_r].
  - change (single_spaced (String c (String c' r)))
      with (negb (is_space c && starts_with is_space (String c' r))
            && single_spaced (String c' r)).
    rewrite IH, andb_true_r.
    destruct (rstrip_head _ _ _ Hr) as [s' ->]. exact Hc.
Qed.

Lemma lstrip_starts s : starts_with py_isspace (str_lstrip s) = false.
Proof.
  induction s as [|c s IH]; [done|]. cbn [str_lstrip].
  destruct (py_isspace c) eqn:Hc; [done|]. cbn. exact Hc.
Qed.

Lemma rstrip_starts s :
  starts_with py_isspace s = false → starts_with py_isspace (str_rstrip s) = false.
Proof.
  destruct s as [|c s]; [done|]. cbn. intros Hc.
  destruct (str_rstrip s); [by rewrite Hc|done].
Qed.

Lemma rstrip_ends s : ends_with py_isspace (str_rstrip s) = false.
Proof.
  induction s as [|c s IH]; [done|]. cbn [str_rstrip].
  destruct (str_rstrip s) as [|c' r].
  - destruct (py_isspace c) eqn:Hc; [done|]. cbn. exact Hc.
  - exact IH.
Qed.

Lemma is_space_isspace c : is_space c = true → py_isspace c = true.
Proof. unfold is_space. by intros ->%Ascii.eqb_eq. Qed.

Lemma chunks_kept (t : string) :
  Forall kept
    (filter (λ chunk, nonempty chunk = true)
       (flat_map (λ line, str_strip <$> str_split_on "  " line)
          (str_strip <$> str_splitlines t))).
Proof.
  apply Forall_forall. intros x [Hne Hx]%list_elem_of_filter.
  apply list_elem_of_In, in_flat_map in Hx as (line & Hline & Hx).
  apply list_elem_of_In, list_elem_of_fmap in Hline as (line0 & -> & Hline0).
  apply list_elem_of_In, list_elem_of_fmap in Hx as (piece & -> & Hpiece).
  pose proof (proj1 (Forall_forall _ _) (splitlines_one_line t false) _ Hline0) as H1.
  apply (all_chars_strip _ line0) in H1.
  pose proof (proj1 (Forall_forall _ _) (all_chars_split _ "  " _ H1 0) _ Hpiece) as H2.
  pose proof (proj1 (Forall_forall _ _) (single_spaced_split (str_strip line0) 0) _ Hpiece)
    as H3.
  split; [done|]. split; [by apply all_chars_strip|]. split; [|split].
  - by apply single_spaced_rstrip, single_spaced_lstrip.
  - apply rstrip_starts, lstrip_starts.
  - apply rstrip_ends.
Qed.

Lemma all_chars_app p a b : all_chars p (a +:+ b) = all_chars p a && all_chars p b.
Proof. induction a as [|c a IH]; cbn; [done|]. by rewrite IH, andb_assoc. Qed.

Lemma starts_with_app p a b :
  nonempty a = true → starts_with p (a +:+ b) = starts_with p a.
Proof. by destruct a. Qed.

Lemma ends_with_space a : ends_with py_isspace a = false → ends_with is_space a = false.
Proof.
  induction a as [|c a IH]; [done|]. cbn. destruct a as [|c' a]; [|done].
  intros Hc. destruct (is_space c) eqn:Hs; [|done]. by rewrite (is_space_isspace _ Hs) in Hc.
Qed.

Lemma single_spaced_app a b :
  single_spaced a = true → ends_with is_space a = false → single_spaced b = true →
  single_spaced (a +:+ b) = true.
Proof.
  induction a as [|c a IH]; [done|]. intros Ha He Hb.
  destruct a as [|c' a].
  - cbn in *. by rewrite He, Hb.
  - change (String c (String c' a) +:+ b) with (String c (String c' a +:+ b)).
    cbn [single_spaced] in Ha |- *. apply andb_true_iff in Ha as [Hc Ha].
    rewrite IH; [|done..]. by rewrite andb_true_r.
Qed.

(** The chunks that are kept, joined by single spaces. *)
Lemma concat_kept (xs : list string) :
  Forall kept xs →
  one_line (String.concat " " xs) = true ∧
  single_spaced (String.concat " " xs) = true ∧
  starts_with py_isspace (String.concat " " xs) = false ∧
  (xs ≠ [] → nonempty (String.concat " " xs) = true).
Proof.
  induction 1 as [|x xs (Hne & H1 & H2 & H3 & H4) Hxs (IH1 & IH2 & IH3 & IH4)]; [done|].
  destruct xs as [|y ys]; [done|].
  change (String.concat " " (x :: y :: ys))
    with (x +:+ String " " (String.concat " " (y :: ys))).
  set (rest := String.concat " " (y :: ys)) in *.
  split; [|split; [|split]].
  - unfold one_line in *. rewrite all_chars_app, H1. cbn. exact IH1.
  - apply single_spaced_app; [done|by apply ends_with_space|].
    cbn [single_spaced]. rewrite IH2, andb_true_r.
    destruct (starts_with is_space rest) eqn:Hr; [|done].
    destruct rest as [|c r]; [done|]. cbn in *. by rewrite (is_space_isspace _ Hr) in IH3.
  - by rewrite starts_with_app.
  - intros _. by destruct x.
Qed.

Lemma length_substring_le n s : String.length (substring 0 n s) ≤ n.
Proof.
  revert s. induction n as [|n IH]; intros [|c s]; cbn; try lia.
  specialize (IH s). lia.
Qed.

Lemma all_chars_substring p n s :
  all_chars p s = true → all_chars p (substring 0 n s) = true.
Proof.
  revert s. induction n as [|n IH]; intros [|c s]; cbn; try done.
  intros [Hc Hs]%andb_true_iff. by rewrite Hc, IH.
Qed.

Lemma starts_with_substring p n s :
  starts_with p (substring 0 n s) = true → starts_with p s = true.
Proof. by destruct n, s. Qed.

Lemma single_spaced_substring n s :
  single_spaced s = true → single_spaced (substring 0 n s) = true.
Proof.
  revert s. induction n as [|n IH]; intros [|c s]; cbn [substring]; try done.
  cbn [single_spaced]. intros [Hc Hs]%andb_true_iff. rewrite IH by done.
  rewrite andb_true_r. destruct (is_space c); [|done]. cbn in *.
  destruct (starts_with is_space (substring 0 n s)) eqn:Hn; [|done].
  by rewrite (starts_with_substring _ _ _ Hn) in Hc.
Qed.

(** The text that [clean_text] makes of a page has at most 15000
    characters, holds no line break and no two spaces in a row, and does
    not start with white space. *)
Lemma clean_text_tidy (t : string) :
  String.length (clean_text t) ≤ 15 * 1000 ∧
  one_line (clean_text t) = true ∧
  single_spaced (clean_text t) = true ∧
  starts_with py_isspace (clean_text t) = false.
Proof.
  unfold clean_text. cbn zeta.
  destruct (concat_kept _ (chunks_kept t)) as (H1 & H2 & H3 & _).
  split; [apply length_substring_le|]. split; [by apply all_chars_substring|].
  split; [by apply single_spaced_substring|].
  match goal with |- ?b = false => destruct b eqn:Hs end; [|done].
  by rewrite (starts_with_substring _ _ _ Hs) in H3.
Qed.

Lemma lstrip_blank s : all_chars py_isspace s = true → str_lstrip s = EmptyString.
Proof.
  induction s as [|c s IH]; [done|]. cbn. intros [-> Hs]%andb_true_iff. by apply IH.
Qed.

(** A page whose text is white space only gives the empty text. *)
Lemma clean_text_blank (t : string) :
  all_chars py_isspace t = true → clean_text t = EmptyString.
Proof.
  intros Ht. unfold clean_text. cbn zeta.
  assert (filter (λ chunk, nonempty chunk = true)
            (flat_map (λ line, str_strip <$> str_split_on "  " line)
               (str_strip <$> str_splitlines t)) = []) as ->; [|by destruct (15 * 1000)].
  pose proof (all_chars_splitlines _ _ Ht false) as Hlines. unfold str_splitlines.
  induction Hlines as [|line lines Hline _ IH]; [done|].
  cbn [fmap list_fmap flat_map]. unfold str_strip at 2.
  rewrite (lstrip_blank _ Hline). cbn. exact IH.
Qed.

(** ** simple_scrape *)

(** X3. [simple_scrape] never raises and changes no object.  When the
    request or the parser raises it displays the error and returns
    [None]; otherwise it displays nothing and returns a text of at most
    15000 characters, with no line break, no two spaces in a row and no
    white space at its start. *)
Theorem simple_scrape_excerpt (page_text : string → fetch_result) (url : string) (w : world) :
  ∃ r w',
    simple_scrape page_text url w = Ok r w' ∧
    heap w' = heap w ∧ ticks w' = ticks w ∧ db_file w' = db_file w ∧
    match page_text url with
    | FetchRaise msg =>
        r = VNone ∧ ui w' = ui w ++ [StError ("Error scraping website: " +:+ msg)]
    | FetchText _ =>
        ui w' = ui w ∧
        ∃ s, r = VStr s ∧ String.length s ≤ 15 * 1000 ∧ one_line s = true ∧
             single_spaced s = true ∧ starts_with py_isspace s = false
    end.
Proof.
  unfold simple_scrape. destruct (page_text url) as [msg|t].
  - eexists _, _. split; [reflexivity|]. by cbn.
  - eexists _, _. split; [reflexivity|]. do 4 (split; [done|]).
    destruct (clean_text_tidy t) as (? & ? & ? & ?). by exists (clean_text t).
Qed.

(** X4. A page whose text is white space only: [simple_scrape] returns
    the empty string and displays nothing, and the test [if content:] of
    the script fails on it as it does on [None]. *)
Theorem simple_scrape_blank (page_text : string → fetch_result) (url t : string) (w : world) :
  page_text url = FetchText t → all_chars py_isspace t = true →
  simple_scrape page_text url w = Ok (VStr EmptyString) w ∧
  py_truthy (VStr EmptyString) w = Ok false w ∧
  py_truthy VNone w = Ok false w.
Proof.
  intros Hp Ht. unfold simple_scrape. by rewrite Hp, (clean_text_blank _ Ht).
Qed.

(** ** extract_programs_with_openai, in general *)

Lemma json_build_list doc w v w' :
  json_build doc w = Ok v w' →
  (∀ l o, heap w !! l = Some o → heap w' !! l = Some o) ∧
  ticks w' = ticks w ∧ db_file w' = db_file w ∧ ui w' = ui w ∧
  ∀ l, v = VRef l → heap w !! l = None ∧
    match doc with
    | JArr xs => ∃ vs, heap w' !! l = Some (OList vs) ∧ length vs = length xs
    | _ => ∃ d, heap w' !! l = Some (ODict d)
    end.
Proof.
  intros H. destruct (json_build_spec doc w) as (v0 & w0 & Hv & (Ht & Hf & Hu) & Hb).
  rewrite H in Hv. injection Hv as <- <-.
  destruct Hb as [(Hsub & _) Hroot].
  split; [intros l o Hl; by eapply lookup_weaken|]. do 3 (split; [done|]).
  intros l ->. destruct (Hroot l eq_refl) as [[Hnew _] _]. split; [done|].
  destruct doc as [| | | |xs|kvs]; cbn in H;
    try (by apply ret_ok in H as [[=] _]).
  - step H vs w1 Hvs. apply alloc_ok in H as [[= ->] ->]. cbn [heap set_heap].
    exists vs. rewrite lookup_insert_eq. split; [done|].
    clear -Hvs. revert w vs w1 Hvs. induction xs as [|x xs IH]; intros w vs w1 H;
      cbn [build_items] in H.
    + by apply ret_ok in H as [-> _].
    + step H v w2 Hv. fold (build_items json_build) in H.
      step H vs' w3 Hvs. apply ret_ok in H as [-> _]. cbn. f_equal. by eapply IH.
  - step H d w1 Hd. apply alloc_ok in H as [[= ->] ->]. cbn [heap set_heap].
    exists d. by rewrite lookup_insert_eq.
Qed.

Section Extract.
Variable api_key : string.
Variable chat_completion : string → string → api_result.
Variable json_loads : string → option jvalue.

Abbreviation extract := (extract_programs_with_openai api_key chat_completion json_loads).


(** X6. A completion that is JSON but not an array (an object, a
    string, a number, [null]) gives a new empty list, and no message at
    all. *)
Theorem non_array_gives_empty_list (content url text : string) (doc : jvalue) (w : world) :
  api_key ≠ EmptyString →
  chat_completion api_key (prompt_of content url) = ApiContent (Some text) →
  json_loads (clean_response text) = Some doc →
  (∀ xs, doc ≠ JArr xs) →
  ∃ l w',
    extract_programs_with_openai api_key chat_completion json_loads content url w
      = Ok (VRef l) w' ∧
    heap w !! l = None ∧ heap w' !! l = Some (OList []) ∧ ui w' = ui w ∧
    verdict_of (VRef l) w' = Ok NoProgramsFound w'.
Proof.
  intros Hkey%String.eqb_neq Hchat Hdoc Harr.
  unfold extract_programs_with_openai. rewrite Hkey, Hchat, Hdoc.
  destruct (json_build_spec doc w) as (v & w1 & Hv & _).
  rewrite (bind_eq _ _ _ _ _ Hv).
  destruct (json_build_list _ _ _ _ Hv) as (Hkeep & Ht & Hf & Hu & Hroot).
  assert (py_is_list v w1 = Ok false w1) as His.
  { destruct v as [|b|z|s|l]; try done. destruct (Hroot l eq_refl) as [_ Hl].
    destruct doc as [| | | |xs|kvs]; try (destruct Hl as (d & Hd);
      unfold py_is_list, lookup_obj, mbind, M_bind; by rewrite Hd).
    by destruct (Harr xs). }
  rewrite (bind_eq _ _ _ _ _ His).
  exists (fresh (dom (heap w1))), (set_heap (<[fresh (dom (heap w1)) := OList []]> (heap w1)) w1).
  split; [done|]. cbn [heap set_heap ui]. split; [|split; [|split]].
  - destruct (heap w !! fresh (dom (heap w1))) as [o|] eqn:Ho; [|done].
    apply Hkeep in Ho. by rewrite fresh_loc_None in Ho.
  - by rewrite lookup_insert_eq.
  - done.
  - unfold verdict_of, py_truthy, py_eq_empty_list, lookup_obj, mbind, M_bind, mret, M_ret.
    cbn [heap set_heap]. rewrite lookup_insert_eq. cbn [length Nat.eqb negb].
    unfold set_heap at 1. cbn [heap]. by rewrite lookup_insert_eq.
Qed.

(** X7. A completion that is a JSON array gives the list built of it,
    whatever its elements are: the list is new, has as many elements as
    the array, and is written by [json.dump] as that array. *)
Theorem array_gives_its_list (content url text : string) (xs : list jvalue) (w : world) :
  api_key ≠ EmptyString →
  chat_completion api_key (prompt_of content url) = ApiContent (Some text) →
  json_loads (clean_response text) = Some (JArr xs) →
  ∃ l vs w',
    extract_programs_with_openai api_key chat_completion json_loads content url w
      = Ok (VRef l) w' ∧
    heap w !! l = None ∧ heap w' !! l = Some (OList vs) ∧ length vs = length xs ∧
    json_dump (heap w') (VRef l) = Dumped (canon (JArr xs)) ∧ ui w' = ui w.
Proof.
  intros Hkey%String.eqb_neq Hchat Hdoc.
  unfold extract_programs_with_openai. rewrite Hkey, Hchat, Hdoc.
  destruct (json_build_spec (JArr xs) w) as (v & w1 & Hv & _).
  rewrite (bind_eq _ _ _ _ _ Hv).
  destruct (json_build_list _ _ _ _ Hv) as (Hkeep & Ht & Hf & Hu & Hroot).
  pose proof (json_build_dump _ _ _ _ Hv) as Hdump.
  assert (∃ l, v = VRef l) as [l ->].
  { cbn in Hv. step Hv vs w2 Hvs. apply alloc_ok in Hv as [-> _]. by eexists. }
  destruct (Hroot l eq_refl) as (Hl & vs & Hvs & Hlen).
  exists l, vs, w1. split; [|done].
  unfold py_is_list, lookup_obj, mbind, M_bind, mret, M_ret. by rewrite Hvs.
Qed.

End Extract.

(** ** What add_programs_to_database leaves alone, and when it raises *)

Lemma bind_raise {A B} (m : M A) (f : A → M B) w e w' :
  m w = Raise e w' → (m ≫= f) w = Raise e w'.
Proof. unfold mbind, M_bind. by intros ->. Qed.

Lemma quiet_ret {A} (a : A) : quiet (mret a : M A).
Proof. by intros w. Qed.

Lemma quiet_raise {A} e : quiet (raise e : M A).
Proof. by intros w. Qed.

Lemma quiet_bind {A B} (m : M A) (f : A → M B) :
  quiet m → (∀ a, quiet (f a)) → quiet (m ≫= f).
Proof.
  intros Hm Hf w. specialize (Hm w). unfold mbind, M_bind.
  destruct (m w) as [a w1|e w1]; [|done].
  specialize (Hf a w1). destruct (f a w1); destruct Hm, Hf; split; congruence.
Qed.

Lemma quiet_if {A} (b : bool) (m1 m2 : M A) :
  quiet m1 → quiet m2 → quiet (if b then m1 else m2).
Proof. by destruct b. Qed.

Lemma quiet_for_each {A} (xs : list A) (body : A → M unit) :
  (∀ x, quiet (body x)) → quiet (for_each xs body).
Proof.
  intros Hbody. induction xs as [|x xs IH]; simpl.
  - apply quiet_ret.
  - apply quiet_bind; [apply Hbody | done].
Qed.

Lemma quiet_map_each {A B} (f : A → M B) (xs : list A) :
  (∀ x, quiet (f x)) → quiet (map_each f xs).
Proof.
  intros Hf. induction xs as [|x xs IH]; simpl.
  - apply quiet_ret.
  - apply quiet_bind; [apply Hf | intros y].
    apply quiet_bind; [done | intros ys]. apply quiet_ret.
Qed.

Lemma quiet_alloc o : quiet (alloc o).
Proof. by intros w. Qed.

Lemma quiet_lookup_obj l : quiet (lookup_obj l).
Proof. intros w. unfold lookup_obj. by destruct (heap w !! l). Qed.

Lemma quiet_store l o : quiet (store l o).
Proof. by intros w. Qed.

Create HintDb quiet.
#[local] Hint Resolve quiet_ret quiet_raise quiet_bind quiet_if quiet_for_each
  quiet_map_each quiet_alloc quiet_lookup_obj quiet_store : quiet.

Ltac quiet_cases :=
  repeat match goal with
         | |- quiet (match ?x with _ => _ end) => destruct x
         end;
  eauto 10 with quiet.

Lemma quiet_py_len v : quiet (py_len v).
Proof. unfold py_len. quiet_cases. Qed.

Lemma quiet_py_iter v : quiet (py_iter v).
Proof. unfold py_iter. quiet_cases. Qed.

Lemma quiet_py_get v k dflt : quiet (py_get v k dflt).
Proof.
  unfold py_get. destruct v; eauto with quiet.
  apply quiet_bind; [eauto with quiet|]. intros []; eauto with quiet.
Qed.

Lemma quiet_py_getitem v k : quiet (py_getitem v k).
Proof.
  unfold py_getitem. destruct v; eauto with quiet.
  apply quiet_bind; [eauto with quiet|]. intros [d|]; [|eauto with quiet].
  destruct (d !! k); eauto with quiet.
Qed.

Lemma quiet_py_setitem v k x : quiet (py_setitem v k x).
Proof.
  unfold py_setitem. destruct v; eauto with quiet.
  apply quiet_bind; [eauto with quiet|]. intros []; eauto with quiet.
Qed.

Lemma quiet_py_append v x : quiet (py_append v x).
Proof.
  unfold py_append. destruct v; eauto with quiet.
  apply quiet_bind; [eauto with quiet|]. intros []; eauto with quiet.
Qed.

Lemma quiet_py_copy v : quiet (py_copy v).
Proof. unfold py_copy. destruct v; eauto with quiet. Qed.

Lemma quiet_py_add_int v n : quiet (py_add_int v n).
Proof. unfold py_add_int. destruct v; eauto with quiet. Qed.

Lemma quiet_py_str r v : quiet (py_str r v).
Proof. intros w. by destruct v as [|[]| | |]. Qed.

Lemma quiet_read_clock f : quiet (read_clock f).
Proof. by intros w. Qed.

#[local] Hint Resolve quiet_py_len quiet_py_iter quiet_py_get quiet_py_getitem
  quiet_py_setitem quiet_py_append quiet_py_copy quiet_py_add_int quiet_py_str
  quiet_read_clock : quiet.

Section Quiet.
Variable DATABASE_FILE : string.
Variable isoformat_now : nat → string.
Variable repr_obj : gmap loc pyobj → loc → string.

Lemma quiet_update_university programs url uni :
  quiet (update_university isoformat_now programs url uni).
Proof. unfold update_university, now. eauto 20 with quiet. Qed.

Lemma quiet_add_program database name url program :
  quiet (add_program isoformat_now repr_obj database name url program).
Proof. unfold add_program, now. eauto 30 with quiet. Qed.

Lemma quiet_register_university database programs name url :
  quiet (register_university isoformat_now database programs name url).
Proof.
  pose proof quiet_update_university.
  unfold register_university, now. eauto 40 with quiet.
Qed.

Lemma quiet_update_metadata database :
  quiet (update_metadata isoformat_now database).
Proof. unfold update_metadata, now. eauto 20 with quiet. Qed.

Lemma quiet_merge_loaded database programs url :
  quiet (merge_loaded isoformat_now repr_obj database programs url).
Proof.
  pose proof quiet_register_university. pose proof quiet_add_program.
  pose proof quiet_update_metadata.
  unfold merge_loaded. cbn zeta. eauto 20 with quiet.
Qed.

(** What [load_database] displays. *)
Lemma load_database_message w db w' :
  load_database DATABASE_FILE w = Ok db w' →
  ui w' = ui w ++ [match db_file w with
                   | FileMissing =>
                       SidebarInfo ("New database will be created at: " +:+ DATABASE_FILE)
                   | FileUnreadable msg => SidebarError ("Error loading database: " +:+ msg)
                   | FileData _ => SidebarSuccess ("Database loaded from: " +:+ DATABASE_FILE)
                   end].
Proof.
  intros H. unfold load_database in H.
  rewrite (bind_eq read_file _ w (db_file w) w eq_refl) in H.
  destruct (db_file w) as [|msg|doc].
  - step H u w1 Hd. assert (ui w1 = ui w ++ [SidebarInfo ("New database will be created at: " +:+ DATABASE_FILE)])
      as <- by (unfold display in Hd; by injection Hd as _ <-).
    rewrite empty_database_as_document in H.
    by destruct (json_build_list _ _ _ _ H) as (_ & _ & _ & ? & _).
  - step H u w1 Hd. assert (ui w1 = ui w ++ [SidebarError ("Error loading database: " +:+ msg)])
      as <- by (unfold display in Hd; by injection Hd as _ <-).
    rewrite empty_database_as_document in H.
    by destruct (json_build_list _ _ _ _ H) as (_ & _ & _ & ? & _).
  - step H data w1 Hb. step H u w2 Hd. apply ret_ok in H as [_ ->].
    destruct (json_build_list _ _ _ _ Hb) as (_ & _ & _ & <- & _).
    unfold display in Hd. by injection Hd as _ <-.
Qed.

(** X8. [add_programs_to_database] leaves the database file as it is,
    whether it returns or raises: nothing is stored until [save_database]
    is called.  All it displays is the message of [load_database]. *)
Theorem merge_stores_nothing (programs : pyval) (url : string) (w : world) :
  match add_programs_to_database DATABASE_FILE isoformat_now repr_obj programs url w with
  | Ok _ w' | Raise _ w' =>
      db_file w' = db_file w ∧
      ∃ c, ui w' = ui w ++ [c] ∧ ∀ s, c ≠ StError s ∧ c ≠ StCode s
  end.
Proof.
  unfold add_programs_to_database.
  destruct (load_database_spec DATABASE_FILE w) as (db & w1 & Hload & _ & Hf & _).
  rewrite (bind_eq _ _ _ _ _ Hload).
  pose proof (load_database_message _ _ _ Hload) as Hui.
  pose proof (quiet_merge_loaded db programs url w1) as Hq.
  assert (∃ c, ui w1 = ui w ++ [c] ∧ ∀ s, c ≠ StError s ∧ c ≠ StCode s) as Hc.
  { eexists. split; [exact Hui|]. by destruct (db_file w). }
  destruct (merge_loaded _ _ _ _ _ w1) as [r w'|e w']; destruct Hq as [-> ->]; done.
Qed.

End Quiet.

Lemma build_members_absent (kvs : list (string * jvalue)) (k : string) :
  k ∉ kvs.*1 →
  ∀ w d w', build_members json_build kvs w = Ok d w' → d !! k = None.
Proof.
  induction kvs as [|[k' x] kvs IH]; intros Hk w d w' H; cbn [build_members] in H.
  - apply ret_ok in H as [-> _]. apply lookup_empty.
  - step H v w1 Hv. fold (build_members json_build) in H.
    step H d' w2 Hd. apply ret_ok in H as [-> _]. cbn [fst snd] in *.
    apply not_elem_of_cons in Hk as [Hne Hk]. specialize (IH Hk _ _ _ Hd).
    destruct (d' !! k'); [done|]. by rewrite lookup_insert_ne.
Qed.

(** What [load_database] returns of a document. *)
Lemma load_database_value DATABASE_FILE doc w db w' :
  db_file w = FileData doc → load_database DATABASE_FILE w = Ok db w' →
  match doc with
  | JNull => db = VNone
  | JBool b => db = VBool b
  | JInt n => db = VInt n
  | JStr s => db = VStr s
  | JArr xs => ∃ l vs, db = VRef l ∧ heap w' !! l = Some (OList vs)
  | JObj kvs =>
      ∃ l d, db = VRef l ∧ heap w' !! l = Some (ODict d) ∧
             ∀ k, k ∉ kvs.*1 → d !! k = None
  end.
Proof.
  intros Hf Hload.
  destruct (load_database_data _ _ _ _ _ Hf Hload) as (w1 & Hb & -> & _).
  destruct doc as [|b|n|s|xs|kvs]; cbn in Hb;
    try (by apply ret_ok in Hb as [-> _]).
  - step Hb vs w2 Hvs. apply alloc_ok in Hb as [-> ->]. cbn [heap set_heap].
    eexists _, vs. by rewrite lookup_insert_eq.
  - step Hb d w2 Hd. apply alloc_ok in Hb as [-> ->]. cbn [heap set_heap].
    eexists _, d. rewrite lookup_insert_eq. split; [done|]. split; [done|].
    intros k Hk. by eapply build_members_absent.
Qed.

Section Raises.
Variable DATABASE_FILE : string.
Variable isoformat_now : nat → string.
Variable repr_obj : gmap loc pyobj → loc → string.

(** X9. [load_database] does not check what the file holds.  When it
    holds JSON that is not an object (an array, a string, a number,
    [null]), [add_programs_to_database] raises [AttributeError], at
    [database.get]. *)
Theorem merge_of_non_object (doc : jvalue) (programs : pyval) (url : string) (w : world) :
  db_file w = FileData doc → (∀ kvs, doc ≠ JObj kvs) →
  ∃ w', add_programs_to_database DATABASE_FILE isoformat_now repr_obj programs url w
        = Raise AttributeError w'.
Proof.
  intros Hf Hdoc. unfold add_programs_to_database.
  destruct (load_database_spec DATABASE_FILE w) as (db & w1 & Hload & _).
  rewrite (bind_eq _ _ _ _ _ Hload).
  pose proof (load_database_value _ _ _ _ _ Hf Hload) as Hv.
  unfold merge_loaded. cbn zeta. eexists. apply bind_raise.
  unfold register_university.
  rewrite (bind_eq (alloc _) _ w1 _ _ eq_refl). apply bind_raise.
  destruct doc as [|b|n|s|xs|kvs]; try (subst db; reflexivity).
  - destruct Hv as (l & vs & -> & Hl).
    unfold py_get, lookup_obj, mbind, M_bind.
    cbn [heap set_heap]. rewrite lookup_insert_ne by (by eapply fresh_loc_ne).
    by rewrite Hl.
  - by destruct (Hdoc kvs).
Qed.

(** X10. When the file holds an object that has no [universities], and
    the batch is a list, [add_programs_to_database] raises [KeyError]: the
    default of [database.get('universities', [])] makes every URL a new
    one, and [database['universities']] has no default. *)
Theorem merge_without_universities (kvs : list (string * jvalue)) (lb : loc)
    (items : list pyval) (url : string) (w : world) :
  db_file w = FileData (JObj kvs) → "universities" ∉ kvs.*1 →
  heap w !! lb = Some (OList items) →
  ∃ w', add_programs_to_database DATABASE_FILE isoformat_now repr_obj (VRef lb) url w
        = Raise KeyError w'.
Proof.
  intros Hf Hk Hlb. unfold add_programs_to_database.
  destruct (load_database_spec DATABASE_FILE w) as (db & w1 & Hload & _ & _ & Hb).
  rewrite (bind_eq _ _ _ _ _ Hload).
  destruct (load_database_value _ _ _ _ _ Hf Hload) as (ld & d & -> & Hld & Hd).
  specialize (Hd _ Hk).
  assert (Hlb1 : heap w1 !! lb = Some (OList items)).
  { destruct Hb as [(Hsub & _) _]. by eapply lookup_weaken. }
  unfold merge_loaded. cbn zeta. unfold register_university, now.
  set (f := fresh (dom (heap w1))).
  assert (Hfr : ∀ l o, heap w1 !! l = Some o → <[f := OList []]> (heap w1) !! l = Some o).
  { intros l o Hl. rewrite lookup_insert_ne; [done|]. by eapply fresh_loc_ne. }
  eexists. apply bind_raise.
  rewrite (bind_eq (alloc _) _ w1 _ _ eq_refl). fold f.
  set (w2 := set_heap _ w1).
  rewrite (bind_eq _ _ _ _ _ (py_get_run ld d "universities" (VRef f) w2 (Hfr _ _ Hld))).
  rewrite Hd. cbn [default from_option id].
  rewrite (bind_eq _ _ _ _ _ (py_iter_run f [] w2 (lookup_insert_eq _ _ _))).
  cbn [map_each]. rewrite (bind_eq (mret []) _ w2 [] w2 eq_refl). cbn [existsb negb].
  rewrite (bind_eq (read_clock _) _ w2 _ _ eq_refl).
  set (w3 := World _ _ _ _).
  rewrite (bind_eq _ _ _ _ _ (py_len_run lb items w3 (Hfr _ _ Hlb1))).
  rewrite (bind_eq (alloc _) _ w3 _ _ eq_refl).
  set (w4 := set_heap _ w3).
  apply bind_raise. unfold py_getitem, lookup_obj, mbind, M_bind.
  assert (heap w4 !! ld = Some (ODict d)) as ->; [|by rewrite Hd].
  unfold w4. cbn [heap set_heap]. rewrite lookup_insert_ne; [by apply Hfr|].
  eapply fresh_loc_ne. by apply Hfr.
Qed.

(** X11. The records of a batch are not checked either.  When the
    database is a collection and the first element of the batch is not an
    object but a string, a number or [null], the call raises
    [AttributeError], at [program.copy()]. *)
Theorem merge_of_scalar_record (lb : loc) (x : pyval) (rest : list pyval) (url : string)
    (w0 : world) (db : pyval) (w1 : world) :
  load_database DATABASE_FILE w0 = Ok db w1 →
  collection_at (heap w1) db →
  heap w0 !! lb = Some (OList (x :: rest)) → (∀ l, x ≠ VRef l) →
  ∃ w', add_programs_to_database DATABASE_FILE isoformat_now repr_obj (VRef lb) url w0
        = Raise AttributeError w'.
Proof.
  intros Hload Hcol Hlb Hx.
  pose proof (load_database_ok _ _ _ _ Hload) as (_ & _ & Hb).
  pose proof Hcol as (ld & d & lp & ps & lu & us & -> & Hld & Hps & Hlp & Hus & Hlu & Hall).
  destruct (built_database _ _ _ _ Hb Hld) as (Hsub & _ & Hkeys & _).
  assert (Hlb1 : heap w1 !! lb = Some (OList (x :: rest))) by (by eapply lookup_weaken).
  unfold add_programs_to_database. rewrite (bind_eq _ _ _ _ _ Hload).
  unfold merge_loaded. cbn zeta.
  destruct (register_university_returns isoformat_now (VRef ld) lb (x :: rest)
              (university_name_of url) url w1 Hcol Hlb1) as [w2 H1].
  rewrite (bind_eq _ _ _ _ _ H1).
  assert (Hlb2 : heap w2 !! lb = Some (OList (x :: rest))).
  { assert (Hdom : ∀ l, d !! "universities" = Some (VRef l) → is_Some (heap w1 !! l)).
    { intros l Hl. rewrite Hus in Hl. injection Hl as <-. by eexists. }
    destruct (register_university_ok isoformat_now _ _ url w1 ld d w2 Hld Hdom H1)
      as (lu' & us' & Hus' & Hlu' & _ & [(_ & Hw & _) | (_ & n & _ & ->)]).
    - destruct (Hw lb _ Hlb1) as [_ Hkeep]. apply Hkeep.
      intros [_ (de & Hde & _)]. congruence.
    - rewrite Hus in Hus'. injection Hus' as <-.
      destruct (Hkeys _ _ Hus) as (_ & Hnew & _).
      rewrite !lookup_insert_ne; [done|..].
      + apply (fresh_loc_ne _ _ (OList (x :: rest))). done.
      + apply (fresh_loc_ne _ _ (OList (x :: rest))).
        rewrite lookup_insert_ne; [done|]. by apply (fresh_loc_ne _ _ (OList (x :: rest))).
      + congruence. }
  rewrite (bind_eq _ _ _ _ _ (py_iter_run lb _ w2 Hlb2)).
  eexists. apply bind_raise. cbn [for_each]. apply bind_raise.
  unfold add_program. apply bind_raise.
  destruct x as [|b|z|s|l]; try reflexivity. by destruct (Hx l).
Qed.

End Raises.

(** ** The ids of new records *)

Lemma string_app_inv_head (a x y : string) : a +:+ x = a +:+ y → x = y.
Proof. induction a as [|c a IH]; cbn; [done|]. intros [= H]. by apply IH. Qed.

Lemma digits_of_uint (d : Decimal.uint) :
  all_chars (λ c, negb (Ascii.eqb c "_")) (NilEmpty.string_of_uint d) = true.
Proof. induction d; cbn; done. Qed.

Lemma str_of_nat_inj (n1 n2 : nat) : str_of_nat n1 = str_of_nat n2 → n1 = n2.
Proof.
  unfold str_of_nat. intros H.
  apply (f_equal NilEmpty.uint_of_string) in H. rewrite !NilEmpty.usu in H.
  injection H as H. by apply Unsigned.to_uint_inj.
Qed.

(** A text that ends with an underscore and digits has one such end. *)
Lemma last_underscore (s1 s2 d1 d2 : string) :
  all_chars (λ c, negb (Ascii.eqb c "_")) d1 = true →
  all_chars (λ c, negb (Ascii.eqb c "_")) d2 = true →
  s1 +:+ String "_" d1 = s2 +:+ String "_" d2 → d1 = d2.
Proof.
  intros H1 H2. revert s2. induction s1 as [|c s1 IH]; intros [|c' s2];
    rewrite ?string_app_cons; change (EmptyString +:+ ?x) with x.
  - by intros [= ->].
  - intros [= <- ->]. rewrite all_chars_app in H1. cbn in H1.
    by rewrite andb_false_r in H1.
  - intros [= -> <-]. rewrite all_chars_app in H2. cbn in H2.
    by rewrite andb_false_r in H2.
  - intros [= _ H]. by apply IH in H.
Qed.

Lemma id_index_inj (name s1 s2 : string) (n1 n2 : nat) :
  name +:+ "_" +:+ s1 +:+ "_" +:+ str_of_nat n1
  = name +:+ "_" +:+ s2 +:+ "_" +:+ str_of_nat n2 → n1 = n2.
Proof.
  intros H%string_app_inv_head.
  change ("_" +:+ ?x) with (String "_" x) in H. injection H as H.
  apply str_of_nat_inj. eapply last_underscore; [apply digits_of_uint..|exact H].
Qed.

Section Ids.
Variable DATABASE_FILE : string.
Variable isoformat_now : nat → string.
Variable repr_obj : gmap loc pyobj → loc → string.

(** The records a merge appends, by their index in the batch. *)
Lemma merge_appends_records lb items url w0 r w' w1 ld d lp old :
  add_programs_to_database DATABASE_FILE isoformat_now repr_obj (VRef lb) url w0
    = Ok r w' →
  heap w0 !! lb = Some (OList items) →
  (∀ li, VRef li ∈ items → is_Some (heap w0 !! li)) →
  load_database DATABASE_FILE w0 = Ok (VRef ld) w1 →
  heap w1 !! ld = Some (ODict d) →
  d !! "programs" = Some (VRef lp) →
  heap w1 !! lp = Some (OList old) →
  ∃ cs,
    heap w' !! lp = Some (OList (old ++ (VRef <$> cs))) ∧
    length cs = length items ∧
    ∀ i c, cs !! i = Some c →
      ∃ r shown t,
        heap w1 !! c = None ∧
        heap w' !! c =
          Some (ODict (with_meta (university_name_of url) url shown t
                         (length old + i) r)).
Proof.
  intros (w1' & w2 & items' & w3 & ld' & d0 & lu & us & Hload & -> & Hb & _ & _
          & Hld' & Hus & Hlu & H1 & H2 & H3 & H4)%add_programs_to_database_inv
    Hlb Hitems Hload' Hld Hps Hlp.
  rewrite Hload in Hload'. injection Hload' as -> ->.
  rewrite Hld in Hld'. injection Hld' as <-.
  destruct (built_database _ _ _ _ Hb Hld)
    as (Hsub & Hnld & Hkeys & Helems & ρ & Hρ1 & Hρ2 & Hρ3 & Hρ4).
  assert (HρU : ∀ l, VRef l ∈ us → ρ "universities" l).
  { intros l Hin. apply (Hρ2 "universities" lu (OList us) l); [by apply Hρ1|done..]. }
  assert (Hw0 : writes_in (λ l, heap w0 !! l = None) (heap w1) (heap w2)).
  { eapply trace_register_writes; try done.
    - intros _ l Hin _. by destruct (Helems _ _ _ _ Hus Hlu Hin) as (_ & _ & ? & _).
    - intros _. by destruct (Hkeys _ _ Hus) as (_ & ? & _). }
  assert (Hold : ∀ l o, heap w0 !! l = Some o → heap w2 !! l = Some o).
  { intros l o Hl. destruct (Hw0 l o) as [_ Hkeep].
    - by eapply lookup_weaken.
    - apply Hkeep. congruence. }
  assert (Hwp : writes_in (λ l, l ≠ lp) (heap w1) (heap w2)).
  { eapply trace_register_writes; try done.
    - intros _ l Hin _ ->.
      by pose proof (Hρ4 _ _ _ (Hρ1 _ _ Hps) (HρU _ Hin)).
    - intros _ <-. by pose proof (Hρ4 _ _ _ (Hρ1 _ _ Hps) (Hρ1 _ _ Hus)). }
  assert (Hlp2 : heap w2 !! lp = Some (OList old)).
  { destruct (Hwp _ _ Hlp) as [_ Hkeep]. apply Hkeep. by intros ?. }
  destruct (trace_database _ _ _ _ _ _ _ _ _ _ Hld H1 H3) as (d2 & Hd2 & Hd3 & Hk).
  assert (Hps2 : d2 !! "programs" = Some (VRef lp)).
  { rewrite Hk; [done|]. by apply not_key. }
  apply py_iter_ok in H2 as [_ H2].
  destruct H2 as [(? & [=] & _) | [(l0 & ? & [= <-] & Hl0 & _) | (l0 & [= <-] & Hl0)]];
    rewrite (Hold _ _ Hlb) in Hl0; [discriminate|injection Hl0 as <-].
  destruct (add_programs_ok isoformat_now repr_obj (university_name_of url) url
              ld d2 lp items Hps2 w2 w3 old Hd2 Hlp2)
    as (_ & _ & _ & cs & Hcs & Happ); [|done|].
  { intros li Hin. destruct (Hitems li Hin) as [o Ho]. exists o. by apply Hold. }
  assert (Hw3 : writes_in (λ l, l = ld) (heap w3) (heap w')).
  { eapply trace_meta_writes; [exact Hld|exact H1|exact H3|exact H4|done]. }
  destruct (appended_lookup _ _ _ _ _ _ _ _ Happ) as [Hlen Hidx].
  exists cs. split; [|split; [done|]].
  { destruct (Hw3 _ _ Hcs) as [_ Hkeep]. apply Hkeep.
    by destruct (Hkeys _ _ Hps) as [? _]. }
  intros i c Hc.
  destruct (lookup_lt_is_Some_2 items i) as [item Hi].
  { rewrite <- Hlen. by eapply lookup_lt_Some. }
  destruct (Hidx i item Hi) as (c' & Hc' & Hcn & li & r0 & hc & t & -> & Hr & Hnew).
  rewrite Hc in Hc'. injection Hc' as <-.
  exists r0, (name_shown repr_obj hc r0), t. split.
  - by apply (writes_in_None _ _ _ _ Hw0).
  - destruct (Hw3 _ _ Hnew) as [_ Hkeep]. apply Hkeep. intros ->. congruence.
Qed.

(** X12. The records that one call appends are different objects with
    different ids: an id ends with the length of the list of programs
    when the record was appended, and the text before it cannot take
    that end away, whatever the names of the records are. *)
Theorem new_ids_distinct lb items url w0 r w' w1 ld d lp old :
  add_programs_to_database DATABASE_FILE isoformat_now repr_obj (VRef lb) url w0
    = Ok r w' →
  heap w0 !! lb = Some (OList items) →
  (∀ li, VRef li ∈ items → is_Some (heap w0 !! li)) →
  load_database DATABASE_FILE w0 = Ok (VRef ld) w1 →
  heap w1 !! ld = Some (ODict d) →
  d !! "programs" = Some (VRef lp) →
  heap w1 !! lp = Some (OList old) →
  ∃ cs,
    heap w' !! lp = Some (OList (old ++ (VRef <$> cs))) ∧
    length cs = length items ∧ NoDup cs ∧
    ∀ i j ci cj, cs !! i = Some ci → cs !! j = Some cj →
      ∃ di dj idi idj,
        heap w' !! ci = Some (ODict di) ∧ heap w' !! cj = Some (ODict dj) ∧
        di !! "id" = Some (VStr idi) ∧ dj !! "id" = Some (VStr idj) ∧
        (idi = idj → i = j).
Proof.
  intros Hmerge Hlb Hitems Hload Hld Hps Hlp.
  destruct (merge_appends_records _ _ _ _ _ _ _ _ _ _ _
              Hmerge Hlb Hitems Hload Hld Hps Hlp) as (cs & Hcs & Hlen & Hrec).
  assert (Hids : ∀ i j ci cj, cs !! i = Some ci → cs !! j = Some cj →
            ∃ di dj idi idj,
              heap w' !! ci = Some (ODict di) ∧ heap w' !! cj = Some (ODict dj) ∧
              di !! "id" = Some (VStr idi) ∧ dj !! "id" = Some (VStr idj) ∧
              (idi = idj → i = j)).
  { intros i j ci cj Hi Hj.
    destruct (Hrec i ci Hi) as (ri & si & ti & _ & Hci).
    destruct (Hrec j cj Hj) as (rj & sj & tj & _ & Hcj).
    eexists _, _, _, _. split; [exact Hci|]. split; [exact Hcj|].
    unfold with_meta. rewrite !lookup_insert_eq. split; [done|]. split; [done|].
    intros Hid%id_index_inj. lia. }
  exists cs. split; [done|]. split; [done|]. split; [|done].
  apply NoDup_alt. intros i j c Hi Hj.
  destruct (Hids i j c c Hi Hj) as (di & dj & idi & idj & Hdi & Hdj & Hidi & Hidj & Hinj).
  apply Hinj. congruence.
Qed.

End Ids.

(** ** The lists of a loaded database have no aliases *)

Lemma refs_once_tail v vs : refs_once (v :: vs) → refs_once vs.
Proof. intros H i j l Hi Hj. by injection (H (S i) (S j) l Hi Hj). Qed.

Lemma build_items_apart (xs : list jvalue) :
  Forall (λ x, ∀ w v w', json_build x w = Ok v w' →
            ∀ l ys, heap w !! l = None → heap w' !! l = Some (OList ys) → refs_once ys) xs →
  ∀ w vs w', build_items json_build xs w = Ok vs w' →
    (∀ l o, heap w !! l = Some o → heap w' !! l = Some o) ∧
    (∀ l, VRef l ∈ vs → heap w !! l = None ∧ is_Some (heap w' !! l)) ∧
    refs_once vs ∧
    (∀ l ys, heap w !! l = None → heap w' !! l = Some (OList ys) → refs_once ys).
Proof.
  intros Hall. induction Hall as [|x xs Hx _ IH]; intros w vs w' H; cbn [build_items] in H.
  - apply ret_ok in H as [-> ->]. split; [done|]. split.
    { intros l Hl. by apply elem_of_nil in Hl. }
    split; [by intros i j l Hi|]. intros l ys Hl. by rewrite Hl.
  - step H v w1 Hv. fold (build_items json_build) in H.
    step H vs' w2 Hvs. apply ret_ok in H as [-> ->].
    destruct (json_build_list _ _ _ _ Hv) as (Hk1 & _ & _ & _ & Hroot).
    destruct (IH _ _ _ Hvs) as (Hk2 & Hnew & Honce & Hlists).
    assert (Hv1 : ∀ l, v = VRef l → heap w !! l = None ∧ is_Some (heap w1 !! l)).
    { intros l ->. destruct (Hroot l eq_refl) as [? Hl]. split; [done|].
      destruct x; destruct Hl as (? & Hl); try (by rewrite Hl); destruct Hl as [Hl _];
        by rewrite Hl. }
    split; [by auto|]. split; [|split].
    + intros l [[= <-]|Hin]%elem_of_cons.
      * destruct (Hv1 l eq_refl) as [? [o Ho]]. split; [done|]. exists o. by apply Hk2.
      * destruct (Hnew l Hin) as [Hn ?]. split; [|done].
        destruct (heap w !! l) as [o|] eqn:Ho; [|done]. by rewrite (Hk1 _ _ Ho) in Hn.
    + intros [|i] [|j] l Hi Hj; cbn in Hi, Hj; [done| | |].
      * injection Hi as ->. destruct (Hv1 l eq_refl) as [_ [o Ho]].
        destruct (Hnew l) as [Hn _]; [by eapply list_elem_of_lookup_2|]. congruence.
      * injection Hj as ->. destruct (Hv1 l eq_refl) as [_ [o Ho]].
        destruct (Hnew l) as [Hn _]; [by eapply list_elem_of_lookup_2|]. congruence.
      * f_equal. by eapply Honce.
    + intros l ys Hl Hys. destruct (heap w1 !! l) as [o|] eqn:Ho.
      * rewrite (Hk2 _ _ Ho) in Hys. injection Hys as ->. by eapply Hx.
      * by eapply Hlists.
Qed.

Lemma build_members_apart (kvs : list (string * jvalue)) :
  Forall (λ kv, ∀ w v w', json_build kv.2 w = Ok v w' →
            ∀ l ys, heap w !! l = None → heap w' !! l = Some (OList ys) → refs_once ys) kvs →
  ∀ w d w', build_members json_build kvs w = Ok d w' →
    (∀ l o, heap w !! l = Some o → heap w' !! l = Some o) ∧
    (∀ l ys, heap w !! l = None → heap w' !! l = Some (OList ys) → refs_once ys).
Proof.
  intros Hall. induction Hall as [|[k x] kvs Hx _ IH]; intros w d w' H;
    cbn [build_members] in H.
  - apply ret_ok in H as [-> ->]. split; [done|]. intros l ys Hl. by rewrite Hl.
  - step H v w1 Hv. fold (build_members json_build) in H.
    step H d' w2 Hd. apply ret_ok in H as [-> ->]. cbn [fst snd] in *.
    destruct (json_build_list _ _ _ _ Hv) as (Hk1 & _).
    destruct (IH _ _ _ Hd) as (Hk2 & Hlists).
    split; [by auto|].
    intros l ys Hl Hys. destruct (heap w1 !! l) as [o|] eqn:Ho.
    + rewrite (Hk2 _ _ Ho) in Hys. injection Hys as ->. by eapply Hx.
    + by eapply Hlists.
Qed.

(** No new list holds an object twice. *)
Lemma json_build_apart (j : jvalue) :
  ∀ w v w', json_build j w = Ok v w' →
    ∀ l ys, heap w !! l = None → heap w' !! l = Some (OList ys) → refs_once ys.
Proof.
  induction j as [| | | |xs IH|kvs IH] using jvalue_nested_ind; intros w v w' H; cbn in H;
    try (apply ret_ok in H as [_ ->]; intros l ys Hl; by rewrite Hl).
  - step H vs w1 Hvs. apply alloc_ok in H as [_ ->]. cbn [heap set_heap].
    destruct (build_items_apart xs IH _ _ _ Hvs) as (_ & _ & Honce & Hlists).
    intros l ys Hl. destruct (decide (fresh (dom (heap w1)) = l)) as [<-|Hne].
    + rewrite lookup_insert_eq. by intros [= <-].
    + rewrite lookup_insert_ne by done. by apply Hlists.
  - step H d w1 Hd. apply alloc_ok in H as [_ ->]. cbn [heap set_heap].
    destruct (build_members_apart kvs IH _ _ _ Hd) as (_ & Hlists).
    intros l ys Hl. destruct (decide (fresh (dom (heap w1)) = l)) as [<-|Hne].
    + by rewrite lookup_insert_eq.
    + rewrite lookup_insert_ne by done. by apply Hlists.
Qed.

Lemma load_database_apart DATABASE_FILE w db w' :
  load_database DATABASE_FILE w = Ok db w' →
  ∀ l ys, heap w !! l = None → heap w' !! l = Some (OList ys) → refs_once ys.
Proof.
  intros Hload. unfold load_database in Hload.
  rewrite (bind_eq read_file _ w (db_file w) w eq_refl) in Hload.
  destruct (db_file w) as [|msg|doc].
  - step Hload u w0 Hd. rewrite empty_database_as_document in Hload.
    apply display_ok in Hd as (Hd & _). rewrite <- Hd. by eapply json_build_apart.
  - step Hload u w0 Hd. rewrite empty_database_as_document in Hload.
    apply display_ok in Hd as (Hd & _). rewrite <- Hd. by eapply json_build_apart.
  - step Hload data w0 Hb. step Hload u w2 Hd. apply display_ok in Hd as (Hd & _).
    apply ret_ok in Hload as [-> ->]. rewrite Hd. by eapply json_build_apart.
Qed.

(** ** The count of a source that is scraped again *)

Section Count.
Variable DATABASE_FILE : string.
Variable isoformat_now : nat → string.
Variable repr_obj : gmap loc pyobj → loc → string.

(** The loop over the entries adds the length of the batch to the count
    of an entry that has the URL, once, and leaves the other dicts as
    they are. *)
Lemma update_universities_count lb batch url items :
  refs_once items →
  ∀ w w', for_each items (update_university isoformat_now (VRef lb) url) w = Ok tt w' →
    heap w !! lb = Some (OList batch) →
    ∀ l de, heap w !! l = Some (ODict de) →
      (VRef l ∈ items → py_eq_str (default VNone (de !! "url")) url = true →
       ∃ k, heap w' !! l =
              Some (ODict (<["programs_count" :=
                               VInt (count_of de + Z.of_nat (length batch))]>
                          (<["scraped_at" := VStr (isoformat_now k)]> de)))) ∧
      (VRef l ∉ items ∨ py_eq_str (default VNone (de !! "url")) url = false →
       heap w' !! l = Some (ODict de)).
Proof.
  induction items as [|x items IH]; intros Honce w w' H Hlb l de Hl; cbn [for_each] in H.
  - apply ret_ok in H as [_ ->]. split; [|done]. by intros ?%elem_of_nil.
  - step H u w1 Hx. destruct u.
    apply update_university_count in Hx as (lx & dx & -> & Hlx & Hx).
    assert (Hnlb : lx ≠ lb) by congruence.
    specialize (IH (refs_once_tail _ _ Honce) w1 w' H).
    assert (Hlb1 : heap w1 !! lb = Some (OList batch)).
    { destruct (py_eq_str (default VNone (dx !! "url")) url).
      - destruct Hx as (n & _ & ->). by rewrite lookup_insert_ne.
      - by rewrite Hx. }
    specialize (IH Hlb1).
    destruct (decide (lx = l)) as [->|Hne].
    + rewrite Hlx in Hl. injection Hl as ->.
      assert (Hnot : VRef l ∉ items).
      { intros (i & Hi)%list_elem_of_lookup_1.
        by pose proof (Honce 0 (S i) l eq_refl Hi). }
      destruct (py_eq_str (default VNone (de !! "url")) url) eqn:Hm.
      * destruct Hx as (n & Hn & Hh). cbn zeta in *.
        unfold len_of in Hn. rewrite lookup_insert_ne, Hlb in Hn by done.
        injection Hn as <-.
        destruct (IH l _ ltac:(rewrite Hh; apply lookup_insert_eq)) as [_ IH2].
        split.
        -- intros _ _. eexists. apply IH2. by left.
        -- intros [Hnin|[=]]. destruct Hnin. apply elem_of_cons. by left.
      * destruct (IH l de ltac:(by rewrite Hx)) as [_ IH2].
        split; [done|]. intros _. apply IH2. by left.
    + assert (Hl1 : heap w1 !! l = Some (ODict de)).
      { destruct (py_eq_str (default VNone (dx !! "url")) url).
        - destruct Hx as (n & _ & ->). by rewrite lookup_insert_ne.
        - by rewrite Hx. }
      destruct (IH l de Hl1) as [IH1 IH2]. split.
      * intros [[=]|Hin]%elem_of_cons; [congruence|]. by apply IH1.
      * intros [Hnin|Hm]; apply IH2; [|by right]. left. intros Hin. apply Hnin.
        apply elem_of_cons. by right.
Qed.

Lemma register_university_count lb batch name url w w2 ld d lu us :
  register_university isoformat_now (VRef ld) (VRef lb) name url w = Ok tt w2 →
  heap w !! lb = Some (OList batch) →
  heap w !! ld = Some (ODict d) → d !! "universities" = Some (VRef lu) →
  heap w !! lu = Some (OList us) → refs_once us →
  ∀ l de, VRef l ∈ us → heap w !! l = Some (ODict de) →
    py_eq_str (default VNone (de !! "url")) url = true →
    ∃ k, heap w2 !! l =
           Some (ODict (<["programs_count" :=
                            VInt (count_of de + Z.of_nat (length batch))]>
                       (<["scraped_at" := VStr (isoformat_now k)]> de))).
Proof.
  intros H Hlb Hld Hus Hlu Honce l de Hin Hl Hm. unfold register_university, now in H.
  set (f := fresh (dom (heap w))) in *.
  assert (Hf : ∀ l o, heap w !! l = Some o → <[f := OList []]> (heap w) !! l = Some o).
  { intros l' o Hl'. rewrite lookup_insert_ne; [done|]. by eapply fresh_loc_ne. }
  step H dflt w1 Ha. apply alloc_ok in Ha as [-> ->]. fold f in H.
  step H unis w2' Hu. apply py_get_ok in Hu as (-> & l' & d' & [= <-] & Hl' & ->).
  cbn [heap set_heap] in Hl'. rewrite (Hf _ _ Hld) in Hl'. injection Hl' as <-.
  rewrite Hus in H. cbn [default from_option id] in H.
  step H items w2' Hit. apply py_iter_ok in Hit as (-> & Hit).
  destruct Hit as [(s & [=] & _) | [(l' & dl & [= <-] & Hl' & _) | (l' & [= <-] & Hlu')]];
    cbn [heap set_heap] in *; [rewrite (Hf _ _ Hlu) in Hl'; congruence|].
  rewrite (Hf _ _ Hlu) in Hlu'. injection Hlu' as <-.
  step H urls w2' Hurls. apply map_each_get_ok in Hurls as (-> & Hurls).
  cbn [heap set_heap] in Hurls.
  assert (existsb (λ u, py_eq_str u url) urls = true) as Hex.
  { apply (existsb_listed _ us urls url Hurls). exists l, de. split; [done|].
    split; [by apply Hf|]. destruct (de !! "url"); [done|discriminate]. }
  rewrite Hex in H. cbn [negb] in H.
  step H us_v w3 Hg. apply py_getitem_ok in Hg as (-> & l' & d' & [= <-] & Hl' & Hus').
  cbn [heap set_heap] in Hl'. rewrite (Hf _ _ Hld) in Hl'. injection Hl' as <-.
  rewrite Hus in Hus'. injection Hus' as <-.
  step H us' w3 Hit2. apply py_iter_ok in Hit2 as (-> & Hit2).
  destruct Hit2 as [(s & [=] & _) | [(l' & dl & [= <-] & Hl' & _) | (l' & [= <-] & Hlu')]];
    cbn [heap set_heap] in *; [rewrite (Hf _ _ Hlu) in Hl'; congruence|].
  rewrite (Hf _ _ Hlu) in Hlu'. injection Hlu' as <-.
  destruct (update_universities_count lb batch url us Honce _ _ H
              ltac:(cbn [heap set_heap]; by apply Hf) l de
              ltac:(cbn [heap set_heap]; by apply Hf)) as [Hc _].
  by apply Hc.
Qed.

(** X13. Scraping a source again adds to its count: every entry of the
    loaded database that has the URL of the call gets the number of
    records of the batch added to its [programs_count] (which counts as 0
    when the entry has none), once, and a new [scraped_at]; its other
    keys stay. *)
Theorem rescrape_adds_to_count lb items url w0 r w' w1 ld d lu us l de :
  add_programs_to_database DATABASE_FILE isoformat_now repr_obj (VRef lb) url w0
    = Ok r w' →
  heap w0 !! lb = Some (OList items) →
  load_database DATABASE_FILE w0 = Ok (VRef ld) w1 →
  heap w1 !! ld = Some (ODict d) →
  d !! "universities" = Some (VRef lu) →
  heap w1 !! lu = Some (OList us) →
  VRef l ∈ us → heap w1 !! l = Some (ODict de) →
  py_eq_str (default VNone (de !! "url")) url = true →
  ∃ k, heap w' !! l =
         Some (ODict (<["programs_count" :=
                          VInt (count_of de + Z.of_nat (length items))]>
                     (<["scraped_at" := VStr (isoformat_now k)]> de))).
Proof.
  intros (w1' & w2 & items' & w3 & ld' & d0 & lu' & us' & Hload & -> & Hb & _ & _
          & Hld' & Hus' & Hlu' & H1 & H2 & H3 & H4)%add_programs_to_database_inv
    Hlb Hload' Hld Hus Hlu Hin Hl Hm.
  rewrite Hload in Hload'. injection Hload' as -> ->.
  rewrite Hld in Hld'. injection Hld' as <-.
  rewrite Hus in Hus'. injection Hus' as <-.
  rewrite Hlu in Hlu'. injection Hlu' as <-.
  destruct (built_database _ _ _ _ Hb Hld)
    as (Hsub & Hnld & Hkeys & Helems & ρ & Hρ1 & Hρ2 & Hρ3 & Hρ4).
  assert (Honce : refs_once us).
  { eapply (load_database_apart _ _ _ _ Hload); [|exact Hlu].
    by destruct (Hkeys _ _ Hus) as (_ & ? & _). }
  destruct (register_university_count lb items _ url w1 w2 ld d lu us H1
              (lookup_weaken _ _ _ _ Hlb Hsub) Hld Hus Hlu Honce l de Hin Hl Hm)
    as (k & Hl2).
  exists k.
  assert (Hρl : ρ "universities" l).
  { apply (Hρ2 "universities" lu (OList us) l); [by apply Hρ1|done..]. }
  assert (Hw : writes_in (λ l', l' ≠ l) (heap w2) (heap w')).
  { apply (writes_in_trans _ _ (heap w3)).
    - eapply trace_add_writes; [exact Hld|exact H1|exact H3|exact H4|].
      intros _ lp Hps ->. by pose proof (Hρ4 _ _ _ (Hρ1 _ _ Hps) Hρl).
    - eapply trace_meta_writes; [exact Hld|exact H1|exact H3|exact H4|].
      intros ->. by destruct (Hρ3 _ _ Hρl) as (_ & _ & ?). }
  destruct (Hw _ _ Hl2) as [_ Hkeep]. apply Hkeep. by intros ?.
Qed.

End Count.

(** ** load_database, whatever the file is *)

Section Loads.
Variable DATABASE_FILE : string.
Variable isoformat_now : nat → string.
Variable repr_obj : gmap loc pyobj → loc → string.

(** X14. [load_database] never raises.  It shows one message in the
    sidebar, which tells the state of the file; it changes no object,
    nor the clock, nor the file; and what it returns is a new object,
    written by [json.dump] as the document of the file, or as the empty
    collection when the file is missing or unreadable. *)
Theorem load_database_always_returns (w : world) :
  ∃ db w',
    load_database DATABASE_FILE w = Ok db w' ∧
    (∀ l o, heap w !! l = Some o → heap w' !! l = Some o) ∧
    (∀ l, db = VRef l → heap w !! l = None) ∧
    ticks w' = ticks w ∧ db_file w' = db_file w ∧
    ui w' = ui w ++ [match db_file w with
                     | FileMissing =>
                         SidebarInfo ("New database will be created at: "
                                      +:+ DATABASE_FILE)
                     | FileUnreadable msg =>
                         SidebarError ("Error loading database: " +:+ msg)
                     | FileData _ =>
                         SidebarSuccess ("Database loaded from: " +:+ DATABASE_FILE)
                     end] ∧
    json_dump (heap w') db = Dumped (canon (match db_file w with
                                            | FileData doc => doc
                                            | _ => empty_document
                                            end)).
Proof.
  destruct (load_database_spec DATABASE_FILE w) as (db & w' & Hload & Ht & Hf & Hb).
  exists db, w'. split; [done|]. split; [|split].
  - intros l o Hl. destruct Hb as [(Hsub & _) _]. by eapply lookup_weaken.
  - intros l ->. destruct Hb as [_ Hroot]. by destruct (Hroot l eq_refl) as [[? _] _].
  - split; [done|]. split; [done|]. split.
    + by eapply load_database_message.
    + by eapply load_database_dump.
Qed.

(** ** A merge keeps a collection *)

(** X15. When the database loaded is a collection, so is the database
    that [add_programs_to_database] returns: a dict whose [programs] and
    [universities] are lists, every entry of [universities] a dict whose
    [programs_count], if it has one, is an int or a bool. *)
Theorem merge_keeps_collection programs url w0 r w' db w1 :
  add_programs_to_database DATABASE_FILE isoformat_now repr_obj programs url w0
    = Ok r w' →
  load_database DATABASE_FILE w0 = Ok db w1 →
  collection_at (heap w1) db →
  collection_at (heap w') r.
Proof.
  intros (w1' & w2 & items & w3 & ld & d & lu & us & Hload & -> & Hb & _ & _
          & Hld & Hus & Hlu & H1 & H2 & H3 & H4)%add_programs_to_database_inv
    Hload' (ld' & d' & lp & ps & lu' & us' & -> & Hld' & Hps & Hlp & Hus' & Hlu' & Hall).
  rewrite Hload in Hload'. injection Hload' as <- <-. rename w1' into w1.
  rewrite Hld in Hld'. injection Hld' as <-.
  rewrite Hus in Hus'. injection Hus' as <-.
  rewrite Hlu in Hlu'. injection Hlu' as <-.
  destruct (built_database _ _ _ _ Hb Hld)
    as (Hsub & Hnld & Hkeys & Helems & ρ & Hρ1 & Hρ2 & Hρ3 & Hρ4).
  assert (Hlplu : lp ≠ lu).
  { intros ->. by pose proof (Hρ4 _ _ _ (Hρ1 _ _ Hps) (Hρ1 _ _ Hus)). }
  assert (Hpld : lp ≠ ld) by (by destruct (Hkeys _ _ Hps) as [? _]).
  assert (Huld : lu ≠ ld) by (by destruct (Hkeys _ _ Hus) as [? _]).
  pose proof (trace_evolves _ _ _ _ _ _ _ _ _ _ H1 H3 H4) as Hev.
  destruct (Hev _ _ Hld) as (d' & Hld' & Hd').
  destruct (Hev _ _ Hlp) as (ys & Hlp').
  (* after the first block *)
  assert (Hw23 : writes_in (λ l, l = lp ∨ l = ld) (heap w2) (heap w')).
  { apply (writes_in_trans _ _ (heap w3)).
    - eapply trace_add_writes; [exact Hld|exact H1|exact H3|exact H4|].
      intros _ l Hl. left. congruence.
    - eapply trace_meta_writes; [exact Hld|exact H1|exact H3|exact H4|]. by right. }
  assert (Hkeep : ∀ l o, l ≠ lp → l ≠ ld → heap w2 !! l = Some o → heap w' !! l = Some o).
  { intros l o ? ? Hl. destruct (Hw23 _ _ Hl) as [_ Hk]. apply Hk. by intros [?|?]. }
  assert (Hentry : ∀ e, VRef e ∈ us → e ≠ lp ∧ e ≠ ld ∧ e ≠ lu).
  { intros e Hin. destruct (Helems _ _ _ _ Hus Hlu Hin) as (? & ? & _).
    split; [|done]. intros ->.
    assert (ρ "universities" lp)
      by (apply (Hρ2 "universities" lu (OList us) lp); [by apply Hρ1|done..]).
    by pose proof (Hρ4 _ _ _ (Hρ1 _ _ Hps) H5). }
  destruct (trace_register _ _ _ _ _ _ _ _ _ Hld Hus Hlu H1)
    as [_ [(Hl & Hw & Hst) | [Hnl (n & _ & Hh2)]]].
  - (* the URL is listed *)
    exists ld, d', lp, (ps ++ ys), lu, us. split; [done|]. split; [done|].
    split; [rewrite Hd'; [done|apply programs_key]|]. split; [done|].
    split; [rewrite Hd'; [done|by apply (not_key meta_keys)]|]. split.
    { apply Hkeep; [done..|]. destruct (Hw _ _ Hlu) as [_ Hk]. apply Hk.
      intros [_ (de & Hde & _)]. congruence. }
    apply Forall_forall. intros x Hx.
    destruct (proj1 (Forall_forall _ _) Hall x Hx) as (e & de & -> & He & Hc).
    destruct (Hentry e Hx) as (? & ? & ?).
    destruct (py_eq_str (default VNone (de !! "url")) url) eqn:Hm.
    + destruct (Hst e Hx) as (de2 & k & z & Hde2 & _ & Hz); [by exists de|].
      exists e, de2. split; [done|]. split; [by apply Hkeep|].
      unfold countable. by rewrite Hz.
    + exists e, de. split; [done|]. split; [|done]. apply Hkeep; [done..|].
      destruct (Hw _ _ He) as [_ Hk]. apply Hk.
      intros [_ (de0 & Hde0 & Hm0)]. congruence.
  - (* a new URL *)
    cbn zeta in Hh2.
    set (f := fresh (dom (heap w1))) in *.
    set (info := fresh (dom (<[f := OList []]> (heap w1)))) in *.
    assert (Hf : ∀ l o, heap w1 !! l = Some o → f ≠ l).
    { intros l o Hl. by eapply fresh_loc_ne. }
    assert (Hi : ∀ l o, heap w1 !! l = Some o → info ≠ l).
    { intros l o Hl. apply (fresh_loc_ne _ _ o).
      rewrite lookup_insert_ne; [done|]. by eapply Hf. }
    exists ld, d', lp, (ps ++ ys), lu, (us ++ [VRef info]).
    split; [done|]. split; [done|].
    split; [rewrite Hd'; [done|apply programs_key]|]. split; [done|].
    split; [rewrite Hd'; [done|by apply (not_key meta_keys)]|]. split.
    { apply Hkeep; [done..|]. rewrite Hh2. apply lookup_insert_eq. }
    apply Forall_app. split.
    + apply Forall_forall. intros x Hx.
      destruct (proj1 (Forall_forall _ _) Hall x Hx) as (e & de & -> & He & Hc).
      destruct (Hentry e Hx) as (? & ? & ?).
      exists e, de. split; [done|]. split; [|done]. apply Hkeep; [done..|].
      rewrite Hh2, !lookup_insert_ne; [done|by eapply Hf|by eapply Hi|done].
    + constructor; [|constructor]. eexists info, _. split; [done|]. split.
      * pose proof (Hi _ _ Hlp). pose proof (Hi _ _ Hld). pose proof (Hi _ _ Hlu).
        apply Hkeep; [done..|]. rewrite Hh2, lookup_insert_ne by done.
        apply lookup_insert_eq.
      * unfold countable. do 3 rewrite lookup_insert_ne by done.
        by rewrite lookup_insert_eq.
Qed.

End Loads.

(** ** Objects that can be written *)

Lemma depth_elem (j : jvalue) (js : list jvalue) : j ∈ js → depth j < depth (JArr js).
Proof.
  intros Hin. cbn. apply Nat.lt_succ_r.
  induction js as [|j' js IH]; [by apply elem_of_nil in Hin|].
  apply elem_of_cons in Hin as [->|Hin]; cbn; [lia|]. specialize (IH Hin). lia.
Qed.

Lemma depth_member (kj : string * jvalue) (kvs : list (string * jvalue)) :
  kj ∈ kvs → depth kj.2 < depth (JObj kvs).
Proof.
  intros Hin. cbn. apply Nat.lt_succ_r.
  induction kvs as [|kj' kvs IH]; [by apply elem_of_nil in Hin|].
  apply elem_of_cons in Hin as [->|Hin]; cbn; [lia|]. specialize (IH Hin). lia.
Qed.

Lemma dump_items_all (f : pyval → dumping jvalue) (xs : list pyval) :
  (∀ x, x ∈ xs → ∃ j, f x = Dumped j) → ∃ js, dump_items f xs = Dumped js.
Proof.
  induction xs as [|x xs IH]; intros Hf; cbn; [by eexists|].
  destruct (Hf x) as [j ->]; [by left|].
  destruct IH as [js ->]; [|by eexists]. intros y Hy. apply Hf. by right.
Qed.

Lemma dump_members_all (f : pyval → dumping jvalue) (kvs : list (string * pyval)) :
  (∀ kv, kv ∈ kvs → ∃ j, f kv.2 = Dumped j) → ∃ js, dump_members f kvs = Dumped js.
Proof.
  induction kvs as [|x xs IH]; intros Hf; cbn; [by eexists|].
  destruct (Hf x) as [j ->]; [by left|].
  destruct IH as [js ->]; [|by eexists]. intros y Hy. apply Hf. by right.
Qed.

Lemma dump_items_mono (f g : pyval → dumping jvalue) (xs : list pyval) js :
  (∀ x j, x ∈ xs → f x = Dumped j → g x = Dumped j) →
  dump_items f xs = Dumped js → dump_items g xs = Dumped js.
Proof.
  revert js. induction xs as [|x xs IH]; intros js Hfg H; cbn in *; [done|].
  destruct (f x) as [j| | |] eqn:Hx; try done. cbn in H.
  rewrite (Hfg x j); [|by left|done]. cbn.
  destruct (dump_items f xs) as [js'| | |]; try done.
  rewrite (IH js'); [done| |done]. intros y j' Hy. apply Hfg. by right.
Qed.

Lemma dump_members_mono (f g : pyval → dumping jvalue) (kvs : list (string * pyval)) js :
  (∀ kv j, kv ∈ kvs → f kv.2 = Dumped j → g kv.2 = Dumped j) →
  dump_members f kvs = Dumped js → dump_members g kvs = Dumped js.
Proof.
  revert js. induction kvs as [|x xs IH]; intros js Hfg H; cbn in *; [done|].
  destruct (f x.2) as [j| | |] eqn:Hx; try done. cbn in H.
  rewrite (Hfg x j); [|by left|done]. cbn.
  destruct (dump_members f xs) as [js'| | |]; try done.
  rewrite (IH js'); [done| |done]. intros y j' Hy. apply Hfg. by right.
Qed.

(** What is written is written as well in a larger heap, and while
    fewer containers are being encoded. *)
Lemma json_dump_from_weaken n h H :
  h ⊆ H →
  ∀ m m' v j, (∀ a, a ∈ m' → a ∈ m) →
    json_dump_from n h m v = Dumped j → json_dump_from n H m' v = Dumped j.
Proof.
  intros Hsub. induction n as [|n IH]; intros m m' v j Hm Hd;
    (destruct v as [|b|z|s|l]; [done..|]); cbn in *.
  - exfalso. destruct (bool_decide (l ∈ m)); [done|]. by destruct (h !! l) as [[]|].
  - destruct (decide (l ∈ m)) as [Hl|Hl].
    { by rewrite bool_decide_eq_true_2 in Hd. }
    rewrite bool_decide_eq_false_2 in Hd by done.
    rewrite bool_decide_eq_false_2 by (intros ?; by apply Hl, Hm).
    destruct (h !! l) as [o|] eqn:Ho; [|done].
    rewrite (lookup_weaken _ _ _ _ Ho Hsub). destruct o as [d|xs].
    + destruct (dump_members _ _) as [kvs| | |] eqn:Hkv; try done.
      erewrite dump_members_mono; [done| |exact Hkv].
      intros kv j' _. apply IH. intros a [->|Ha]%elem_of_cons; [by left|].
      right. by apply Hm.
    + destruct (dump_items _ _) as [js| | |] eqn:Hjs; try done.
      erewrite dump_items_mono; [done| |exact Hjs].
      intros x j' _. apply IH. intros a [->|Ha]%elem_of_cons; [by left|].
      right. by apply Hm.
Qed.

Lemma json_dump_intro n h v j :
  json_dump_from n h [] v = Dumped j → json_dump h v = Dumped j.
Proof.
  intros Hd. pose proof (json_dump_fed h v) as Hfed. unfold json_dump in *.
  rewrite <- (json_dump_from_more_fuel _ _ _ _ _ Hd ltac:(done) (n `max` size h))
    by lia.
  symmetry. apply (json_dump_from_more_fuel _ _ _ _ _ eq_refl Hfed). lia.
Qed.

Lemma json_dump_weaken h H v j :
  h ⊆ H → json_dump h v = Dumped j → json_dump H v = Dumped j.
Proof.
  intros Hsub Hd. apply (json_dump_intro (size h)).
  by apply (json_dump_from_weaken _ h H Hsub [] []).
Qed.

(** What an object that can be written refers to can be written, and
    gives a document that is less deep. *)
Lemma dumped_children h l j :
  json_dump h (VRef l) = Dumped j →
  ∃ o, h !! l = Some o ∧
       ∀ l', refers o l' →
         ∃ j', json_dump h (VRef l') = Dumped j' ∧ depth j' < depth j.
Proof.
  unfold json_dump at 1. intros Hd.
  destruct (size h) as [|n]; cbn in Hd;
    rewrite bool_decide_eq_false_2 in Hd by (by intros ?%elem_of_nil).
  { by destruct (h !! l) as [[]|]. }
  revert Hd. destruct (h !! l) as [[d|xs]|] eqn:Ho; [| |done].
  - destruct (dump_members _ _) as [kvs| | |] eqn:Hkv; try done. intros [= <-].
    eexists. split; [done|]. intros l' (k & Hk).
    apply dump_members_inv in Hkv.
    apply elem_of_map_to_list, list_elem_of_lookup_1 in Hk as [i Hi].
    destruct (Forall2_lookup_l _ _ _ _ _ Hkv Hi) as ([k' j'] & Hj' & _ & Hd).
    cbn in Hd. exists j'. split.
    + apply (json_dump_intro n).
      by apply (json_dump_from_weaken _ h h ltac:(done) [l] []); [intros a ?%elem_of_nil|].
    + apply (depth_member (k', j')). by eapply list_elem_of_lookup_2.
  - destruct (dump_items _ _) as [js| | |] eqn:Hjs; try done. intros [= <-].
    eexists. split; [done|]. intros l' Hin. cbn in Hin.
    apply dump_items_inv in Hjs.
    apply list_elem_of_lookup_1 in Hin as [i Hi].
    destruct (Forall2_lookup_l _ _ _ _ _ Hjs Hi) as (j' & Hj' & Hd).
    exists j'. split.
    + apply (json_dump_intro n).
      by apply (json_dump_from_weaken _ h h ltac:(done) [l] []); [intros a ?%elem_of_nil|].
    + apply depth_elem. by eapply list_elem_of_lookup_2.
Qed.

Lemma depth_at_dumped h l j : json_dump h (VRef l) = Dumped j → depth_at h l = depth j.
Proof. unfold depth_at. by intros ->. Qed.

(** The objects that can be written are ranked by the depth of their
    documents. *)
Lemma dumped_ranked h (N : nat) :
  ranked (λ l, ∃ j, json_dump h (VRef l) = Dumped j ∧ depth j < N) (depth_at h) h.
Proof.
  intros l (j & Hj & HN). destruct (dumped_children _ _ _ Hj) as (o & Ho & Hch).
  exists o. split; [done|]. intros l' Hl'. destruct (Hch l' Hl') as (j' & Hj' & Hlt).
  rewrite (depth_at_dumped _ _ _ Hj), (depth_at_dumped _ _ _ Hj'). split; [|done].
  exists j'. split; [done|lia].
Qed.

(** Ranked objects can be written. *)
Lemma ranked_dumps P rk h :
  ranked P rk h →
  ∀ n m l, P l → rk l < n → (∀ a, a ∈ m → rk l < rk a) →
    ∃ j, json_dump_from n h m (VRef l) = Dumped j.
Proof.
  intros Hr. induction n as [|n IH]; intros m l Hl Hn Hm; [lia|].
  destruct (Hr l Hl) as (o & Ho & Hrefs). cbn.
  rewrite bool_decide_eq_false_2.
  2:{ intros Hin. specialize (Hm l Hin). lia. }
  rewrite Ho.
  assert (Hval : ∀ v, (∀ l', v = VRef l' → refers o l') →
            ∃ j, json_dump_from n h (l :: m) v = Dumped j).
  { intros v Hv. destruct v as [|b|z|s|l']; try (destruct n; by eexists).
    destruct (Hrefs l' (Hv l' eq_refl)) as [Hl' Hlt].
    apply IH; [done|lia|]. intros a [->|Ha]%elem_of_cons; [done|].
    specialize (Hm a Ha). lia. }
  destruct o as [d|xs].
  - destruct (dump_members_all (json_dump_from n h (l :: m)) (map_to_list d)) as [kvs ->];
      [|by eexists].
    intros [k v] Hkv%elem_of_map_to_list. cbn [snd]. apply Hval.
    intros l' ->. by exists k.
  - destruct (dump_items_all (json_dump_from n h (l :: m)) xs) as [js ->]; [|by eexists].
    intros v Hin. apply Hval. by intros l' ->.
Qed.

Lemma ranked_json_dump P rk h l :
  ranked P rk h → P l → ∃ j, json_dump h (VRef l) = Dumped j.
Proof.
  intros Hr Hl.
  destruct (ranked_dumps P rk h Hr (S (rk l)) [] l Hl ltac:(lia)) as [j Hj].
  { by intros a ?%elem_of_nil. }
  exists j. by eapply json_dump_intro.
Qed.

(** ** Saving after a merge *)

Lemma pyval_eq_dec (x y : pyval) : {x = y} + {x ≠ y}.
Proof. solve_decision. Qed.

Lemma refers_insert_scalar (d : gmap string pyval) (k : string) (v : pyval) (l : loc) :
  (∀ l', v ≠ VRef l') → refers (ODict (<[k := v]> d)) l → refers (ODict d) l.
Proof.
  intros Hv (k' & Hk'). destruct (decide (k = k')) as [<-|Hne].
  - rewrite lookup_insert_eq in Hk'. injection Hk' as ->. by destruct (Hv l).
  - rewrite lookup_insert_ne in Hk' by done. by exists k'.
Qed.

Lemma refers_with_meta name url shown t n r l :
  refers (ODict (with_meta name url shown t n r)) l → refers (ODict r) l.
Proof.
  unfold with_meta. intros H.
  do 4 (apply refers_insert_scalar in H; [|done]). done.
Qed.

Section Saves.
Variable DATABASE_FILE : string.
Variable isoformat_now : nat → string.
Variable repr_obj : gmap loc pyobj → loc → string.
Variable partial_dump_error : gmap loc pyobj → pyval → string.

(** The first block gives the objects of the loaded database no new
    reference, but to the new entry, which refers to nothing. *)
Lemma register_refs programs url w1 w2 ld lu d us :
  heap w1 !! ld = Some (ODict d) →
  d !! "universities" = Some (VRef lu) →
  heap w1 !! lu = Some (OList us) →
  register_university isoformat_now (VRef ld) programs
    (university_name_of url) url w1 = Ok tt w2 →
  ∀ l o, heap w1 !! l = Some o →
    ∃ o2, heap w2 !! l = Some o2 ∧
      ∀ l', refers o2 l' →
        refers o l' ∨
        (heap w1 !! l' = None ∧
         ∃ o', heap w2 !! l' = Some o' ∧ ∀ l'', ¬ refers o' l'').
Proof.
  intros Hld Hus Hlu H1 l o Hl.
  destruct (evolving_register_university isoformat_now _ _ _ _ _ _ _ H1) as [Hev _].
  destruct (trace_register _ _ _ _ _ _ _ _ _ Hld Hus Hlu H1)
    as [_ [(_ & Hw & Hst) | [_ (n & _ & Hh2)]]].
  - (* the URL is listed *)
    assert (Hsame : (∀ de, o = ODict de → VRef l ∈ us →
                       py_eq_str (default VNone (de !! "url")) url = false) →
                    ∃ o2, heap w2 !! l = Some o2 ∧
                      ∀ l', refers o2 l' →
                        refers o l' ∨
                        (heap w1 !! l' = None ∧
                         ∃ o', heap w2 !! l' = Some o' ∧ ∀ l'', ¬ refers o' l'')).
    { intros Hno. exists o. split; [|by left].
      destruct (Hw _ _ Hl) as [_ Hk]. apply Hk. intros [Hin (de & Hde & Hm)].
      rewrite Hl in Hde. injection Hde as ->. by rewrite (Hno de) in Hm. }
    destruct o as [d0|xs]; [|by apply Hsame].
    destruct (@list_elem_of_dec pyval pyval_eq_dec (VRef l) us) as [Hin|Hnin];
      [|apply Hsame; by intros].
    destruct (py_eq_str (default VNone (d0 !! "url")) url) eqn:Hm;
      [|apply Hsame; by intros de [= <-]].
    destruct (Hst l Hin) as (de & k & z & Hde & Hsa & Hpc); [by exists d0|].
    destruct (Hev _ _ Hl) as (d2 & Hd2 & Hk). rewrite Hde in Hd2. injection Hd2 as <-.
    exists (ODict de). split; [done|]. intros l' (k' & Hk'). left. exists k'.
    rewrite <- Hk; [done|].
    intros [->|[->|?%elem_of_nil]%elem_of_cons]%elem_of_cons; congruence.
  - (* a new URL *)
    cbn zeta in Hh2.
    set (f := fresh (dom (heap w1))) in *.
    set (info := fresh (dom (<[f := OList []]> (heap w1)))) in *.
    assert (Hf : f ≠ l) by (by eapply fresh_loc_ne).
    assert (Hi1 : heap w1 !! info = None).
    { pose proof (fresh_loc_None (<[f := OList []]> (heap w1))) as Hn. fold info in Hn.
      destruct (decide (f = info)) as [Heq|Hne].
      - rewrite <- Heq. apply fresh_loc_None.
      - by rewrite lookup_insert_ne in Hn. }
    assert (Hi : info ≠ l) by congruence.
    destruct (decide (lu = l)) as [<-|Hne].
    + rewrite Hlu in Hl. injection Hl as <-. eexists. split.
      { rewrite Hh2. apply lookup_insert_eq. }
      intros l' [Hin|[= ->]%list_elem_of_singleton]%elem_of_app; [by left|].
      right. split; [done|]. eexists. split.
      { rewrite Hh2. rewrite lookup_insert_ne by done. apply lookup_insert_eq. }
      intros l'' Hr. do 4 (apply refers_insert_scalar in Hr; [|done]).
      destruct Hr as (k & Hk). by rewrite lookup_empty in Hk.
    + exists o. split; [|by left]. rewrite Hh2. by rewrite !lookup_insert_ne.
Qed.

(** The second block changes the list of programs only, to which it
    appends new records; a new record is a record of the batch with the
    four keys set. *)
Lemma add_programs_refs name url ld d2 items w2 w3 :
  heap w2 !! ld = Some (ODict d2) →
  (∀ li, VRef li ∈ items → is_Some (heap w2 !! li)) →
  for_each items (add_program isoformat_now repr_obj (VRef ld) name url) w2 = Ok tt w3 →
  ∀ l o2, heap w2 !! l = Some o2 →
    ∃ o3, heap w3 !! l = Some o3 ∧
      (o3 = o2 ∨
       (d2 !! "programs" = Some (VRef l) ∧
        ∀ l', refers o3 l' →
          refers o2 l' ∨
          (heap w2 !! l' = None ∧
           ∃ li r shown t n,
             VRef li ∈ items ∧ heap w2 !! li = Some (ODict r) ∧
             heap w3 !! l' = Some (ODict (with_meta name url shown t n r))))).
Proof.
  intros Hd2 Hitems H3 l o2 Hl.
  destruct items as [|item rest].
  { cbn [for_each] in H3. apply ret_ok in H3 as [_ ->]. exists o2. by split; [|left]. }
  pose proof H3 as H3'. cbn [for_each] in H3'. step H3' u w Hx. destruct u.
  apply (add_program_ok isoformat_now repr_obj (VRef ld) name url item w2 ld d2 w eq_refl Hd2)
    in Hx as (li0 & r0 & lp & old & hc0 & _ & _ & Hps & Hlp & _).
  destruct (add_programs_ok isoformat_now repr_obj name url ld d2 lp (item :: rest)
              Hps w2 w3 old Hd2 Hlp Hitems H3) as (_ & Hw & _ & cs & Hcs & Happ).
  destruct (appended_lookup _ _ _ _ _ _ _ _ Happ) as [Hlen Hidx].
  destruct (decide (l = lp)) as [->|Hne].
  - rewrite Hlp in Hl. injection Hl as <-. eexists. split; [exact Hcs|]. right.
    split; [done|].
    intros l' [Hin|Hin]%elem_of_app; [by left|]. right.
    apply list_elem_of_fmap in Hin as (c & [= <-] & (i & Hi)%list_elem_of_lookup_1).
    destruct (lookup_lt_is_Some_2 (item :: rest) i) as [it Hit].
    { rewrite <- Hlen. by eapply lookup_lt_Some. }
    destruct (Hidx i it Hit) as (c' & Hc' & Hcn & li & r & hc & t & -> & Hr & Hnew).
    rewrite Hi in Hc'. injection Hc' as <-. split; [done|].
    exists li, r, (name_shown repr_obj hc r), t, (length old + i).
    split; [by eapply list_elem_of_lookup_2|]. done.
  - exists o2. split; [|by left]. destruct (Hw _ _ Hl) as [_ Hk]. by apply Hk.
Qed.

(** The database that a merge returns can be written, when the batch
    can. *)
Lemma merged_database_dumps lb items url w0 r w' jb :
  add_programs_to_database DATABASE_FILE isoformat_now repr_obj (VRef lb) url w0
    = Ok r w' →
  heap w0 !! lb = Some (OList items) →
  json_dump (heap w0) (VRef lb) = Dumped jb →
  ∃ doc, json_dump (heap w') r = Dumped doc.
Proof.
  intros (w1 & w2 & items' & w3 & ld & d & lu & us & Hload & -> & Hb & _ & _
          & Hld & Hus & Hlu & H1 & H2 & H3 & H4)%add_programs_to_database_inv Hlb Hjb.
  destruct (built_database _ _ _ _ Hb Hld)
    as (Hsub & Hnld & Hkeys & Helems & _).
  destruct Hb as [(_ & Hcl & _) _].
  set (name := university_name_of url) in *.
  (* the objects of the batch *)
  destruct (dumped_children _ _ _ Hjb) as (ob & Hob & Hrec).
  rewrite Hlb in Hob. injection Hob as <-.
  assert (Hw0 : writes_in (λ l, heap w0 !! l = None) (heap w1) (heap w2)).
  { eapply trace_register_writes; try done.
    - intros _ l Hin _. by destruct (Helems _ _ _ _ Hus Hlu Hin) as (_ & _ & ? & _).
    - intros _. by destruct (Hkeys _ _ Hus) as (_ & ? & _). }
  assert (Hold2 : ∀ l o, heap w0 !! l = Some o → heap w2 !! l = Some o).
  { intros l o Hl. destruct (Hw0 l o) as [_ Hkeep].
    - by eapply lookup_weaken.
    - apply Hkeep. congruence. }
  apply py_iter_ok in H2 as [_ H2].
  destruct H2 as [(? & [=] & _) | [(l0 & ? & [= <-] & Hl0 & _) | (l0 & [= <-] & Hl0)]];
    rewrite (Hold2 _ _ Hlb) in Hl0; [discriminate|injection Hl0 as <-].
  destruct (trace_database _ _ _ _ _ _ _ _ _ _ Hld H1 H3) as (d2 & Hd2 & Hd3 & Hk).
  destruct (update_metadata_ok _ _ _ _ _ Hd3 H4) as (ps & n & _ & _ & Hh' & _).
  assert (Hitem : ∀ li, VRef li ∈ items →
            ∃ o j, heap w0 !! li = Some o ∧ heap w2 !! li = Some o ∧
                   json_dump (heap w0) (VRef li) = Dumped j ∧ depth j < depth jb).
  { intros li Hin. destruct (Hrec li Hin) as (j & Hj & Hlt).
    destruct (dumped_children _ _ _ Hj) as (o & Ho & _).
    exists o, j. split; [done|]. split; [by apply Hold2|done]. }
  pose proof (register_refs _ _ _ _ _ _ _ _ Hld Hus Hlu H1) as K1.
  assert (K2 := add_programs_refs name url ld d2 items w2 w3 Hd2
                  ltac:(intros li Hin; destruct (Hitem li Hin) as (o & _ & _ & -> & _);
                        by eexists) H3).
  (* the new objects, and what the old ones refer to after the call *)
  set (C := λ l', heap w1 !! l' = None ∧
                  ∃ o'', heap w' !! l' = Some o'' ∧
                    ∀ l'', refers o'' l'' →
                      ∃ li r, VRef li ∈ items ∧ heap w0 !! li = Some (ODict r)
                              ∧ refers (ODict r) l'').
  assert (Hkeep3 : ∀ l o, l ≠ ld → heap w3 !! l = Some o → heap w' !! l = Some o).
  { intros l o Hne Hl. rewrite Hh'. by rewrite lookup_insert_ne. }
  assert (K : ∀ l o, heap w1 !! l = Some o →
            ∃ o', heap w' !! l = Some o' ∧ ∀ l', refers o' l' → refers o l' ∨ C l').
  { intros l o Hl. destruct (K1 l o Hl) as (o2 & Hl2 & Hr2).
    destruct (K2 l o2 Hl2) as (o3 & Hl3 & Hr3).
    assert (Hrefs3 : ∀ l', refers o3 l' → refers o l' ∨ C l').
    { intros l' Hl'.
      assert (refers o2 l' ∨
              (heap w2 !! l' = None ∧
               ∃ li r shown t n,
                 VRef li ∈ items ∧ heap w2 !! li = Some (ODict r) ∧
                 heap w3 !! l' = Some (ODict (with_meta name url shown t n r))))
        as [Hold|(Hnew & li & r & shown & t & n' & Hin & Hli & Hc)].
      { destruct Hr3 as [->|[_ Hr3]]; [by left|by apply Hr3]. }
      - destruct (Hr2 l' Hold) as [?|(Hn1 & o' & Ho' & Hflat)]; [by left|].
        right. split; [done|]. exists o'. split; [|intros l'' Hl''; by destruct (Hflat l'')].
        apply Hkeep3; [congruence|].
        destruct (K2 l' o' Ho') as (o3' & Hl3' & [->|[Hps _]]); [done|].
        rewrite Hk in Hps by (by apply (not_key scrape_keys)).
        destruct (Hkeys _ _ Hps) as (_ & _ & [? ?]). congruence.
      - right. split.
        { destruct (heap w1 !! l') as [o1|] eqn:Ho1; [|done].
          destruct (K1 _ _ Ho1) as (? & ? & _). congruence. }
        eexists. split; [apply Hkeep3; [congruence|exact Hc]|].
        intros l'' Hl''%refers_with_meta. exists li, r. split; [done|]. split; [|done].
        destruct (Hitem li Hin) as (oi & _ & Hoi & Hoi2 & _). congruence. }
    destruct (decide (l = ld)) as [->|Hne].
    - rewrite Hd3 in Hl3. injection Hl3 as <-. eexists. split.
      { rewrite Hh'. apply lookup_insert_eq. }
      intros l' Hl'. apply Hrefs3.
      by do 2 (apply refers_insert_scalar in Hl'; [|done]).
    - exists o3. split; [by apply Hkeep3|done]. }
  (* the ranks *)
  set (N := depth jb).
  set (B := λ l, ∃ j, json_dump (heap w0) (VRef l) = Dumped j ∧ depth j < N).
  set (D1 := λ l, heap w0 !! l = None ∧ ∃ j, json_dump (heap w1) (VRef l) = Dumped j).
  set (rk := λ l, match heap w0 !! l with
                  | Some _ => depth_at (heap w0) l
                  | None => match heap w1 !! l with
                            | Some _ => N + 1 + depth_at (heap w1) l
                            | None => N
                            end
                  end).
  assert (HB : ∀ l, B l → is_Some (heap w0 !! l)).
  { intros l (j & Hj & _). destruct (dumped_children _ _ _ Hj) as (o & -> & _). by eexists. }
  assert (Hranked : ranked (λ l, B l ∨ C l ∨ D1 l) rk (heap w')).
  { intros l [HBl | [HCl | HDl]].
    - (* an object of the batch *)
      destruct (dumped_ranked (heap w0) N l HBl) as (o & Ho & Hrefs).
      exists o. split.
      { assert (Hw : writes_in (λ l, heap w0 !! l = None) (heap w1) (heap w')).
        { eapply trace_writes; try done.
          - intros _ l0 Hin _. by destruct (Helems _ _ _ _ Hus Hlu Hin) as (_ & _ & ? & _).
          - intros _. by destruct (Hkeys _ _ Hus) as (_ & ? & _).
          - intros _ lp Hps. by destruct (Hkeys _ _ Hps) as (_ & ? & _). }
        destruct (Hw l o) as [_ Hkeep]; [by eapply lookup_weaken|].
        apply Hkeep. congruence. }
      intros l' Hl'. destruct (Hrefs l' Hl') as [HBl' Hlt]. split; [by left|].
      unfold rk. destruct (HB l' HBl') as [? ->]. by rewrite Ho.
    - (* a new object *)
      destruct HCl as (Hn1 & o'' & Ho'' & Hrefs). exists o''. split; [done|].
      intros l'' Hl''. destruct (Hrefs l'' Hl'') as (li & r & Hin & Hli & Hr).
      destruct (Hitem li Hin) as (o & j & Ho & _ & Hj & Hlt).
      destruct (dumped_children _ _ _ Hj) as (o' & Ho' & Hch).
      rewrite Hli in Ho'. injection Ho' as <-.
      destruct (Hch l'' Hr) as (j'' & Hj'' & Hlt'').
      assert (B l'') as HBl'' by (exists j''; split; [done|unfold N; lia]).
      split; [by left|]. unfold rk. destruct (HB l'' HBl'') as [? ->].
      assert (heap w0 !! l = None) as ->.
      { destruct (heap w0 !! l) as [o0|] eqn:Ho0; [|done].
        by rewrite (lookup_weaken _ _ _ _ Ho0 Hsub) in Hn1. }
      rewrite Hn1, (depth_at_dumped _ _ _ Hj''). unfold N. lia.
    - (* an object of the loaded database *)
      destruct HDl as (Hn0 & j & Hj).
      destruct (dumped_children _ _ _ Hj) as (o & Ho & Hch).
      destruct (K l o Ho) as (o' & Ho' & Hrefs). exists o'. split; [done|].
      assert (rk l = N + 1 + depth j) as ->.
      { unfold rk. by rewrite Hn0, Ho, (depth_at_dumped _ _ _ Hj). }
      intros l' Hl'. destruct (Hrefs l' Hl') as [Hold|HCl'].
      + destruct (Hch l' Hold) as (j' & Hj' & Hlt).
        assert (fresh_in (heap w0) (heap w1) l') as [Hn0' [o1 Ho1]].
        { apply (Hcl l o l'); [|done..]. split; [done|by eexists]. }
        split.
        * right. right. split; [done|]. by exists j'.
        * unfold rk. rewrite Hn0', Ho1, (depth_at_dumped _ _ _ Hj'). lia.
      + split; [by right; left|]. destruct HCl' as (Hn1 & _).
        unfold rk.
        assert (heap w0 !! l' = None) as ->.
        { destruct (heap w0 !! l') as [o0|] eqn:Ho0; [|done].
          by rewrite (lookup_weaken _ _ _ _ Ho0 Hsub) in Hn1. }
        rewrite Hn1. lia. }
  apply (ranked_json_dump _ _ _ ld Hranked). right. right. split; [done|].
  eexists. by eapply load_database_dump.
Qed.


Section Pipeline.
Variable api_key : string.
Variable chat_completion : string → string → api_result.
Variable json_loads : string → option jvalue.

(** What [extract_programs_with_openai] returns is [None] or a list
    that can be written. *)
Lemma extracted_list_dumps content url w r w' :
  extract_programs_with_openai api_key chat_completion json_loads content url w
    = Ok r w' →
  r = VNone ∨
  ∃ l vs j, r = VRef l ∧ heap w' !! l = Some (OList vs) ∧
            json_dump (heap w') (VRef l) = Dumped j.
Proof.
  assert (Hnew : ∀ w1 r w', alloc (OList []) w1 = Ok r w' →
            ∃ l vs j, r = VRef l ∧ heap w' !! l = Some (OList vs) ∧
                      json_dump (heap w') (VRef l) = Dumped j).
  { intros w1 r0 w0' [-> ->]%alloc_ok. cbn [heap set_heap].
    eexists _, [], (JArr []). split; [done|]. split; [apply lookup_insert_eq|].
    apply (json_dump_intro 1). cbn.
    rewrite bool_decide_eq_false_2 by (by intros ?%elem_of_nil).
    by rewrite lookup_insert_eq. }
  unfold extract_programs_with_openai.
  destruct (String.eqb api_key EmptyString).
  { intros H. step H u w1 Hd. apply ret_ok in H as [-> _]. by left. }
  destruct (chat_completion api_key (prompt_of content url)) as [msg|[text|]].
  { intros H. step H u w1 Hd. apply ret_ok in H as [-> _]. by left. }
  2:{ intros H. step H u w1 Hd. apply ret_ok in H as [-> _]. by left. }
  destruct (json_loads (clean_response text)) as [doc|]; intros H; right.
  - step H v w1 Hv. step H b w2 Hb.
    pose proof (json_build_dump _ _ _ _ Hv) as Hdump.
    destruct b; [|by eapply Hnew].
    apply ret_ok in H as [-> ->].
    destruct v as [|b|z|s|l]; try (by apply ret_ok in Hb as [[=] _]).
    unfold py_is_list in Hb. step Hb o w3 Ho. apply lookup_obj_ok in Ho as [-> Ho].
    destruct o as [d|vs]; apply ret_ok in Hb as [[=] ->]. by eexists l, vs, _.
  - step H u w1 Hd. step H u' w2 Hd'. by eapply Hnew.
Qed.


End Pipeline.

End Saves.

(** ** save_database, whatever the database is *)

Lemma dump_items_no_dangling (f : pyval → dumping jvalue) (xs : list pyval) :
  (∀ x, x ∈ xs → f x ≠ Dangling) → dump_items f xs ≠ Dangling.
Proof.
  induction xs as [|x xs IH]; intros Hf; cbn; [done|].
  pose proof (Hf x ltac:(by left)).
  destruct (f x); cbn; try done.
  assert (dump_items f xs ≠ Dangling) by (apply IH; intros y Hy; apply Hf; by right).
  by destruct (dump_items f xs).
Qed.

Lemma dump_members_no_dangling (f : pyval → dumping jvalue) (kvs : list (string * pyval)) :
  (∀ kv, kv ∈ kvs → f kv.2 ≠ Dangling) → dump_members f kvs ≠ Dangling.
Proof.
  induction kvs as [|x xs IH]; intros Hf; cbn; [done|].
  pose proof (Hf x ltac:(by left)).
  destruct (f x.2); cbn; try done.
  assert (dump_members f xs ≠ Dangling) by (apply IH; intros y Hy; apply Hf; by right).
  by destruct (dump_members f xs).
Qed.

(** In a heap whose references all lead to objects, the encoder never
    meets a reference to no object. *)
Lemma json_dump_from_no_dangling n h :
  closed_in h (λ l, is_Some (h !! l)) →
  ∀ m v, (∀ l, v = VRef l → is_Some (h !! l)) → json_dump_from n h m v ≠ Dangling.
Proof.
  intros Hcl. induction n as [|n IH]; intros m v Hv;
    (destruct v as [|b|z|s|l]; [done..|]); cbn;
    destruct (Hv l eq_refl) as [o Ho]; rewrite Ho.
  - destruct (bool_decide (l ∈ m)); [done|]. by destruct o.
  - destruct (bool_decide (l ∈ m)); [done|]. destruct o as [d|xs].
    + assert (dump_members (json_dump_from n h (l :: m)) (map_to_list d) ≠ Dangling).
      { apply dump_members_no_dangling. intros [k v] Hkv%elem_of_map_to_list.
        cbn [snd]. apply IH. intros l' ->. apply (Hcl l (ODict d) l'); [by eexists|done|].
        by exists k. }
      by destruct (dump_members _ _).
    + assert (dump_items (json_dump_from n h (l :: m)) xs ≠ Dangling).
      { apply dump_items_no_dangling. intros v Hin.
        apply IH. intros l' ->. apply (Hcl l (OList xs) l'); [by eexists|done..]. }
      by destruct (dump_items _ _).
Qed.

Lemma canon_empty_document :
  canon empty_document
  = JObj [("universities", JArr []); ("last_updated", JNull);
          ("total_programs", JInt 0%Z); ("programs", JArr [])]%string.
Proof. vm_compute. reflexivity. Qed.

(** Loading the empty collection as it is written. *)
Lemma json_build_canon_empty w :
  let lu := fresh (dom (heap w)) in
  let lp := fresh (dom (<[lu := OList []]> (heap w))) in
  let ld := fresh (dom (<[lp := OList []]> (<[lu := OList []]> (heap w)))) in
  json_build (canon empty_document) w =
    Ok (VRef ld)
       (set_heap (<[ld := ODict (<["programs" := VRef lp]>
                                (<["universities" := VRef lu]>
                                (<["last_updated" := VNone]>
                                (<["total_programs" := VInt 0]> ∅))))]>
                  (<[lp := OList []]> (<[lu := OList []]> (heap w)))) w).
Proof. rewrite canon_empty_document. reflexivity. Qed.

Section Clears.
Variable DATABASE_FILE : string.
Variable partial_dump_error : gmap loc pyobj → pyval → string.



End Clears.

(** ** The total after a merge *)

Section Total.
Variable DATABASE_FILE : string.
Variable isoformat_now : nat → string.
Variable repr_obj : gmap loc pyobj → loc → string.

(** X20. A merge adds the size of the batch to the total: when the
    loaded database has [n] programs and the batch has [k] records, the
    database returned has [n + k] programs, its [total_programs] is
    [n + k], and its [last_updated] is a reading of the clock. *)
Theorem total_grows_by_batch lb items url w0 r w' w1 ld d lp old :
  add_programs_to_database DATABASE_FILE isoformat_now repr_obj (VRef lb) url w0
    = Ok r w' →
  heap w0 !! lb = Some (OList items) →
  (∀ li, VRef li ∈ items → is_Some (heap w0 !! li)) →
  load_database DATABASE_FILE w0 = Ok (VRef ld) w1 →
  heap w1 !! ld = Some (ODict d) →
  d !! "programs" = Some (VRef lp) →
  heap w1 !! lp = Some (OList old) →
  ∃ d' news t,
    r = VRef ld ∧ heap w' !! ld = Some (ODict d') ∧
    d' !! "programs" = Some (VRef lp) ∧
    heap w' !! lp = Some (OList (old ++ news)) ∧ length news = length items ∧
    d' !! "total_programs" = Some (VInt (Z.of_nat (length old + length items))) ∧
    d' !! "last_updated" = Some (VStr (isoformat_now t)).
Proof.
  intros Hmerge Hlb Hitems Hload Hld Hps Hlp.
  destruct (merge_appends_records _ _ _ _ _ _ _ _ _ _ _ _ _ _
              Hmerge Hlb Hitems Hload Hld Hps Hlp) as (cs & Hcs & Hlen & _).
  apply add_programs_to_database_inv in Hmerge
    as (w1' & w2 & items' & w3 & ld' & d0 & lu & us & Hload' & -> & Hb & _ & _
        & Hld' & Hus & Hlu & H1 & H2 & H3 & H4).
  rewrite Hload in Hload'. injection Hload' as <- <-.
  rewrite Hld in Hld'. injection Hld' as <-.
  destruct (built_database _ _ _ _ Hb Hld) as (_ & _ & Hkeys & _).
  assert (Hne : lp ≠ ld) by (by destruct (Hkeys _ _ Hps) as [? _]).
  destruct (trace_database _ _ _ _ _ _ _ _ _ _ Hld H1 H3) as (d2 & Hd2 & Hd3 & Hk).
  destruct (update_metadata_ok _ _ _ _ _ Hd3 H4) as (ps & n & Hps2 & Hn & Hh' & _).
  rewrite Hk in Hps2 by (by apply (not_key scrape_keys)).
  rewrite Hps in Hps2. injection Hps2 as <-.
  assert (Hlp3 : heap w3 !! lp = Some (OList (old ++ (VRef <$> cs)))).
  { rewrite Hh', lookup_insert_ne in Hcs by done. exact Hcs. }
  unfold len_of in Hn. rewrite lookup_insert_ne, Hlp3 in Hn by done.
  injection Hn as <-.
  eexists _, (VRef <$> cs), (ticks w3). split; [done|]. split.
  { rewrite Hh'. apply lookup_insert_eq. }
  split.
  { rewrite !lookup_insert_ne by done. rewrite Hk; [done|].
    by apply (not_key scrape_keys). }
  split; [done|]. split; [by rewrite length_fmap|]. split.
  - rewrite lookup_insert_eq. by rewrite length_app, length_fmap, Hlen.
  - rewrite lookup_insert_ne by done. by rewrite lookup_insert_eq.
Qed.

End Total.

(** ** The name of a source, whatever the URL is *)

Lemma str_split_head (s : string) :
  ∃ x xs, str_split "/" s = x :: xs ∧ x = until_slash s.
Proof.
  induction s as [|c s (x & xs & IH & ->)]; cbn; [by eexists _, _|].
  destruct (Ascii.eqb c "/"); [by eexists _, _|]. rewrite IH. by eexists _, _.
Qed.

Lemma until_slash_no_slash (s : string) : no_slash (until_slash s) = true.
Proof.
  induction s as [|c s IH]; cbn; [done|].
  destruct (Ascii.eqb c "/") eqn:Hc; cbn; [done|]. by rewrite Hc.
Qed.

Lemma until_slash_prefix (s : string) : String.prefix (until_slash s) s = true.
Proof.
  induction s as [|c s IH]; cbn; [done|].
  destruct (Ascii.eqb c "/"); cbn; [done|]. by destruct (ascii_dec c c).
Qed.

(** X21. Whatever the URL is, the name attached to the records holds
    no slash: it is the text before the first slash of the URL with every
    [https://] and then every [http://] removed. *)
Theorem university_name_has_no_slash (url : string) :
  no_slash (university_name_of url) = true ∧
  university_name_of url
  = until_slash (str_replace "http://" EmptyString
                   (str_replace "https://" EmptyString url)) ∧
  String.prefix (university_name_of url)
    (str_replace "http://" EmptyString (str_replace "https://" EmptyString url)) = true.
Proof.
  unfold university_name_of.
  destruct (str_split_head (str_replace "http://" EmptyString
                              (str_replace "https://" EmptyString url)))
    as (x & xs & -> & ->).
  cbn [hd]. split; [apply until_slash_no_slash|]. split; [done|].
  apply until_slash_prefix.
Qed.

(** ** The further theorems on examples *)

Lemma save_then_load_witness :
  ∃ doc,
    db_file (result_world
               (load0 (result_world (save0 (VRef 2%positive)
                                       (world0 FileMissing code_camp_heap)))))
      = FileData doc ∧
    json_dump (heap (world0 FileMissing code_camp_heap)) (VRef 2%positive) = Dumped doc ∧
    json_dump (heap (result_world
                       (load0 (result_world (save0 (VRef 2%positive)
                                               (world0 FileMissing code_camp_heap))))))
      (VRef 3%positive) = Dumped doc ∧
    (∀ l, VRef 3%positive = VRef l →
          heap (world0 FileMissing code_camp_heap) !! l = None) ∧
    (∀ l o, heap (world0 FileMissing code_camp_heap) !! l = Some o →
            heap (result_world
                    (load0 (result_world (save0 (VRef 2%positive)
                                            (world0 FileMissing code_camp_heap)))))
              !! l = Some o).
Proof.
  apply (save_then_load database_path dump_error0 (VRef 2%positive)
           (world0 FileMissing code_camp_heap)
           [StSuccess (" Database saved to: " +:+ database_path)]
           (result_world (save0 (VRef 2%positive) (world0 FileMissing code_camp_heap)))).
  - vm_compute; reflexivity.
  - vm_compute; reflexivity.
Defined.


Lemma simple_scrape_blank_witness :
  simple_scrape page0 "https://blank.example/" (world0 FileMissing ∅)
    = Ok (VStr EmptyString) (world0 FileMissing ∅) ∧
  py_truthy (VStr EmptyString) (world0 FileMissing ∅) = Ok false (world0 FileMissing ∅) ∧
  py_truthy VNone (world0 FileMissing ∅) = Ok false (world0 FileMissing ∅).
Proof.
  apply (simple_scrape_blank page0 "https://blank.example/" blank_page).
  - vm_compute; reflexivity.
  - vm_compute; reflexivity.
Defined.

Lemma non_array_gives_empty_list_witness :
  ∃ l w',
    extract_programs_with_openai "sk-test" (completion_of "{}") loads_small
      "<html></html>" "https://a.edu" (world0 FileMissing ∅) = Ok (VRef l) w' ∧
    heap (world0 FileMissing ∅) !! l = None ∧ heap w' !! l = Some (OList []) ∧
    ui w' = ui (world0 FileMissing ∅) ∧
    verdict_of (VRef l) w' = Ok NoProgramsFound w'.
Proof.
  apply (non_array_gives_empty_list "sk-test" (completion_of "{}") loads_small
           "<html></html>" "https://a.edu" "{}" (JObj [])).
  - discriminate.
  - reflexivity.
  - vm_compute; reflexivity.
  - discriminate.
Defined.

Lemma array_gives_its_list_witness :
  ∃ l vs w',
    extract_programs_with_openai "sk-test" (completion_of "[1]") loads_small
      "<html></html>" "https://a.edu" (world0 FileMissing ∅) = Ok (VRef l) w' ∧
    heap (world0 FileMissing ∅) !! l = None ∧ heap w' !! l = Some (OList vs) ∧
    length vs = length [JInt 1] ∧
    json_dump (heap w') (VRef l) = Dumped (canon (JArr [JInt 1])) ∧
    ui w' = ui (world0 FileMissing ∅).
Proof.
  apply (array_gives_its_list "sk-test" (completion_of "[1]") loads_small
           "<html></html>" "https://a.edu" "[1]" [JInt 1]).
  - discriminate.
  - reflexivity.
  - vm_compute; reflexivity.
Defined.

Lemma merge_of_non_object_witness :
  ∃ w', merge0 "https://a.edu" (world0 (FileData (JArr [])) code_camp_heap)
        = Raise AttributeError w'.
Proof.
  apply (merge_of_non_object database_path clock0 repr0 (JArr [])).
  - reflexivity.
  - discriminate.
Defined.

Lemma merge_without_universities_witness :
  ∃ w', merge0 "https://a.edu"
          (world0 (FileData (JObj [("programs", JArr [])])) code_camp_heap)
        = Raise KeyError w'.
Proof.
  apply (merge_without_universities database_path clock0 repr0
           [("programs", JArr [])] 1%positive [VRef 2%positive]).
  - reflexivity.
  - intros [=]%list_elem_of_singleton.
  - vm_compute; reflexivity.
Defined.

Lemma merge_of_scalar_record_witness :
  ∃ w', merge0 "https://a.edu" (world0 FileMissing titles_heap) = Raise AttributeError w'.
Proof.
  apply (merge_of_scalar_record database_path clock0 repr0 1%positive
           (VStr "Code Camp") [] "https://a.edu" (world0 FileMissing titles_heap)
           (VRef 4%positive) (result_world (load0 (world0 FileMissing titles_heap)))).
  - vm_compute; reflexivity.
  - eexists 4%positive, _, 2%positive, [], 3%positive, [].
    split; [reflexivity|]. split; [vm_compute; reflexivity|].
    split; [vm_compute; reflexivity|]. split; [vm_compute; reflexivity|].
    split; [vm_compute; reflexivity|]. split; [vm_compute; reflexivity|].
    constructor.
  - vm_compute; reflexivity.
  - discriminate.
Defined.

Lemma new_ids_distinct_witness :
  ∃ cs,
    heap (result_world (merge0 "https://a.edu" twin_world)) !! 4%positive
      = Some (OList ([] ++ (VRef <$> cs))) ∧
    length cs = length [VRef 2%positive; VRef 3%positive] ∧ NoDup cs ∧
    ∀ i j ci cj, cs !! i = Some ci → cs !! j = Some cj →
      ∃ di dj idi idj,
        heap (result_world (merge0 "https://a.edu" twin_world)) !! ci = Some (ODict di) ∧
        heap (result_world (merge0 "https://a.edu" twin_world)) !! cj = Some (ODict dj) ∧
        di !! "id" = Some (VStr idi) ∧ dj !! "id" = Some (VStr idj) ∧
        (idi = idj → i = j).
Proof.
  eapply (new_ids_distinct database_path clock0 repr0 1%positive
            [VRef 2%positive; VRef 3%positive] "https://a.edu" twin_world
            (VRef 6%positive) (result_world (merge0 "https://a.edu" twin_world))
            (result_world (load0 twin_world)) 6%positive _ 4%positive []).
  - vm_compute; reflexivity.
  - vm_compute; reflexivity.
  - intros li [[= ->]|Hin]%elem_of_cons.
    + eexists. vm_compute; reflexivity.
    + apply list_elem_of_singleton in Hin. injection Hin as ->.
      eexists. vm_compute; reflexivity.
  - vm_compute; reflexivity.
  - vm_compute; reflexivity.
  - vm_compute; reflexivity.
  - vm_compute; reflexivity.
Defined.

Lemma rescrape_adds_to_count_witness :
  ∃ k, heap (result_world (merge0 "https://a.edu/" scrape_world)) !! 5%positive =
         Some (ODict (<["programs_count" :=
                          VInt (count_of a_edu_entry
                                + Z.of_nat (length [VRef 2%positive]))]>
                     (<["scraped_at" := VStr (clock0 k)]> a_edu_entry))).
Proof.
  eapply (rescrape_adds_to_count database_path clock0 repr0 1%positive
            [VRef 2%positive] "https://a.edu/" scrape_world (VRef 7%positive)
            (result_world (merge0 "https://a.edu/" scrape_world))
            (result_world (load0 scrape_world)) 7%positive _ 6%positive
            [VRef 5%positive] 5%positive a_edu_entry).
  - vm_compute; reflexivity.
  - vm_compute; reflexivity.
  - vm_compute; reflexivity.
  - vm_compute; reflexivity.
  - vm_compute; reflexivity.
  - vm_compute; reflexivity.
  - apply list_elem_of_here.
  - vm_compute; reflexivity.
  - vm_compute; reflexivity.
Defined.

Lemma merge_keeps_collection_witness :
  collection_at (heap (result_world (merge0 "https://a.edu" scrape_world)))
    (VRef 7%positive).
Proof.
  apply (merge_keeps_collection database_path clock0 repr0 (VRef 1%positive)
           "https://a.edu" scrape_world (VRef 7%positive)
           (result_world (merge0 "https://a.edu" scrape_world)) (VRef 7%positive)
           (result_world (load0 scrape_world))).
  - vm_compute; reflexivity.
  - vm_compute; reflexivity.
  - eexists 7%positive, _, 4%positive, [VRef 3%positive], 6%positive, [VRef 5%positive].
    split; [reflexivity|]. split; [vm_compute; reflexivity|].
    split; [vm_compute; reflexivity|]. split; [vm_compute; reflexivity|].
    split; [vm_compute; reflexivity|]. split; [vm_compute; reflexivity|].
    constructor; [|constructor]. eexists 5%positive, _.
    split; [reflexivity|]. split; [vm_compute; reflexivity|]. vm_compute. exact I.
Defined.




Lemma total_grows_by_batch_witness :
  ∃ d' news t,
    VRef 7%positive = VRef 7%positive ∧
    heap (result_world (merge0 "https://a.edu" scrape_world)) !! 7%positive
      = Some (ODict d') ∧
    d' !! "programs" = Some (VRef 4%positive) ∧
    heap (result_world (merge0 "https://a.edu" scrape_world)) !! 4%positive
      = Some (OList ([VRef 3%positive] ++ news)) ∧
    length news = length [VRef 2%positive] ∧
    d' !! "total_programs"
      = Some (VInt (Z.of_nat (length [VRef 3%positive] + length [VRef 2%positive]))) ∧
    d' !! "last_updated" = Some (VStr (clock0 t)).
Proof.
  eapply (total_grows_by_batch database_path clock0 repr0 1%positive
            [VRef 2%positive] "https://a.edu" scrape_world (VRef 7%positive)
            (result_world (merge0 "https://a.edu" scrape_world))
            (result_world (load0 scrape_world)) 7%positive _ 4%positive
            [VRef 3%positive]).
  - vm_compute; reflexivity.
  - vm_compute; reflexivity.
  - intros li Hin. apply list_elem_of_singleton in Hin. injection Hin as ->.
    eexists. vm_compute; reflexivity.
  - vm_compute; reflexivity.
  - vm_compute; reflexivity.
  - vm_compute; reflexivity.
  - vm_compute; reflexivity.
Defined.
